(** * The resilient API-client runtime of the Backstage IDP Python SDK

    A shallow embedding of
      - [backstage_idp_sdk/exceptions.py]          (error taxonomy, classifier),
      - [backstage_idp_sdk/client/http_client.py]  (circuit breaker, rate
        limiter, request executor with its tenacity retry loop),
      - [backstage_idp_sdk/auth/auth_manager.py]   (token store, refresh,
        scheduled refresh),
    and the properties of the design document that are checked against it.

    Conventions.  Python floats are idealised as rationals ([Q],
    seconds), without the range limits of [float], [timedelta] and
    [datetime]; a datetime is such an instant, tagged naive or
    timezone-aware; Python ints are [Z].  Mutable objects are explicit
    states threaded through a state-and-exception monad in which a raised
    exception keeps the mutations done so far, as in Python.  Everything
    the program gets from outside (HTTP responses, the clock, the event
    loop, the application's callbacks, JWT and date decoding) is data of
    the environment, so every definition runs.  A coroutine runs from
    its call to its end without another one in between. *)

From Stdlib Require Import QArith Qminmax Qround Lqa ZArith Ascii String List Lia DecimalString.
From stdpp Require Import gmap strings list fin_maps.

Set Warnings "-register-all".

#[local] Open Scope string_scope.
#[local] Open Scope Z_scope.

(* ===================================================================== *)
(** ** Python values                                                      *)
(* ===================================================================== *)

(** Values decoded from a JSON body ([response.json()]).  Objects are
    Python dicts. *)
Inductive json :=
| JNull
| JBool (b : bool)
| JNum (q : Q)
| JStr (s : string)
| JList (l : list json)
| JDict (d : gmap string json).

(** Python truthiness ([x or default], [if x:]). *)
Definition truthy (v : json) : bool :=
  match v with
  | JNull => false
  | JBool b => b
  | JNum q => negb (Qeq_bool q 0)
  | JStr s => negb (String.eqb s "")
  | JList l => match l with [] => false | _ => true end
  | JDict d => negb (bool_decide (d = ∅))
  end.

(** [d.get(key, default)]. *)
Definition dict_get (d : gmap string json) (key : string) (dflt : json) : json :=
  default dflt (d !! key).

(** [str(n)] of an int. *)
Definition dec (n : Z) : string := NilZero.string_of_int (Z.to_int n).

(** Text built by f-strings.  The rendering of an arbitrary value by
    [str()] is kept symbolic ([StrOf]); no decision of the program reads a
    rendered text. *)
Inductive pystr :=
| Str (s : string)
| StrOf (v : json)
| Cat (a b : pystr).

Infix "+++" := Cat (at level 60, right associativity).

(* ===================================================================== *)
(** ** exceptions.py                                                      *)
(* ===================================================================== *)

Module Exceptions.

(** The classes of the SDK's exception hierarchy; all but the first
    derive directly from [BackstageSDKError]. *)
Inductive ErrorClass :=
| BackstageSDKError
| AuthenticationError
| AuthorizationError
| NotFoundError
| ValidationError
| RateLimitError
| ServerError
| NetworkError
| TimeoutError
| ConfigurationError
| WebSocketError
| GraphQLError
| CircuitBreakerError
| RetryError.

#[export] Instance ErrorClass_eq_dec : EqDecision ErrorClass.
Proof. solve_decision. Defined.

(** An instance of [BackstageSDKError] or of one of its subclasses, with
    the attributes set by [BackstageSDKError.__init__]. *)
Record SDKError := mkSDKError {
  err_class : ErrorClass;
  message : pystr;
  code : json;
  status : option Z;
  details : json
}.

(** Python exceptions the client meets.  [httpx.TimeoutException] is a
    subclass of [httpx.RequestError]; [HttpxRequestError] stands for the
    other [RequestError]s (connection failures).  [Builtin] covers
    [TypeError], [KeyError] and the like. *)
Inductive Exn :=
| SDK (e : SDKError)
| HttpxTimeoutException (m : pystr)
| HttpxRequestError (m : pystr)
| Builtin (name : string) (m : pystr).

Inductive Res (A : Type) :=
| Ok (a : A)
| Raise (e : Exn).
Arguments Ok {A} a.
Arguments Raise {A} e.

Definition isinstance_BackstageSDKError (e : Exn) : bool :=
  match e with SDK _ => true | _ => false end.
Definition isinstance_httpx_TimeoutException (e : Exn) : bool :=
  match e with HttpxTimeoutException _ => true | _ => false end.
Definition isinstance_httpx_RequestError (e : Exn) : bool :=
  match e with HttpxTimeoutException _ | HttpxRequestError _ => true | _ => false end.

(** [BackstageSDKError.__str__]. *)
Definition SDKError_str (e : SDKError) : pystr :=
  match status e with
  | Some s =>
      if (s =? 0)%Z then Str "[" +++ StrOf (code e) +++ Str "] " +++ message e
      else Str "[" +++ StrOf (code e) +++ Str "] " +++ message e
             +++ Str " (HTTP " +++ Str (dec s) +++ Str ")"
  | None => Str "[" +++ StrOf (code e) +++ Str "] " +++ message e
  end.

(** [str(e)] / [f"{e}"]. *)
Definition str (e : Exn) : pystr :=
  match e with
  | SDK e => SDKError_str e
  | HttpxTimeoutException m | HttpxRequestError m | Builtin _ m => m
  end.

(** Keyword arguments of a constructor call.  Only [code], [status] and
    [details] are ever passed by keyword in the SDK. *)
Record kwargs := mkKwargs {
  kw_code : option json;
  kw_status : option Z;
  kw_details : option json
}.

Definition no_kwargs : kwargs := mkKwargs None None None.

(** [BackstageSDKError.__init__(self, message, code=None, status=None,
    details=None)]. *)
Definition BackstageSDKError_init (cls : ErrorClass) (msg : pystr)
    (code : option json) (status : option Z) (details : option json) : SDKError :=
  {| err_class := cls;
     message := msg;
     code := match code with
             | Some c => if truthy c then c else JStr "SDK_ERROR"
             | None => JStr "SDK_ERROR"
             end;
     status := status;
     details := match details with
                | Some d => if truthy d then d else JDict ∅
                | None => JDict ∅
                end |}.

(** The [code=...] every subclass passes to [super().__init__]. *)
Definition class_code (cls : ErrorClass) : string :=
  match cls with
  | BackstageSDKError => "SDK_ERROR"
  | AuthenticationError => "AUTH_ERROR"
  | AuthorizationError => "AUTHORIZATION_ERROR"
  | NotFoundError => "NOT_FOUND"
  | ValidationError => "VALIDATION_ERROR"
  | RateLimitError => "RATE_LIMIT_ERROR"
  | ServerError => "SERVER_ERROR"
  | NetworkError => "NETWORK_ERROR"
  | TimeoutError => "TIMEOUT_ERROR"
  | ConfigurationError => "CONFIG_ERROR"
  | WebSocketError => "WEBSOCKET_ERROR"
  | GraphQLError => "GRAPHQL_ERROR"
  | CircuitBreakerError => "CIRCUIT_BREAKER_ERROR"
  | RetryError => "RETRY_ERROR"
  end.

(** The [status=...] a subclass passes to [super().__init__], if it
    passes one. *)
Definition class_status (cls : ErrorClass) : option Z :=
  match cls with
  | AuthenticationError => Some 401
  | AuthorizationError => Some 403
  | NotFoundError => Some 404
  | ValidationError => Some 400
  | RateLimitError => Some 429
  | ServerError => Some 500
  | _ => None
  end.

Definition multiple_values (kw : string) : Exn :=
  Builtin "TypeError"
    (Str "BackstageSDKError.__init__() got multiple values for keyword argument '"
       +++ Str kw +++ Str "'").

(** Calling a class: [cls(message, **kw)].

    The base class binds the keywords to its own parameters.  A subclass
    is [def __init__(self, message=..., **kwargs):
          super().__init__(message, code=C, status=S, **kwargs)]
    (the [status=S] only where [class_status] has one): Python raises
    [TypeError] when a keyword given explicitly in a call is also a key of
    the [**kwargs] mapping, so a [code] (or, where [S] is passed, a
    [status]) among the caller's keywords makes the constructor fail. *)
Definition construct (cls : ErrorClass) (msg : pystr) (kw : kwargs) : Res SDKError :=
  match cls with
  | BackstageSDKError =>
      Ok (BackstageSDKError_init cls msg (kw_code kw) (kw_status kw) (kw_details kw))
  | _ =>
      match kw_code kw with
      | Some _ => Raise (multiple_values "code")
      | None =>
          match class_status cls, kw_status kw with
          | Some _, Some _ => Raise (multiple_values "status")
          | Some s, None =>
              Ok (BackstageSDKError_init cls msg (Some (JStr (class_code cls)))
                    (Some s) (kw_details kw))
          | None, st =>
              Ok (BackstageSDKError_init cls msg (Some (JStr (class_code cls)))
                    st (kw_details kw))
          end
      end
  end.

(** The table [error_map] of [create_error_from_response]. *)
Definition error_map : gmap Z ErrorClass :=
  <[400 := ValidationError]> (
  <[401 := AuthenticationError]> (
  <[403 := AuthorizationError]> (
  <[404 := NotFoundError]> (
  <[429 := RateLimitError]> (
  <[500 := ServerError]> (
  <[502 := ServerError]> (
  <[503 := ServerError]> (
  <[504 := TimeoutError]> ∅)))))))).

(** [error_class = error_map.get(status, BackstageSDKError)]. *)
Definition error_class (status : Z) : ErrorClass :=
  default BackstageSDKError (error_map !! status).

(** [create_error_from_response(response_data, status)]: the result of
    [error_class(message=message, code=code, status=status,
    details=details)], which is an exception object or, when the
    constructor call itself fails, the [TypeError] it raises. *)
Definition create_error_from_response (response_data : gmap string json)
    (status : Z) : Res SDKError :=
  let message := dict_get response_data "message" (JStr "Unknown error") in
  let code := dict_get response_data "error" (JStr "API_ERROR") in
  let details := dict_get response_data "details" (JDict ∅) in
  construct (error_class status) (StrOf message)
    (mkKwargs (Some code) (Some status) (Some details)).

Definition retryable_codes : gset string :=
  {[ "SERVER_ERROR"; "TIMEOUT_ERROR"; "NETWORK_ERROR"; "CIRCUIT_BREAKER_ERROR" ]}.

Definition connection_errors : gset string :=
  {[ "ConnectionError"; "BrokenPipeError"; "ConnectionAbortedError";
     "ConnectionRefusedError"; "ConnectionResetError" ]}.

(** [is_retryable_error(error)].  [error.code in retryable_codes] hashes
    the code, which raises [TypeError] for a list or a dict (a code taken
    from a response body can be one).  The last line tests the builtin
    [ConnectionError] and [TimeoutError]; the latter name is shadowed in
    this module by the SDK's own class, a [BackstageSDKError], which never
    reaches that line.  The result is the truth value of what the
    function returns. *)
Definition is_retryable_error (error : Exn) : Res bool :=
  match error with
  | SDK e =>
      let by_status :=
        match status e with
        | Some s => negb (s =? 0)%Z && (500 <=? s)%Z
        | None => false
        end in
      match code e with
      | JStr c => Ok (bool_decide (c ∈ retryable_codes) || by_status)
      | JList _ => Raise (Builtin "TypeError" (Str "unhashable type: 'list'"))
      | JDict _ => Raise (Builtin "TypeError" (Str "unhashable type: 'dict'"))
      | _ => Ok by_status
      end
  | Builtin name _ => Ok (bool_decide (name ∈ connection_errors))
  | _ => Ok false
  end.

End Exceptions.

Export Exceptions.

(* ===================================================================== *)
(** ** Effects                                                            *)
(* ===================================================================== *)

(** Computations over a mutable state [S] that return or raise.  The
    state after a raise is the state at the raise: Python does not undo
    assignments when an exception propagates. *)
Definition M (S A : Type) : Type := S -> Res A * S.

Definition ret {S A} (a : A) : M S A := fun s => (Ok a, s).

Definition bind {S A B} (m : M S A) (k : A -> M S B) : M S B :=
  fun s => match m s with
           | (Ok a, s') => k a s'
           | (Raise e, s') => (Raise e, s')
           end.

Definition raise {S A} (e : Exn) : M S A := fun s => (Raise e, s).

(** [try: m  except Exception as e: h e]. *)
Definition try_except {S A} (m : M S A) (h : Exn -> M S A) : M S A :=
  fun s => match m s with
           | (Ok a, s') => (Ok a, s')
           | (Raise e, s') => h e s'
           end.

(** A result computed without the state. *)
Definition lift {S A} (r : Res A) : M S A := fun s => (r, s).

Definition gets {S A} (f : S -> A) : M S A := fun s => (Ok (f s), s).
Definition modify {S} (f : S -> S) : M S unit := fun s => (Ok tt, f s).

(** A computation on one component of a pair of states. *)
Definition on_fst {S T A} (m : M S A) : M (S * T) A :=
  fun st => let '(r, s') := m (fst st) in (r, (s', snd st)).
Definition on_snd {S T A} (m : M T A) : M (S * T) A :=
  fun st => let '(r, t') := m (snd st) in (r, (fst st, t')).

Declare Scope py_scope.
Delimit Scope py_scope with py.
Notation "x <- m ;; k" := (bind m (fun x => k))
  (at level 100, m at next level, k at level 200, only parsing) : py_scope.
Notation "m ;; k" := (bind m (fun _ => k))
  (at level 100, k at level 200, only parsing) : py_scope.
#[local] Open Scope py_scope.

(** [raise cls(msg, **kw)]: the constructor runs first and may itself
    raise. *)
Definition raise_new {S A} (cls : ErrorClass) (msg : pystr) (kw : kwargs) : M S A :=
  match construct cls msg kw with
  | Ok e => raise (SDK e)
  | Raise e => raise e
  end.

Definition Qlt_bool (a b : Q) : bool := negb (Qle_bool b a).

(** What the components need from the world they run in: [time.time()]
    (and [datetime.utcnow()], idealised as the same clock) and
    [asyncio.sleep]. *)
Class Runtime (E : Type) := {
  time : E -> Q;
  sleep : Q -> E -> E
}.

(* ===================================================================== *)
(** ** http_client.py: CircuitBreaker                                     *)
(* ===================================================================== *)

Module CircuitBreaker.

Inductive State := closed | open | half_open.

#[export] Instance State_eq_dec : EqDecision State.
Proof. solve_decision. Defined.

Record t := mk {
  failure_threshold : Z;
  timeout : Q;
  recovery_timeout : Q;
  failure_count : Z;
  last_failure_time : Q;
  state : State
}.

(** [CircuitBreaker.__init__]; the defaults are 5, 60.0 and 30.0. *)
Definition init (failure_threshold : Z) (timeout recovery_timeout : Q) : t :=
  {| failure_threshold := failure_threshold;
     timeout := timeout;
     recovery_timeout := recovery_timeout;
     failure_count := 0;
     last_failure_time := 0;
     state := closed |}.

Definition create : t := init 5 60 30.

Definition set_state (st : State) (cb : t) : t :=
  mk (failure_threshold cb) (timeout cb) (recovery_timeout cb)
     (failure_count cb) (last_failure_time cb) st.
Definition set_failure_count (n : Z) (cb : t) : t :=
  mk (failure_threshold cb) (timeout cb) (recovery_timeout cb)
     n (last_failure_time cb) (state cb).
Definition set_last_failure_time (q : Q) (cb : t) : t :=
  mk (failure_threshold cb) (timeout cb) (recovery_timeout cb)
     (failure_count cb) q (state cb).

(** [reset]. *)
Definition reset (cb : t) : t :=
  set_last_failure_time 0 (set_state closed (set_failure_count 0 cb)).

Section Call.
Context {E : Type} `{Runtime E}.

(** [record_failure]. *)
Definition record_failure : M (t * E) unit :=
  on_fst (modify (fun cb => set_failure_count (failure_count cb + 1) cb)) ;;
  now <- on_snd (gets time) ;;
  on_fst (modify (set_last_failure_time now)) ;;
  cb <- gets fst ;;
  if failure_threshold cb <=? failure_count cb
  then on_fst (modify (set_state open))
  else ret tt.

(** [call(func)]: [func] is the awaited call, a computation on the rest
    of the world [E]. *)
Definition call {A} (func : M E A) : M (t * E) A :=
  cb <- gets fst ;;
  (match state cb with
   | open =>
       now <- on_snd (gets time) ;;
       if Qlt_bool (timeout cb) (now - last_failure_time cb)
       then on_fst (modify (set_state half_open))
       else raise_new CircuitBreakerError (Str "Circuit breaker is open") no_kwargs
   | _ => ret tt
   end) ;;
  try_except
    (result <- on_snd func ;;
     cb <- gets fst ;;
     (match state cb with
      | half_open => on_fst (modify reset)
      | _ => ret tt
      end) ;;
     ret result)
    (fun e => record_failure ;; raise e).
End Call.

End CircuitBreaker.

(* ===================================================================== *)
(** ** http_client.py: RateLimiter                                        *)
(* ===================================================================== *)

Module RateLimiter.

Record t := mk {
  requests_per_second : Q;
  burst_size : Z;
  tokens : Q;
  last_update : Q
}.

(** [RateLimiter.__init__], run when the clock reads [now].  The
    [asyncio.Lock] serialises callers; the embedding runs one [acquire]
    at a time, which is what the lock enforces. *)
Definition init (requests_per_second : Q) (burst_size : Z) (now : Q) : t :=
  {| requests_per_second := requests_per_second;
     burst_size := burst_size;
     tokens := inject_Z burst_size;
     last_update := now |}.

Definition set_tokens (q : Q) (rl : t) : t :=
  mk (requests_per_second rl) (burst_size rl) q (last_update rl).
Definition set_last_update (q : Q) (rl : t) : t :=
  mk (requests_per_second rl) (burst_size rl) (tokens rl) q.

(** The refill: [min(burst_size, tokens + elapsed * requests_per_second)]. *)
Definition refill (rl : t) (now : Q) : Q :=
  Qmin (inject_Z (burst_size rl))
       (tokens rl + (now - last_update rl) * requests_per_second rl).

Section Acquire.
Context {E : Type} `{Runtime E}.

(** [acquire]. *)
Definition acquire : M (t * E) unit :=
  now <- on_snd (gets time) ;;
  rl <- gets fst ;;
  on_fst (modify (set_tokens (refill rl now))) ;;
  on_fst (modify (set_last_update now)) ;;
  rl <- gets fst ;;
  if Qle_bool 1 (tokens rl)
  then on_fst (modify (set_tokens (tokens rl - 1)))
  else if Qeq_bool (requests_per_second rl) 0
  then raise (Builtin "ZeroDivisionError" (Str "float division by zero"))
  else
    let wait_time := ((1 - tokens rl) / requests_per_second rl)%Q in
    on_snd (modify (sleep wait_time)) ;;
    on_fst (modify (set_tokens 0)).
End Acquire.

End RateLimiter.

(* ===================================================================== *)
(** ** The world outside the SDK                                          *)
(* ===================================================================== *)

(** A [datetime].  Python has two kinds: naive ones (no [tzinfo]) and
    timezone-aware ones, and it refuses to compare or subtract one of
    each kind ([TypeError]).  Both are placed on the clock's scale, in
    seconds: an aware one by the instant it denotes, a naive one by
    reading it as UTC, the way [datetime.utcnow()] is meant. *)
Inductive datetime :=
| Naive (q : Q)
| Aware (q : Q).

(** [x - timedelta(seconds=d)]. *)
Definition dt_minus (x : datetime) (d : Q) : datetime :=
  match x with
  | Naive q => Naive (q - d)
  | Aware q => Aware (q - d)
  end.

(** [datetime.utcnow() < x], when the clock reads [now]. *)
Definition utcnow_lt (now : Q) (x : datetime) : Res bool :=
  match x with
  | Naive q => Ok (Qlt_bool now q)
  | Aware _ =>
      Raise (Builtin "TypeError"
               (Str "can't compare offset-naive and offset-aware datetimes"))
  end.

(** [(x - datetime.utcnow()).total_seconds()]. *)
Definition seconds_after_utcnow (x : datetime) (now : Q) : Res Q :=
  match x with
  | Naive q => Ok (q - now)%Q
  | Aware _ =>
      Raise (Builtin "TypeError"
               (Str "can't subtract offset-naive and offset-aware datetimes"))
  end.

(** The two pydantic models of [auth_manager.py] and [types]. *)
Module AuthConfig.
Record t := mk {
  base_url : string;
  api_key : option string;
  bearer_token : option string;
  refresh_token : option string;
  auto_refresh : bool
}.
End AuthConfig.

Module TokenInfo.
Record t := mk {
  access_token : string;
  refresh_token : option string;
  expires_at : option datetime;
  token_type : string
}.

Definition set_expires_at (x : option datetime) (ti : t) : t :=
  mk (access_token ti) (refresh_token ti) x (token_type ti).
End TokenInfo.

(** [urljoin(base, rel)], kept symbolic. *)
Inductive url := urljoin (base rel : string).

(** An HTTP request as handed to [httpx]. *)
Record Request := mkRequest {
  method : string;
  req_url : url;
  params : json;
  req_json : json;
  data : json;
  headers : gmap string string;
  req_timeout : option Q
}.

Record Response := mkResponse {
  status_code : Z;
  reason_phrase : string;
  body : option json;      (* [response.json()]; [None] when it raises *)
  text : string
}.

(** What the transport does with a request: a response arrives, or
    [httpx] raises. *)
Inductive Outcome :=
| Respond (r : Response)
| Fail (e : Exn).

(** The asyncio task created for [_auto_refresh(delay)], as the token
    store sees it: asleep until its delay is over; running; cancelled
    (a cancellation was requested, it will not refresh any more);
    finished; or ended by an exception, which the task keeps. *)
Inductive TaskState :=
| Sleeping
| Running
| Cancelled
| Finished
| Failed (x : Exn).

Record Task := mkTask {
  delay : Q;
  created_at : Q;
  task_state : TaskState
}.

(** A call of one of the application's callbacks, [on_token_refresh] or
    [on_auth_error], with its argument. *)
Inductive Notification :=
| TokenRefreshed (token_info : TokenInfo.t)
| AuthError (error : Exn).

(** The environment:
    - the clock ([time.time()], and [datetime.utcnow()] as the naive
      datetime at the same reading);
    - the remote side: the outcome of the [n]-th request sent, counting
      from 0, and what was sent and slept so far;
    - the application behind the callbacks: [application n c] says
      whether the [n]-th callback call, made with [c], returns ([None])
      or raises; the calls made so far are logged.  The callbacks are
      taken to leave the SDK's objects alone;
    - the event loop: whether one is running (there is none outside
      [asyncio.run] and the like), and its tasks, a task handle being
      its index;
    - the library decoders the token store calls:
      [fromisoformat s] is [datetime.fromisoformat(s.replace('Z', '+00:00'))],
      naive or aware as the text has an offset or not ([None] when it
      raises); [jwt_exp tok] is [payload.get('exp')] of the unverified
      decoding of [tok] ([None] when [jwt.decode] raises);
      [fromtimestamp x] is the reading of the naive local time
      [datetime.fromtimestamp(x)] ([None] when it raises): [x] itself
      only on a host that runs in UTC. *)
Record Env := mkEnv {
  clock : Q;
  network : nat -> Request -> Outcome;
  sent : list Request;
  slept : list Q;
  application : nat -> Notification -> option Exn;
  notified : list Notification;
  running_loop : bool;
  tasks : list Task;
  fromisoformat : string -> option datetime;
  jwt_exp : string -> option json;
  fromtimestamp : Q -> option Q
}.

Definition set_clock (q : Q) (e : Env) : Env :=
  mkEnv q (network e) (sent e) (slept e) (application e) (notified e)
    (running_loop e) (tasks e) (fromisoformat e) (jwt_exp e) (fromtimestamp e).
Definition set_sent (l : list Request) (e : Env) : Env :=
  mkEnv (clock e) (network e) l (slept e) (application e) (notified e)
    (running_loop e) (tasks e) (fromisoformat e) (jwt_exp e) (fromtimestamp e).
Definition set_slept (l : list Q) (e : Env) : Env :=
  mkEnv (clock e) (network e) (sent e) l (application e) (notified e)
    (running_loop e) (tasks e) (fromisoformat e) (jwt_exp e) (fromtimestamp e).
Definition set_notified (l : list Notification) (e : Env) : Env :=
  mkEnv (clock e) (network e) (sent e) (slept e) (application e) l
    (running_loop e) (tasks e) (fromisoformat e) (jwt_exp e) (fromtimestamp e).
Definition set_tasks (l : list Task) (e : Env) : Env :=
  mkEnv (clock e) (network e) (sent e) (slept e) (application e) (notified e)
    (running_loop e) l (fromisoformat e) (jwt_exp e) (fromtimestamp e).

(** [await asyncio.sleep(d)]: the clock moves on by [d] (not at all for
    [d <= 0]) and the sleep is logged. *)
Definition Env_sleep (d : Q) (e : Env) : Env :=
  set_slept (slept e ++ [d]) (set_clock (clock e + Qmax 0 d) e).

#[export] Instance Env_Runtime : Runtime Env :=
  {| time := clock; sleep := Env_sleep |}.

#[export] Instance pair_Runtime {S E} `{Runtime E} : Runtime (S * E) :=
  {| time := fun se => time (snd se);
     sleep := fun d se => (fst se, sleep d (snd se)) |}.

(** [await client.request(...)] / [await client.post(...)]. *)
Definition send (req : Request) : M Env Response :=
  fun e =>
    let e' := set_sent (sent e ++ [req]) e in
    match network e (length (sent e)) req with
    | Respond r => (Ok r, e')
    | Fail x => (Raise x, e')
    end.

(** [asyncio.create_task(self._auto_refresh(delay))]: without a running
    event loop it raises [RuntimeError]. *)
Definition create_task (d : Q) : M Env nat :=
  fun e =>
    if running_loop e
    then (Ok (length (tasks e)),
          set_tasks (tasks e ++ [mkTask d (clock e) Sleeping]) e)
    else (Raise (Builtin "RuntimeError" (Str "no running event loop")), e).

(** A callback is called: the call is logged, and it returns or raises
    as the application decides. *)
Definition notify (n : Notification) : M Env unit :=
  fun e =>
    let e' := set_notified (notified e ++ [n]) e in
    match application e (length (notified e)) n with
    | None => (Ok tt, e')
    | Some x => (Raise x, e')
    end.

(** [task.cancel()]: a task that is done stays as it is. *)
Definition cancel_task (t : Task) : Task :=
  match task_state t with
  | Sleeping | Running => mkTask (delay t) (created_at t) Cancelled
  | _ => t
  end.

Definition cancel (h : nat) : M Env unit :=
  modify (fun e => set_tasks (alter cancel_task h (tasks e)) e).

(** Truthiness of an [Optional[str]]. *)
Definition truthy_str (o : option string) : bool :=
  match o with
  | Some s => negb (String.eqb s "")
  | None => false
  end.

(* ===================================================================== *)
(** ** auth_manager.py                                                    *)
(* ===================================================================== *)

Module AuthManager.

(** [on_token_refresh] and [on_auth_error] say whether the callback was
    given. *)
Record t := mk {
  config : AuthConfig.t;
  on_token_refresh : bool;
  on_auth_error : bool;
  _token_info : option TokenInfo.t;
  _refresh_task : option nat
}.

Definition set_token_info (x : option TokenInfo.t) (am : t) : t :=
  mk (config am) (on_token_refresh am) (on_auth_error am) x (_refresh_task am).
Definition set_refresh_task (x : option nat) (am : t) : t :=
  mk (config am) (on_token_refresh am) (on_auth_error am) (_token_info am) x.

(** [_extract_expiry_from_jwt]: [datetime.fromtimestamp(exp)], a naive
    local time, for a truthy [exp]; every failure inside is swallowed. *)
Definition _extract_expiry_from_jwt (e : Env) (token : string) : option datetime :=
  match jwt_exp e token with
  | Some (JNum q) => if Qeq_bool q 0 then None else Naive <$> fromtimestamp e q
  | Some (JBool true) => Naive <$> fromtimestamp e 1
  | _ => None
  end.

Definition get_access_token (am : t) : option string :=
  TokenInfo.access_token <$> _token_info am.

(** [get_auth_header]. *)
Definition get_auth_header (am : t) : option string :=
  match _token_info am with
  | None => None
  | Some ti =>
      if String.eqb (TokenInfo.token_type ti) "api_key"
      then Some (TokenInfo.access_token ti)
      else Some ("Bearer " ++ TokenInfo.access_token ti)
  end.

(** [_is_token_valid], when the clock reads [now]:
    [datetime.utcnow() < expires_at - timedelta(minutes=1)] raises for
    an aware [expires_at]. *)
Definition _is_token_valid (am : t) (now : Q) : Res bool :=
  match _token_info am with
  | None => Ok false
  | Some ti =>
      if String.eqb (TokenInfo.token_type ti) "api_key" then Ok true
      else match TokenInfo.expires_at ti with
           | Some x => utcnow_lt now (dt_minus x 60)
           | None => Ok true
           end
  end.

(** [is_authenticated]. *)
Definition is_authenticated (am : t) (now : Q) : Res bool :=
  match _token_info am with
  | Some _ => _is_token_valid am now
  | None => Ok false
  end.

(** [_schedule_refresh]: the delay
    [(expires_at - timedelta(minutes=5) - datetime.utcnow()).total_seconds()]
    cannot be computed for an aware [expires_at]. *)
Definition _schedule_refresh : M (t * Env) unit :=
  am <- gets fst ;;
  match _token_info am with
  | None => ret tt
  | Some ti =>
      match TokenInfo.expires_at ti with
      | None => ret tt
      | Some x =>
          now <- on_snd (gets clock) ;;
          let refresh_time := dt_minus x 300 in
          delay <- lift (seconds_after_utcnow refresh_time now) ;;
          if Qlt_bool 0 delay
          then h <- on_snd (create_task delay) ;;
               on_fst (modify (set_refresh_task (Some h)))
          else ret tt
      end
  end.

(** [set_tokens]. *)
Definition set_tokens (token_info : TokenInfo.t) : M (t * Env) unit :=
  on_fst (modify (set_token_info (Some token_info))) ;;
  am <- gets fst ;;
  (match _refresh_task am with
   | Some h => on_snd (cancel h) ;; on_fst (modify (set_refresh_task None))
   | None => ret tt
   end) ;;
  (if AuthConfig.auto_refresh (config am)
      && truthy_str (TokenInfo.refresh_token token_info)
      && bool_decide (is_Some (TokenInfo.expires_at token_info))
   then _schedule_refresh
   else ret tt) ;;
  if on_token_refresh am
  then on_snd (notify (TokenRefreshed token_info))
  else ret tt.

(** [clear_tokens]. *)
Definition clear_tokens : M (t * Env) unit :=
  on_fst (modify (set_token_info None)) ;;
  am <- gets fst ;;
  match _refresh_task am with
  | Some h => on_snd (cancel h) ;; on_fst (modify (set_refresh_task None))
  | None => ret tt
  end.

(** [AuthManager.__init__]: the new object, unless the constructor
    raises. *)
Definition init (config : AuthConfig.t)
    (on_token_refresh on_auth_error : bool) : M Env t :=
  fun e =>
    let ti :=
      if truthy_str (AuthConfig.api_key config) then
        Some (TokenInfo.mk (default "" (AuthConfig.api_key config)) None None "api_key")
      else if truthy_str (AuthConfig.bearer_token config) then
        let tok := default "" (AuthConfig.bearer_token config) in
        Some (TokenInfo.mk tok (AuthConfig.refresh_token config)
                (_extract_expiry_from_jwt e tok) "bearer")
      else None in
    let am := mk config on_token_refresh on_auth_error ti None in
    match ti with
    | Some ti =>
        if AuthConfig.auto_refresh config
           && truthy_str (TokenInfo.refresh_token ti)
           && bool_decide (is_Some (TokenInfo.expires_at ti))
        then match _schedule_refresh (am, e) with
             | (Ok _, (am', e')) => (Ok am', e')
             | (Raise x, (_, e')) => (Raise x, e')
             end
        else (Ok am, e)
    | None => (Ok am, e)
    end.

(** The [TokenInfo(...)] built from the refresh response, with pydantic's
    check of the two fields, and the expiry computed after it:
    [datetime.utcnow() + timedelta(seconds=...)] is naive, the parsed
    [expires_at] is what the text makes it. *)
Definition new_token_from (data : gmap string json) (prev : TokenInfo.t) (e : Env)
    : Res TokenInfo.t :=
  match data !! "access_token" with
  | None => Raise (Builtin "KeyError" (Str "'access_token'"))
  | Some a =>
      let r := default (match TokenInfo.refresh_token prev with
                        | Some s => JStr s
                        | None => JNull
                        end) (data !! "refresh_token") in
      match a, r with
      | JStr access, JNull | JStr access, JStr _ =>
          let new_token_info :=
            TokenInfo.mk access
              (match r with JStr s => Some s | _ => None end) None "bearer" in
          match data !! "expires_in" with
          | Some (JNum q) =>
              Ok (TokenInfo.set_expires_at (Some (Naive (clock e + q))) new_token_info)
          | Some (JBool b) =>
              Ok (TokenInfo.set_expires_at
                    (Some (Naive (clock e + (if b then 1 else 0)))) new_token_info)
          | Some _ =>
              Raise (Builtin "TypeError"
                       (Str "unsupported type for timedelta seconds component"))
          | None =>
              match data !! "expires_at" with
              | Some (JStr s) =>
                  match fromisoformat e s with
                  | Some x => Ok (TokenInfo.set_expires_at (Some x) new_token_info)
                  | None => Raise (Builtin "ValueError"
                                     (Str "Invalid isoformat string"))
                  end
              | Some _ =>
                  Raise (Builtin "AttributeError"
                           (Str "object has no attribute 'replace'"))
              | None =>
                  Ok (TokenInfo.set_expires_at
                        (_extract_expiry_from_jwt e access) new_token_info)
              end
          end
      | _, _ => Raise (Builtin "pydantic.ValidationError"
                         (Str "validation error for TokenInfo"))
      end
  end.

(** [if self.on_auth_error: self.on_auth_error(error)]. *)
Definition notify_auth_error (error : Exn) : M (t * Env) unit :=
  am <- gets fst ;;
  if on_auth_error am
  then on_snd (notify (AuthError error))
  else ret tt.

(** The two handlers of [refresh_token]: [except httpx.RequestError]
    first, then [except Exception].  The callback is called before the
    [raise]: what it raises replaces the error. *)
Definition refresh_handler {A} (e : Exn) : M (t * Env) A :=
  let msg := if isinstance_httpx_RequestError e
             then Str "Network error during token refresh: " +++ str e
             else Str "Token refresh failed: " +++ str e in
  match construct AuthenticationError msg no_kwargs with
  | Ok error => notify_auth_error (SDK error) ;; raise (SDK error)
  | Raise x => raise x
  end.

(** The request [refresh_token] posts. *)
Definition refresh_request (base_url rt : string) : Request :=
  mkRequest "POST" (urljoin base_url "/auth/refresh") JNull
    (JDict {[ "refresh_token" := JStr rt ]}) JNull
    {[ "Content-Type" := "application/json" ]} None.

(** The [try] block of [refresh_token], the stored credential being
    [prev] with refresh token [rt]. *)
Definition refresh_exchange (prev : TokenInfo.t) (rt : string)
    : M (t * Env) TokenInfo.t :=
  am <- gets fst ;;
  response <- on_snd (send (refresh_request (AuthConfig.base_url (config am)) rt)) ;;
  (if negb (status_code response =? 200)
   then raise_new AuthenticationError
          (Str "Token refresh failed: " +++ Str (dec (status_code response)))
          (mkKwargs None (Some (status_code response)) None)
   else ret tt) ;;
  data <- match body response with
          | Some j => ret j
          | None => raise (Builtin "JSONDecodeError" (Str "Expecting value"))
          end ;;
  d <- match data with
       | JDict d => ret d
       | _ => raise (Builtin "TypeError" (Str "indices must be integers"))
       end ;;
  env <- gets snd ;;
  new_token_info <- lift (new_token_from d prev env) ;;
  set_tokens new_token_info ;;
  ret new_token_info.

(** [refresh_token]. *)
Definition refresh_token : M (t * Env) TokenInfo.t :=
  am <- gets fst ;;
  match _token_info am with
  | Some prev =>
      match TokenInfo.refresh_token prev with
      | Some rt =>
          if negb (String.eqb rt "")
          then try_except (refresh_exchange prev rt) refresh_handler
          else raise_new AuthenticationError (Str "No refresh token available") no_kwargs
      | None => raise_new AuthenticationError (Str "No refresh token available") no_kwargs
      end
  | None => raise_new AuthenticationError (Str "No refresh token available") no_kwargs
  end.

(** [ensure_valid_token]. *)
Definition ensure_valid_token : M (t * Env) string :=
  am <- gets fst ;;
  match _token_info am with
  | None => raise_new AuthenticationError
              (Str "No authentication tokens available") no_kwargs
  | Some ti =>
      now <- on_snd (gets clock) ;;
      valid <- lift (_is_token_valid am now) ;;
      if valid then ret (TokenInfo.access_token ti)
      else if truthy_str (TokenInfo.refresh_token ti)
              && AuthConfig.auto_refresh (config am)
      then refreshed_token <- refresh_token ;;
           ret (TokenInfo.access_token refreshed_token)
      else raise_new AuthenticationError
             (Str "Token expired and cannot be refreshed") no_kwargs
  end.

(** The body of the task [_auto_refresh(delay)] from the moment its sleep
    is over: the event loop resumes task [h] (no earlier than
    [created_at + delay]), which calls [refresh_token]; a failure goes to
    [on_auth_error] and is not propagated, unless the callback itself
    raises.  The result is the task's own: [Raise x] says that the task
    ended by the exception [x], which it keeps; nobody is awaiting it.
    A task that returns after a cancellation was requested while it ran
    ([set_tokens] cancels the task it is called from) ends cancelled.
    A task that was cancelled in the meantime does nothing. *)
Definition due (t : Task) : Q := (created_at t + delay t)%Q.

Definition finish_task (r : Res unit) (t : Task) : Task :=
  match r with
  | Raise x => mkTask (delay t) (created_at t) (Failed x)
  | Ok _ =>
      match task_state t with
      | Running => mkTask (delay t) (created_at t) Finished
      | _ => t
      end
  end.

Definition _auto_refresh_wakeup (h : nat) : M (t * Env) unit :=
  env <- gets snd ;;
  match tasks env !! h with
  | Some task =>
      match task_state task with
      | Sleeping =>
          on_snd (modify (fun e =>
            set_tasks (alter (fun t => mkTask (delay t) (created_at t) Running) h
                         (tasks e))
              (set_clock (Qmax (clock e) (due task)) e))) ;;
          fun s =>
            let '(r, (am', e')) :=
              try_except (refresh_token ;; ret tt) notify_auth_error s in
            (r, (am', set_tasks (alter (finish_task r) h (tasks e')) e'))
      | _ => ret tt
      end
  | None => ret tt
  end.

(** [close]: the refresh task the store still holds is cancelled and
    awaited (the handle stays): a task that had ended by an exception
    hands that exception to whoever awaits it.  Closing the [httpx]
    client is outside the model. *)
Definition close : M (t * Env) unit :=
  am <- gets fst ;;
  match _refresh_task am with
  | Some h =>
      on_snd (cancel h) ;;
      env <- gets snd ;;
      match task_state <$> tasks env !! h with
      | Some (Failed x) => raise x
      | _ => ret tt
      end
  | None => ret tt
  end.

End AuthManager.

(* ===================================================================== *)
(** ** tenacity                                                           *)
(* ===================================================================== *)

(** The part of tenacity the client configures:
    [retry(stop=stop_after_attempt(n), wait=wait_exponential(multiplier,
    max), retry=retry_if_exception_type(types), reraise=True)]. *)
Module Tenacity.

(** [wait_exponential(multiplier, max)] at the attempt that just failed
    ([min] is 0, [exp_base] is 2). *)
Definition wait_exponential (multiplier max : Q) (attempt_number : Z) : Q :=
  let exp := inject_Z (2 ^ (attempt_number - 1)) in
  let result := (multiplier * exp)%Q in
  Qmax (Qmax 0 0) (Qmin result max).

Section Retrying.
Context {S : Type} `{Runtime S} {A : Type}.
Variable max_attempt_number : Z.
Variable wait : Z -> Q.
Variable retry_on : Exn -> bool.
Variable fn : M S A.

(** The loop of [Retrying.__call__] from attempt [attempt_number] on,
    with [remaining = max_attempt_number - attempt_number] further
    attempts allowed: a result is returned; an exception the predicate
    rejects is raised as it is; one it accepts is raised too once
    [stop_after_attempt] says stop ([reraise=True] hands out the last
    exception, not tenacity's [RetryError]); otherwise sleep and go
    round again. *)
Fixpoint attempts (remaining : nat) (attempt_number : Z) : M S A :=
  try_except fn
    (fun e =>
       if retry_on e then
         match remaining with
         | O => raise e
         | Datatypes.S k =>
             modify (sleep (wait attempt_number)) ;;
             attempts k (attempt_number + 1)
         end
       else raise e).

Definition retrying : M S A :=
  attempts (Z.to_nat (max_attempt_number - 1)) 1.
End Retrying.

End Tenacity.

(* ===================================================================== *)
(** ** http_client.py: HttpClient                                         *)
(* ===================================================================== *)

Module ClientConfig.
(** [rate_limit] is the value of [config.rate_limit['requests']] when the
    configuration object has a truthy [rate_limit] attribute (the
    [ClientConfig] class of the SDK declares none). *)
Record t := mk {
  base_url : string;
  api_key : option string;
  bearer_token : option string;
  timeout : option Q;
  retries : option Z;
  retry_delay : option Q;
  verify_ssl : bool;
  rate_limit : option Z
}.
End ClientConfig.

Module RequestOptions.
Record t := mk {
  timeout : option Q;
  retries : option Z;
  headers : option (gmap string string)
}.
End RequestOptions.

(** What [request] returns: parsed JSON, or the text of the body. *)
Inductive Payload :=
| PJson (j : json)
| PText (s : string).

Module HttpClient.

Record t := mk {
  config : ClientConfig.t;
  auth_manager : option AuthManager.t;
  client_headers : gmap string string;     (* [dict(self.client.headers)] *)
  circuit_breaker : CircuitBreaker.t;
  rate_limiter : option RateLimiter.t;
  self_id : Z                              (* [id(self)] *)
}.

Definition set_auth_manager (x : option AuthManager.t) (c : t) : t :=
  mk (config c) x (client_headers c) (circuit_breaker c) (rate_limiter c) (self_id c).
Definition set_circuit_breaker (x : CircuitBreaker.t) (c : t) : t :=
  mk (config c) (auth_manager c) (client_headers c) x (rate_limiter c) (self_id c).
Definition set_rate_limiter (x : option RateLimiter.t) (c : t) : t :=
  mk (config c) (auth_manager c) (client_headers c) (circuit_breaker c) x (self_id c).

(** [HttpClient.__init__], when the clock reads [now]. *)
Definition init (config : ClientConfig.t) (auth_manager : option AuthManager.t)
    (self_id : Z) (now : Q) : t :=
  {| config := config;
     auth_manager := auth_manager;
     client_headers :=
       {[ "User-Agent" := "backstage-idp-sdk-python/1.0.0";
          "Accept" := "application/json";
          "Content-Type" := "application/json" ]};
     circuit_breaker := CircuitBreaker.create;
     rate_limiter :=
       match ClientConfig.rate_limit config with
       | Some requests =>
           Some (RateLimiter.init (inject_Z requests / 60) (Z.min requests 10) now)
       | None => None
       end;
     self_id := self_id |}.

(** The state a request runs in: the headers dict built by [request],
    which [_execute_request] updates in place, the client, the
    environment. *)
Definition Frame : Type := gmap string string * (t * Env).

(** Running a method of [self.auth_manager], of [self.circuit_breaker],
    of [self.rate_limiter] on the object the client holds. *)
Definition on_auth_manager {A} (m : M (AuthManager.t * Env) A) : M (t * Env) A :=
  fun ce =>
    match auth_manager (fst ce) with
    | Some am =>
        let '(r, (am', e')) := m (am, snd ce) in
        (r, (set_auth_manager (Some am') (fst ce), e'))
    | None => (Raise (Builtin "AttributeError"
                        (Str "'NoneType' object has no attribute")), ce)
    end.

Definition on_circuit_breaker {A} (m : M (CircuitBreaker.t * Frame) A) : M Frame A :=
  fun f =>
    let '(r, (cb', (h', (c', e')))) := m (circuit_breaker (fst (snd f)), f) in
    (r, (h', (set_circuit_breaker cb' c', e'))).

Definition on_rate_limiter {A} (m : M (RateLimiter.t * Env) A) : M (t * Env) A :=
  fun ce =>
    match rate_limiter (fst ce) with
    | Some rl =>
        let '(r, (rl', e')) := m (rl, snd ce) in
        (r, (set_rate_limiter (Some rl') (fst ce), e'))
    | None => (Raise (Builtin "AttributeError"
                        (Str "'NoneType' object has no attribute")), ce)
    end.

(** [path.lstrip('/')]. *)
Fixpoint lstrip_slash (s : string) : string :=
  match s with
  | String c rest => if Ascii.eqb c "/" then lstrip_slash rest else s
  | EmptyString => s
  end.

(** [int(x)]: truncation towards zero. *)
Definition int_of (x : Q) : Z := Z.quot (Qnum x) (Zpos (Qden x)).

(** [f"{n:04d}"] for [0 <= n]. *)
Definition pad4 (n : Z) : string :=
  let s := dec n in
  String.concat "" (replicate (4 - String.length s)%nat "0") ++ s.

(** [_generate_request_id]. *)
Definition _generate_request_id (c : t) (now : Q) : string :=
  "req_" ++ dec (int_of (now * 1000)) ++ "_" ++ pad4 (self_id c mod 10000).

(** [_transform_error]. *)
Definition _transform_error (error : Exn) : Res SDKError :=
  match error with
  | SDK e => Ok e
  | _ =>
      if isinstance_httpx_TimeoutException error
      then construct TimeoutError (Str "Request timeout: " +++ str error) no_kwargs
      else if isinstance_httpx_RequestError error
      then construct NetworkError (Str "Network error: " +++ str error) no_kwargs
      else construct BackstageSDKError (Str "Unexpected error: " +++ str error) no_kwargs
  end.

(** Writing the refreshed credential into [headers]: [headers or {}] is
    the caller's dict unless that is empty. *)
Definition put_auth_header (auth_header : option string) : M Frame (gmap string string) :=
  headers <- gets fst ;;
  match auth_header with
  | Some h =>
      if negb (String.eqb h "") then
        let key := if String.prefix "Bearer" h then "Authorization" else "X-API-Key" in
        let headers' := <[ key := h ]> headers in
        (if bool_decide (headers = ∅) then ret tt
         else on_fst (modify (fun _ => headers'))) ;;
        ret headers'
      else ret headers
  | None => ret headers
  end.

(** The end of [_execute_request], from [# Check for error responses]
    on: what becomes of the response that is kept. *)
Definition handle_response (response : Response) : Res Payload :=
  if 400 <=? status_code response then
    let error_data :=
      match body response with
      | Some j => j
      | None =>
          JDict {[ "error" := JStr "HTTP_ERROR";
                   "message" := JStr ("HTTP " ++ dec (status_code response)
                                        ++ ": " ++ reason_phrase response) ]}
      end in
    match error_data with
    | JDict d =>
        match create_error_from_response d (status_code response) with
        | Ok err => Raise (SDK err)
        | Raise x => Raise x
        end
    | _ => Raise (Builtin "AttributeError" (Str "object has no attribute 'get'"))
    end
  else if status_code response =? 204 then Ok (PJson (JDict ∅))
  else match body response with
       | Some j => Ok (PJson j)
       | None => Ok (PText (text response))
       end.

(** The handlers of [_execute_request]: [except httpx.TimeoutException]
    first, then [except httpx.RequestError]; anything else passes. *)
Definition transport_handler {A} (e : Exn) : M Frame A :=
  if isinstance_httpx_TimeoutException e
  then raise_new TimeoutError (Str "Request timeout: " +++ str e) no_kwargs
  else if isinstance_httpx_RequestError e
  then raise_new NetworkError (Str "Network error: " +++ str e) no_kwargs
  else raise e.

(** [_execute_request]. *)
Definition _execute_request (method : string) (url : url) (params json data : json)
    (timeout : option Q) : M Frame Payload :=
  let timeout_config :=
    match timeout with
    | Some q => if Qeq_bool q 0 then None else Some q
    | None => None
    end in
  try_except
    (headers <- gets fst ;;
     response <- on_snd (on_snd (send
       (mkRequest method url params json data headers timeout_config))) ;;
     c <- gets (fun f => fst (snd f)) ;;
     response <-
       (if (status_code response =? 401) && bool_decide (is_Some (auth_manager c))
        then
          try_except
            (on_snd (on_auth_manager AuthManager.refresh_token) ;;
             c <- gets (fun f => fst (snd f)) ;;
             headers <- put_auth_header (auth_manager c ≫= AuthManager.get_auth_header) ;;
             on_snd (on_snd (send
               (mkRequest method url params json data headers timeout_config))))
            (fun _ => ret response)
        else ret response) ;;
     match handle_response response with
     | Ok payload => ret payload
     | Raise x => raise x
     end)
    transport_handler.

(** The function [_make_request] that [request] decorates. *)
Definition _make_request (method : string) (url : url) (params json data : json)
    (timeout : option Q) : M Frame Payload :=
  on_circuit_breaker
    (CircuitBreaker.call (_execute_request method url params json data timeout)).

(** [self.config.retries or 3] and [self.config.retry_delay or 1.0]. *)
Definition stop_after (c : t) : Z :=
  match ClientConfig.retries (config c) with
  | Some n => if n =? 0 then 3 else n
  | None => 3
  end.
Definition multiplier (c : t) : Q :=
  match ClientConfig.retry_delay (config c) with
  | Some q => if Qeq_bool q 0 then 1%Q else q
  | None => 1%Q
  end.

(** The header a credential travels under ([request], lines 158-161). *)
Definition credential_header (auth_header : string) : string :=
  if String.prefix "Bearer" auth_header then "Authorization" else "X-API-Key".

(** The headers [request] starts from. *)
Definition prepare_headers (c : t) (now : Q) (headers : option (gmap string string))
    : gmap string string :=
  let request_headers := client_headers c in
  let request_headers :=
    match auth_manager c ≫= AuthManager.get_auth_header with
    | Some h =>
        if negb (String.eqb h "") then
          if String.prefix "Bearer" h
          then <[ "Authorization" := h ]> request_headers
          else <[ "X-API-Key" := h ]> request_headers
        else request_headers
    | None => request_headers
    end in
  let request_headers :=
    match headers with
    | Some hs => hs ∪ request_headers
    | None => request_headers
    end in
  <[ "X-Request-ID" := _generate_request_id c now ]> request_headers.

(** [request].  With [reraise=True] tenacity never lets its own
    [RetryError] out, so the first [except] clause of the source is
    never taken. *)
Definition request (method path : string) (params json data : json)
    (headers : option (gmap string string)) (options : option RequestOptions.t)
    : M (t * Env) Payload :=
  c <- gets fst ;;
  (match rate_limiter c with
   | Some _ => on_rate_limiter RateLimiter.acquire
   | None => ret tt
   end) ;;
  c <- gets fst ;;
  now <- on_snd (gets clock) ;;
  let url := urljoin (ClientConfig.base_url (config c)) (lstrip_slash path) in
  let request_headers := prepare_headers c now headers in
  let timeout := options ≫= RequestOptions.timeout in
  fun ce =>
    let '(r, (_, ce')) :=
      try_except
        (Tenacity.retrying (stop_after c)
           (Tenacity.wait_exponential (multiplier c) 30)
           isinstance_httpx_RequestError
           (_make_request method url params json data timeout))
        (fun e => match _transform_error e with
                  | Ok err => raise (SDK err)
                  | Raise x => raise x
                  end)
        (request_headers, ce) in
    (r, ce').

Definition get_circuit_breaker_status (c : t) : CircuitBreaker.State * Z * Q :=
  (CircuitBreaker.state (circuit_breaker c),
   CircuitBreaker.failure_count (circuit_breaker c),
   CircuitBreaker.last_failure_time (circuit_breaker c)).

Definition reset_circuit_breaker (c : t) : t :=
  set_circuit_breaker (CircuitBreaker.reset (circuit_breaker c)) c.

(** [get], [post], [put], [patch], [delete]. *)
Definition get (path : string) (params : json)
    (headers : option (gmap string string)) (options : option RequestOptions.t)
    : M (t * Env) Payload :=
  request "GET" path params JNull JNull headers options.

Definition post (path : string) (json data : json)
    (headers : option (gmap string string)) (options : option RequestOptions.t)
    : M (t * Env) Payload :=
  request "POST" path JNull json data headers options.

Definition put (path : string) (json data : json)
    (headers : option (gmap string string)) (options : option RequestOptions.t)
    : M (t * Env) Payload :=
  request "PUT" path JNull json data headers options.

Definition patch (path : string) (json data : json)
    (headers : option (gmap string string)) (options : option RequestOptions.t)
    : M (t * Env) Payload :=
  request "PATCH" path JNull json data headers options.

Definition delete (path : string)
    (headers : option (gmap string string)) (options : option RequestOptions.t)
    : M (t * Env) Payload :=
  request "DELETE" path JNull JNull JNull headers options.

End HttpClient.

(* ===================================================================== *)
(** ** backstage_client.py: BackstageClient and AuthAPI                   *)
(* ===================================================================== *)

(** The client object is modelled by its [HttpClient], which holds the
    one [AuthManager] that [AuthAPI] shares with it; the GraphQL and
    WebSocket clients and the resource wrappers are outside the model. *)
Module BackstageClient.

(** [BackstageClient.__init__], as far as the token store and the HTTP
    client go. *)
Definition init (config : ClientConfig.t) (self_id : Z) : M Env HttpClient.t :=
  if truthy_str (ClientConfig.api_key config)
     || truthy_str (ClientConfig.bearer_token config)
  then
    let auth_config :=
      AuthConfig.mk (ClientConfig.base_url config) (ClientConfig.api_key config)
        (ClientConfig.bearer_token config) None true in
    am <- AuthManager.init auth_config false false ;;
    now <- gets clock ;;
    ret (HttpClient.init config (Some am) self_id now)
  else
    now <- gets clock ;;
    ret (HttpClient.init config None self_id now).

End BackstageClient.

Module AuthAPI.

(** A method of the token store run on the store the client holds, when
    it holds one ([if self._auth:]). *)
Definition if_auth (m : M (AuthManager.t * Env) unit) : M (HttpClient.t * Env) unit :=
  c <- gets fst ;;
  match HttpClient.auth_manager c with
  | Some _ => HttpClient.on_auth_manager m
  | None => ret tt
  end.

(** [set_api_key]. *)
Definition set_api_key (api_key : string) : M (HttpClient.t * Env) unit :=
  if_auth (AuthManager.set_tokens (TokenInfo.mk api_key None None "api_key")).

(** [set_bearer_token]. *)
Definition set_bearer_token (token : string) (refresh_token : option string)
    : M (HttpClient.t * Env) unit :=
  if_auth (env <- gets snd ;;
           AuthManager.set_tokens
             (TokenInfo.mk token refresh_token
                (AuthManager._extract_expiry_from_jwt env token) "bearer")).

(** [clear_auth]. *)
Definition clear_auth : M (HttpClient.t * Env) unit :=
  if_auth AuthManager.clear_tokens.

(** [is_authenticated], when the clock reads [now]. *)
Definition is_authenticated (c : HttpClient.t) (now : Q) : Res bool :=
  match HttpClient.auth_manager c with
  | Some am => AuthManager.is_authenticated am now
  | None => Ok false
  end.

(** [get_access_token]. *)
Definition get_access_token (c : HttpClient.t) : option string :=
  HttpClient.auth_manager c ≫= AuthManager.get_access_token.

End AuthAPI.

(* ===================================================================== *)
(** ** The states the components can be in                                *)
(* ===================================================================== *)

(** The breakers that arise from a fresh one through [call]s, whatever
    the protected function does and whenever the calls happen, and
    through the administrative [reset]. *)
Inductive breaker_reachable {E : Type} `{Runtime E} (cb0 : CircuitBreaker.t)
  : CircuitBreaker.t -> Prop :=
| breaker_fresh : breaker_reachable cb0 cb0
| breaker_call {A} (func : M E A) cb e r cb' e' :
    breaker_reachable cb0 cb ->
    CircuitBreaker.call func (cb, e) = (r, (cb', e')) ->
    breaker_reachable cb0 cb'
| breaker_reset cb :
    breaker_reachable cb0 cb ->
    breaker_reachable cb0 (CircuitBreaker.reset cb).

(** The rate limiters that arise from a fresh one through [acquire]s
    made while the clock does not run backwards. *)
Inductive limiter_reachable {E : Type} `{Runtime E} (rl0 : RateLimiter.t)
  : RateLimiter.t -> Prop :=
| limiter_fresh : limiter_reachable rl0 rl0
| limiter_acquire rl e r rl' e' :
    limiter_reachable rl0 rl ->
    (RateLimiter.last_update rl <= time e)%Q ->
    RateLimiter.acquire (rl, e) = (r, (rl', e')) ->
    limiter_reachable rl0 rl'.

(** At most one scheduled refresh is pending, and the token store holds
    its handle: every task of the event loop that is still asleep is the
    one [_refresh_task] names. *)
Definition one_pending (am : AuthManager.t) (e : Env) : Prop :=
  forall (h : nat) (t : Task),
    tasks e !! h = Some t -> task_state t = Sleeping ->
    AuthManager._refresh_task am = Some h.

(** A world for concrete runs: the clock reads [now], nothing has
    happened yet, the remote side answers by [net], every callback
    returns, an event loop is running, the two text decoders recognise
    nothing, the host runs in UTC. *)
Definition quiet_env (now : Q) (net : nat -> Request -> Outcome) : Env :=
  mkEnv now net [] [] (fun _ _ => None) [] true [] (fun _ => None) (fun _ => None) Some.

(** [if callback: callback(arg)], the callback being given or not. *)
Definition callback (given : bool) (n : Notification) : M Env unit :=
  if given then notify n else ret tt.

(** Whether [set_tokens] arms a timer for the credential: the expiry to
    schedule against, when [auto_refresh] is on and the credential has a
    refresh token. *)
Definition to_schedule (am : AuthManager.t) (ti : TokenInfo.t) : option datetime :=
  if AuthConfig.auto_refresh (AuthManager.config am)
     && truthy_str (TokenInfo.refresh_token ti)
  then TokenInfo.expires_at ti else None.

(** *** Concrete scenarios *)

(** A token store holding the bearer credential [tok0] with refresh
    token [r0] and the given expiry (a naive datetime), nothing
    scheduled, no callbacks. *)
Definition bearer_store (auto_refresh : bool) (expires_at : option Q) : AuthManager.t :=
  AuthManager.mk
    (AuthConfig.mk "https://idp.example/" None (Some "tok0") (Some "r0") auto_refresh)
    false false
    (Some (TokenInfo.mk "tok0" (Some "r0") (Naive <$> expires_at) "bearer"))
    None.

(** A refresh endpoint answering every request with [status] and a body
    that carries a new access token, valid for an hour, and nothing
    else. *)
Definition refresh_answer (status : Z) : Response :=
  mkResponse status "" (Some (JDict {[ "access_token" := JStr "tok1";
                                        "expires_in" := JNum 3600 ]})) "".

Definition idp (status : Z) (now : Q) : Env :=
  quiet_env now (fun _ _ => Respond (refresh_answer status)).

(** A client as [BackstageClient] builds it (three attempts, base delay
    1 s, no rate limiter), without and with a token store. *)
Definition sdk_config : ClientConfig.t :=
  ClientConfig.mk "https://idp.example/api/" None None (Some 30%Q) (Some 3) (Some 1%Q) true None.

Definition plain_client (now : Q) : HttpClient.t :=
  HttpClient.init sdk_config None 4242 now.

Definition signed_client (now : Q) : HttpClient.t :=
  HttpClient.init sdk_config (Some (bearer_store true None)) 4242 now.

Definition ok_response : Response :=
  mkResponse 200 "OK" (Some (JDict {[ "items" := JList [] ]})) "".

Definition error_response (status : Z) : Response :=
  mkResponse status "" (Some (JDict {[ "message" := JStr "refused" ]})) "".

(** The transport fails twice, then answers. *)
Definition two_failures_then_success (n : nat) (_ : Request) : Outcome :=
  match n with
  | 0%nat | 1%nat => Fail (HttpxRequestError (Str "connection refused"))
  | _ => Respond ok_response
  end.

(** The API answers 401; the refresh endpoint, asked next, answers
    [refresh_status]; whatever is sent after that is answered 200. *)
Definition unauthorized_then (refresh_status : Z) (n : nat) (_ : Request) : Outcome :=
  match n with
  | 0%nat => Respond (error_response 401)
  | 1%nat => Respond (refresh_answer refresh_status)
  | _ => Respond ok_response
  end.

(** The statuses [error_map] lists. *)
Definition mapped_statuses : list Z := [400; 401; 403; 404; 429; 500; 502; 503; 504].

(** [GET /entities] with nothing else given. *)
Definition get_entities : M (HttpClient.t * Env) Payload :=
  HttpClient.request "GET" "/entities" JNull JNull JNull None None.

(** The request [request] hands to the transport first. *)
Definition first_request (method path : string) (params json data : json)
    (headers : option (gmap string string)) (options : option RequestOptions.t)
    (c : HttpClient.t) (e : Env) : Request :=
  mkRequest method
    (urljoin (ClientConfig.base_url (HttpClient.config c)) (HttpClient.lstrip_slash path))
    params json data (HttpClient.prepare_headers c (clock e) headers)
    (match options ≫= RequestOptions.timeout with
     | Some q => if Qeq_bool q 0 then None else Some q
     | None => None
     end).

(** What [request] hands out for an outcome of [_execute_request]: a
    result as it is, an exception through [_transform_error]. *)
Definition surfaced (r : Res Payload) : Res Payload :=
  match r with
  | Ok p => Ok p
  | Raise x =>
      match HttpClient._transform_error x with
      | Ok err => Raise (SDK err)
      | Raise y => Raise y
      end
  end.

(** A request with one more header. *)
Definition with_header (key value : string) (req : Request) : Request :=
  mkRequest (method req) (req_url req) (params req) (req_json req) (data req)
    (<[ key := value ]> (headers req)) (req_timeout req).

(** [n] calls in a row through a breaker, each of which raised (the
    protected function did, or the breaker failed fast), whatever was
    called and whenever. *)
Inductive failing_calls {E : Type} `{Runtime E}
  : nat -> CircuitBreaker.t -> CircuitBreaker.t -> Prop :=
| failing_none cb : failing_calls 0 cb cb
| failing_more n cb cb1 cb2 {A} (func : M E A) e x e' :
    failing_calls n cb cb1 ->
    CircuitBreaker.call func (cb1, e) = (Raise x, (cb2, e')) ->
    failing_calls (S n) cb cb2.

(** The limiter after [n] calls of [acquire] made while the clock does
    not run backwards. *)
Inductive limiter_after {E : Type} `{Runtime E} (rl0 : RateLimiter.t)
  : nat -> RateLimiter.t -> Prop :=
| limiter_start : limiter_after rl0 0 rl0
| limiter_next n rl e r rl' e' :
    limiter_after rl0 n rl ->
    (RateLimiter.last_update rl <= time e)%Q ->
    RateLimiter.acquire (rl, e) = (r, (rl', e')) ->
    limiter_after rl0 (S n) rl'.

(** The store of [bearer_store] with both callbacks given, its
    credential expiring at 4600, and the refresh task [0] pending; a
    world at time 1000 in which that task sleeps until 4300 and the
    refresh endpoint answers [status]. *)
Definition watched_store : AuthManager.t :=
  AuthManager.mk
    (AuthConfig.mk "https://idp.example/" None (Some "tok0") (Some "r0") true)
    true true
    (Some (TokenInfo.mk "tok0" (Some "r0") (Some (Naive 4600)) "bearer"))
    (Some 0%nat).

Definition pending_env (status : Z) : Env :=
  set_tasks [mkTask 3300 1000 Sleeping] (idp status 1000).

(* ===================================================================== *)
(** * Properties                                                          *)
(* ===================================================================== *)

#[local] Open Scope py_scope.

Lemma Qlt_bool_iff (a b : Q) : Qlt_bool a b = true <-> (a < b)%Q.
Proof.
  unfold Qlt_bool. rewrite negb_true_iff, <- not_true_iff_false, Qle_bool_iff.
  split; intros; lra.
Qed.

Lemma Qlt_bool_false (a b : Q) : Qlt_bool a b = false <-> (b <= a)%Q.
Proof.
  unfold Qlt_bool. rewrite negb_false_iff, Qle_bool_iff. reflexivity.
Qed.

(** A subclass constructor called with a message only succeeds, and
    yields an instance of that class. *)
Lemma construct_no_kwargs cls msg :
  exists err, construct cls msg no_kwargs = Ok err /\ err_class err = cls.
Proof. destruct cls; simpl; eexists; split; reflexivity. Qed.

(** ** Circuit breaker *)

Section BreakerProps.
Context {E : Type} `{Runtime E}.
Import CircuitBreaker.

Ltac run_call :=
  unfold call, record_failure, raise_new, bind, gets, modify, on_snd, on_fst,
    try_except, ret, raise; simpl.

(** What [call] does once the protected function is let through, in
    terms of what the function does. *)
Lemma call_passes {A} (func : M E A) cb e :
  state cb <> open ->
  call func (cb, e) =
    match func e with
    | (Ok a, e') =>
        (Ok a, (match state cb with half_open => reset cb | _ => cb end, e'))
    | (Raise x, e') =>
        let cb1 := set_last_failure_time (time e')
                     (set_failure_count (failure_count cb + 1) cb) in
        (Raise x,
         (if failure_threshold cb <=? failure_count cb + 1
          then set_state open cb1 else cb1, e'))
    end.
Proof.
  intros Hst. run_call.
  destruct (state cb) eqn:Hs; try congruence; simpl;
    destruct (func e) as [[a|x] e']; simpl; rewrite ?Hs; try reflexivity;
    destruct (failure_threshold cb <=? failure_count cb + 1); reflexivity.
Qed.

Lemma call_half_opens {A} (func : M E A) cb e :
  state cb = open -> (timeout cb < time e - last_failure_time cb)%Q ->
  call func (cb, e) = call func (set_state half_open cb, e).
Proof.
  intros Hst Hel. apply Qlt_bool_iff in Hel.
  run_call. rewrite Hst. simpl. rewrite Hel. reflexivity.
Qed.

Lemma call_fail_fast {A} (func : M E A) cb e :
  state cb = open -> (time e - last_failure_time cb <= timeout cb)%Q ->
  exists err, call func (cb, e) = (Raise (SDK err), (cb, e))
              /\ err_class err = CircuitBreakerError.
Proof.
  intros Hst Hel. apply Qlt_bool_false in Hel.
  run_call. rewrite Hst. simpl. rewrite Hel.
  eexists. split; reflexivity.
Qed.

(** The threshold is fixed at construction. *)
Lemma reachable_threshold cb0 cb :
  breaker_reachable cb0 cb -> failure_threshold cb = failure_threshold cb0.
Proof.
  induction 1 as [|A func cb e r cb' e' Hr IH Hcall|cb Hr IH]; [reflexivity| |exact IH].
  destruct (decide (state cb = open)) as [Hopen|Hclosed].
  - destruct (Qlt_le_dec (timeout cb) (time e - last_failure_time cb)) as [Hel|Hel].
    + rewrite (call_half_opens _ _ _ Hopen Hel), call_passes in Hcall by (simpl; congruence).
      simpl in Hcall. destruct (func e) as [[a|x] e1]; simpl in Hcall.
      * injection Hcall as _ <- _. exact IH.
      * destruct (failure_threshold cb <=? failure_count cb + 1);
          injection Hcall as _ <- _; exact IH.
    + destruct (call_fail_fast func cb e Hopen Hel) as (err & Heq & _).
      rewrite Heq in Hcall. injection Hcall as _ <- _. exact IH.
  - rewrite call_passes in Hcall by assumption.
    destruct (func e) as [[a|x] e1]; simpl in Hcall.
    + injection Hcall as _ <- _. destruct (state cb); exact IH.
    + destruct (failure_threshold cb <=? failure_count cb + 1);
        injection Hcall as _ <- _; exact IH.
Qed.

(** A breaker is open or half-open only with its failure count at the
    threshold or above. *)
Lemma reachable_tripped thr tmo rec cb :
  breaker_reachable (init thr tmo rec) cb ->
  state cb <> closed -> thr <= failure_count cb.
Proof.
  intros Hr. pose proof (reachable_threshold _ _ Hr) as Hthr. simpl in Hthr.
  clear Hthr.
  induction Hr as [|A func cb e r cb' e' Hr IH Hcall|cb Hr IH];
    [simpl; congruence| |simpl; congruence].
  pose proof (reachable_threshold _ _ Hr) as Hthr. simpl in Hthr.
  destruct (decide (state cb = open)) as [Hopen|Hclosed].
  - destruct (Qlt_le_dec (timeout cb) (time e - last_failure_time cb)) as [Hel|Hel].
    + rewrite (call_half_opens _ _ _ Hopen Hel), call_passes in Hcall by (simpl; congruence).
      simpl in Hcall. destruct (func e) as [[a|x] e1]; simpl in Hcall.
      * injection Hcall as _ <- _. simpl. congruence.
      * rewrite Hthr in Hcall.
        destruct (thr <=? failure_count cb + 1) eqn:Hle;
          injection Hcall as _ <- _; simpl; intros _.
        -- lia.
        -- assert (thr <= failure_count cb) by (apply IH; congruence). lia.
    + destruct (call_fail_fast func cb e Hopen Hel) as (err & Heq & _).
      rewrite Heq in Hcall. injection Hcall as _ <- _. exact IH.
  - rewrite call_passes in Hcall by assumption.
    destruct (func e) as [[a|x] e1]; simpl in Hcall.
    + injection Hcall as _ <- _. destruct (state cb) eqn:Hs; simpl; try congruence.
    + rewrite Hthr in Hcall.
      destruct (thr <=? failure_count cb + 1) eqn:Hle;
        injection Hcall as _ <- _; simpl; intros Hne.
      * lia.
      * assert (thr <= failure_count cb) by (apply IH; exact Hne). lia.
Qed.
End BreakerProps.

Section BreakerClaims.
Context {E : Type} `{Runtime E}.
Import CircuitBreaker.

(** C3 (amended).  While the breaker is open and no more than [timeout] seconds
    have passed since [last_failure_time] (in particular: fewer than
    [timeout]), [call] raises [CircuitBreakerError] and leaves breaker
    and world exactly as they were, whatever [func] is: [func] is not
    run, [failure_count] and [last_failure_time] are untouched.  Once
    more than [timeout] seconds have passed, the call is the call of a
    half-open breaker: [func] runs, its outcome and its effects are the
    call's, and a success leaves the breaker reset to closed, which only
    a half-open breaker does. *)
Theorem call_when_open {A} (func : M E A) (cb : t) (e : E)
    (Hopen : state cb = open) :
  ((time e - last_failure_time cb <= timeout cb)%Q ->
     exists err, err_class err = CircuitBreakerError
                 /\ call func (cb, e) = (Raise (SDK err), (cb, e)))
  /\ ((timeout cb < time e - last_failure_time cb)%Q ->
        call func (cb, e) = call func (set_state half_open cb, e)
        /\ exists cb',
             call func (cb, e) = (fst (func e), (cb', snd (func e)))
             /\ match fst (func e) with
                | Ok _ => cb' = reset cb
                | Raise _ => failure_count cb' = failure_count cb + 1
                end).
Proof.
  split; intros Hel.
  - destruct (call_fail_fast func cb e Hopen Hel) as (err & Heq & Hcls). eauto.
  - split; [apply call_half_opens; assumption|].
    rewrite (call_half_opens _ _ _ Hopen Hel), call_passes by (simpl; congruence).
    simpl. destruct (func e) as [[a|x] e']; simpl.
    + eexists; split; reflexivity.
    + destruct (failure_threshold cb <=? failure_count cb + 1);
        eexists; split; reflexivity.
Qed.

(** C4.  For a breaker that started closed, every call in which [func]
    is run (the breaker is not open, or it is open and [timeout] has
    passed, so that it is half-open when [func] runs) hands out the
    outcome of [func] as it is, and
    - if [func] raised: [failure_count] is one more, [last_failure_time]
      is the clock's reading then, the breaker is open when
      [failure_count] has reached the threshold, and it is open in any
      case when [func] ran half-open;
    - if [func] returned while half-open: the breaker is closed with
      [failure_count] 0. *)
Theorem breaker_state_machine (thr : Z) (tmo rec : Q) (cb : t)
    (Hreach : breaker_reachable (init thr tmo rec) cb)
    {A} (func : M E A) (e : E)
    (Hrun : state cb <> open \/ (timeout cb < time e - last_failure_time cb)%Q) :
  exists cb',
    call func (cb, e) = (fst (func e), (cb', snd (func e)))
    /\ match fst (func e) with
       | Raise _ =>
           failure_count cb' = failure_count cb + 1
           /\ last_failure_time cb' = time (snd (func e))
           /\ (failure_threshold cb' <= failure_count cb' -> state cb' = open)
           /\ (state cb <> closed -> state cb' = open)
       | Ok _ =>
           state cb <> closed -> state cb' = closed /\ failure_count cb' = 0
       end.
Proof.
  pose proof (reachable_threshold _ _ Hreach) as Hthr. simpl in Hthr.
  pose proof (reachable_tripped _ _ _ _ Hreach) as Htrip.
  assert (Hcall : exists cb1, state cb1 <> open
                   /\ (state cb <> closed -> state cb1 = half_open)
                   /\ failure_threshold cb1 = thr
                   /\ failure_count cb1 = failure_count cb
                   /\ call func (cb, e) = call func (cb1, e)).
  { destruct (decide (state cb = open)) as [Hopen|Hno].
    - destruct Hrun as [Hrun|Hrun]; [congruence|].
      exists (set_state half_open cb). simpl.
      repeat split; try congruence. apply call_half_opens; assumption.
    - exists cb. repeat split; try assumption.
      intros Hc. destruct (state cb); congruence. }
  destruct Hcall as (cb1 & Hno & Hhalf & Hthr1 & Hcnt1 & ->).
  rewrite call_passes by assumption.
  destruct (func e) as [[a|x] e']; simpl.
  - eexists; split; [reflexivity|]. intros Hc. rewrite (Hhalf Hc). split; reflexivity.
  - rewrite Hthr1, Hcnt1.
    destruct (thr <=? failure_count cb + 1) eqn:Hle;
      (eexists; split; [reflexivity|]); simpl; rewrite ?Hthr1, ?Hcnt1;
      repeat split; try reflexivity; intros; try lia.
    + specialize (Htrip H0). lia.
Qed.
End BreakerClaims.

Lemma call_when_open_witness :
  let cb := CircuitBreaker.mk 5 60 30 5 1000 CircuitBreaker.open in
  let e := quiet_env 1030 (fun _ _ => Fail (HttpxRequestError (Str "refused"))) in
  let e2 := quiet_env 1061 (fun _ _ => Fail (HttpxRequestError (Str "refused"))) in
  let func := send (mkRequest "GET" (urljoin "http://idp/" "x") JNull JNull JNull ∅ None) in
  (exists err, err_class err = CircuitBreakerError
     /\ CircuitBreaker.call func (cb, e) = (Raise (SDK err), (cb, e)))
  /\ CircuitBreaker.call func (cb, e2)
     = CircuitBreaker.call func (CircuitBreaker.set_state CircuitBreaker.half_open cb, e2).
Proof.
  intros cb e e2 func. split.
  - apply (proj1 (call_when_open func cb e eq_refl)). vm_compute. discriminate.
  - apply (proj2 (call_when_open func cb e2 eq_refl)). vm_compute. reflexivity.
Defined.

(** C3, as stated, fails on the boundary: when exactly [timeout] seconds
    have elapsed since the last failure (not fewer than [timeout], so the
    timeout has elapsed), the call still fails fast, although the call a
    half-open breaker would make succeeds. *)
Lemma call_at_timeout_fails_fast :
  (time (quiet_env 1060 (fun _ _ => Respond ok_response))
   - CircuitBreaker.last_failure_time (CircuitBreaker.mk 5 60 30 5 1000 CircuitBreaker.open)
   == CircuitBreaker.timeout (CircuitBreaker.mk 5 60 30 5 1000 CircuitBreaker.open))%Q
  /\ (exists err,
        CircuitBreaker.call
          (send (mkRequest "GET" (urljoin "http://idp/" "x") JNull JNull JNull ∅ None))
          (CircuitBreaker.mk 5 60 30 5 1000 CircuitBreaker.open,
           quiet_env 1060 (fun _ _ => Respond ok_response))
        = (Raise (SDK err),
           (CircuitBreaker.mk 5 60 30 5 1000 CircuitBreaker.open,
            quiet_env 1060 (fun _ _ => Respond ok_response)))
        /\ err_class err = CircuitBreakerError)
  /\ fst (CircuitBreaker.call
            (send (mkRequest "GET" (urljoin "http://idp/" "x") JNull JNull JNull ∅ None))
            (CircuitBreaker.mk 5 60 30 5 1000 CircuitBreaker.half_open,
             quiet_env 1060 (fun _ _ => Respond ok_response)))
     = Ok ok_response.
Proof.
  split; [vm_compute; reflexivity|]. split.
  - eexists. split; [vm_compute; reflexivity|reflexivity].
  - vm_compute. reflexivity.
Qed.

Lemma breaker_state_machine_witness :
  let e := quiet_env 2000 (fun _ _ => Fail (HttpxRequestError (Str "refused"))) in
  let func := send (mkRequest "GET" (urljoin "http://idp/" "x") JNull JNull JNull ∅ None) in
  let cb := CircuitBreaker.mk 1 60 30 1 1000 CircuitBreaker.open in
  exists cb',
    CircuitBreaker.call func (cb, e) = (fst (func e), (cb', snd (func e)))
    /\ CircuitBreaker.failure_count cb' = 2
    /\ CircuitBreaker.state cb' = CircuitBreaker.open.
Proof.
  intros e func cb.
  assert (Hreach : breaker_reachable (E := Env) (CircuitBreaker.init 1 60 30) cb).
  { apply (breaker_call (CircuitBreaker.init 1 60 30) func (CircuitBreaker.init 1 60 30)
             (quiet_env 1000 (fun _ _ => Fail (HttpxRequestError (Str "refused"))))
             (fst (func (quiet_env 1000 (fun _ _ => Fail (HttpxRequestError (Str "refused"))))))
             cb
             (snd (func (quiet_env 1000 (fun _ _ => Fail (HttpxRequestError (Str "refused"))))))).
    - apply breaker_fresh.
    - vm_compute. reflexivity. }
  destruct (breaker_state_machine 1 60 30 cb Hreach func e) as (cb' & Hcall & Hprops).
  - right. vm_compute. reflexivity.
  - exists cb'. split; [exact Hcall|].
    simpl in Hprops. destruct Hprops as (Hc & _ & _ & Ho).
    split; [exact Hc|]. apply Ho. discriminate.
Defined.

(** ** Rate limiter *)

Section LimiterProps.
Context {E : Type} `{Runtime E}.
Import RateLimiter.

Lemma inject_Z_nonneg (n : Z) : 0 <= n -> (0 <= inject_Z n)%Q.
Proof. intros Hn. change 0%Q with (inject_Z 0). rewrite <- Zle_Qle. exact Hn. Qed.

(** [acquire] by cases on the refilled bucket. *)
Lemma acquire_cases (rl : t) (e : E) :
  let now := time e in
  let refilled := refill rl now in
  acquire (rl, e) =
    if Qle_bool 1 refilled
    then (Ok tt, (mk (requests_per_second rl) (burst_size rl) (refilled - 1) now, e))
    else if Qeq_bool (requests_per_second rl) 0
    then (Raise (Builtin "ZeroDivisionError" (Str "float division by zero")),
          (mk (requests_per_second rl) (burst_size rl) refilled now, e))
    else (Ok tt,
          (mk (requests_per_second rl) (burst_size rl) 0 now,
           sleep ((1 - refilled) / requests_per_second rl) e)).
Proof.
  unfold acquire, bind, gets, modify, on_fst, on_snd, raise, ret,
    set_tokens, set_last_update. simpl.
  destruct (Qle_bool 1 (refill rl (time e))); [reflexivity|].
  simpl. destruct (Qeq_bool (requests_per_second rl) 0); reflexivity.
Qed.

Lemma refill_bounds (rl : t) (now : Q) :
  (0 <= requests_per_second rl)%Q -> 0 <= burst_size rl ->
  (0 <= tokens rl)%Q -> (last_update rl <= now)%Q ->
  (0 <= refill rl now <= inject_Z (burst_size rl))%Q.
Proof.
  intros Hr Hb Ht Hn. unfold refill.
  assert (0 <= inject_Z (burst_size rl))%Q by (apply inject_Z_nonneg; assumption).
  assert (0 <= (now - last_update rl) * requests_per_second rl)%Q
    by (apply Qmult_le_0_compat; lra).
  split.
  - apply Q.min_glb; lra.
  - apply Q.le_min_l.
Qed.

(** Rate and capacity are fixed at construction; the bucket stays
    between empty and full. *)
Lemma limiter_invariant (rps : Q) (burst : Z) (now0 : Q) (rl : t) :
  (0 < rps)%Q -> 0 <= burst ->
  limiter_reachable (init rps burst now0) rl ->
  requests_per_second rl = rps /\ burst_size rl = burst
  /\ (0 <= tokens rl <= inject_Z burst)%Q.
Proof.
  intros Hrps Hburst Hreach.
  induction Hreach as [|rl e r rl' e' Hreach IH Hclock Hacq].
  - pose proof (inject_Z_nonneg burst Hburst).
    simpl. repeat split; try reflexivity; lra.
  - destruct IH as (Hr & Hb & Ht).
    pose proof (refill_bounds rl (time e)) as Hre.
    rewrite Hr, Hb in Hre. specialize (Hre ltac:(lra) Hburst ltac:(lra) Hclock).
    rewrite acquire_cases in Hacq. simpl in Hacq.
    destruct (Qle_bool 1 (refill rl (time e))) eqn:Hone.
    + injection Hacq as _ <- _. simpl. apply Qle_bool_iff in Hone.
      repeat split; try assumption; lra.
    + destruct (Qeq_bool (requests_per_second rl) 0);
        injection Hacq as _ <- _; simpl; repeat split; try assumption; lra.
Qed.

(** C9 (amended).  On a limiter built with a positive rate and a capacity that is
    not negative, and used while the clock does not run backwards:
    the bucket holds between 0 and [burst_size] tokens before every
    [acquire], after its refill and after it; [acquire] refills to
    [min(burst_size, tokens + elapsed * rate)]; with at least one token
    it takes one and returns without sleeping (the world is as it was);
    otherwise it sleeps [(1 - tokens) / rate] and leaves the bucket
    empty. *)
Theorem acquire_token_bucket (rps : Q) (burst : Z) (now0 : Q) (rl : t) (e : E)
    (Hrps : (0 < rps)%Q) (Hburst : 0 <= burst)
    (Hreach : limiter_reachable (init rps burst now0) rl)
    (Hclock : (last_update rl <= time e)%Q) :
  let refilled :=
    Qmin (inject_Z burst) (tokens rl + (time e - last_update rl) * rps) in
  (0 <= tokens rl <= inject_Z burst)%Q
  /\ (0 <= refilled <= inject_Z burst)%Q
  /\ ((1 <= refilled)%Q ->
        acquire (rl, e) = (Ok tt, (mk rps burst (refilled - 1) (time e), e)))
  /\ ((refilled < 1)%Q ->
        acquire (rl, e)
        = (Ok tt, (mk rps burst 0 (time e), sleep ((1 - refilled) / rps) e)))
  /\ (forall r rl' e', acquire (rl, e) = (r, (rl', e')) ->
        (0 <= tokens rl' <= inject_Z burst)%Q).
Proof.
  intros refilled.
  destruct (limiter_invariant rps burst now0 rl Hrps Hburst Hreach) as (Hr & Hb & Ht).
  assert (Hrefill : refilled = refill rl (time e))
    by (unfold refilled, refill; rewrite Hr, Hb; reflexivity).
  pose proof (refill_bounds rl (time e)) as Hre.
  rewrite Hr, Hb, <- Hrefill in Hre.
  specialize (Hre ltac:(lra) Hburst ltac:(lra) Hclock).
  split; [exact Ht|]. split; [exact Hre|].
  split; [|split].
  - intros Hone. rewrite acquire_cases. simpl. rewrite <- Hrefill, Hr, Hb.
    apply Qle_bool_iff in Hone. rewrite Hone. reflexivity.
  - intros Hlt. rewrite acquire_cases. simpl. rewrite <- Hrefill, Hr, Hb.
    destruct (Qle_bool 1 refilled) eqn:Hone;
      [apply Qle_bool_iff in Hone; lra|].
    destruct (Qeq_bool rps 0) eqn:Hz; [apply Qeq_bool_iff in Hz; lra|].
    reflexivity.
  - intros r rl' e' Hacq.
    apply (limiter_invariant rps burst now0 rl' Hrps Hburst).
    eapply limiter_acquire; eassumption.
Qed.
End LimiterProps.

Lemma acquire_token_bucket_witness :
  let rl := RateLimiter.init (1 # 2) 2 100 in
  let e := quiet_env 101 (fun _ _ => Fail (HttpxRequestError (Str "refused"))) in
  RateLimiter.acquire (rl, e)
  = (Ok tt, (RateLimiter.mk (1 # 2) 2
               (Qmin (inject_Z 2) (inject_Z 2 + (101 - 100) * (1 # 2)) - 1) 101, e)).
Proof.
  intros rl e.
  assert (Hrps : (0 < 1 # 2)%Q) by reflexivity.
  assert (Hburst : 0 <= 2) by lia.
  assert (Hclock : (RateLimiter.last_update rl <= time e)%Q)
    by (vm_compute; discriminate).
  destruct (acquire_token_bucket (1 # 2) 2 100 rl e Hrps Hburst
              (limiter_fresh rl) Hclock) as (_ & _ & Htake & _).
  apply Htake. vm_compute. discriminate.
Defined.

(** C9, as stated, fails outside these conditions.  When the clock has
    stepped back by ten seconds since the bucket was filled, the refill
    leaves -8 tokens, which shows in the wait of 9 seconds at one token
    per second; and at rate 0 an empty bucket makes [acquire] raise
    [ZeroDivisionError] where the claim has it wait. *)
Lemma acquire_outside_preconditions :
  (RateLimiter.refill (RateLimiter.init 1 2 100) 90 < 0)%Q
  /\ (exists rl' e' d,
        RateLimiter.acquire (RateLimiter.init 1 2 100, idp 200 90) = (Ok tt, (rl', e'))
        /\ slept e' = [d] /\ (d == 9)%Q)
  /\ exists m rl',
       RateLimiter.acquire (RateLimiter.init 0 0 100, idp 200 160)
       = (Raise (Builtin "ZeroDivisionError" m), (rl', idp 200 160)).
Proof.
  split; [vm_compute; reflexivity|]. split.
  - do 3 eexists. split; [vm_compute; reflexivity|].
    split; [reflexivity|vm_compute; reflexivity].
  - do 2 eexists. vm_compute. reflexivity.
Qed.

(** ** Token store *)

Section AuthProps.
Import AuthManager.

Ltac run_auth :=
  unfold set_tokens, clear_tokens, _schedule_refresh, notify_auth_error, notify,
    cancel, create_task, raise_new, lift, bind, gets, modify, on_snd, on_fst,
    try_except, ret, raise; simpl.

(** [set_tokens] run through: the credential is stored and the pending
    task cancelled first; the timer is armed next, which can fail; the
    callback comes last. *)
Lemma set_tokens_run (ti : TokenInfo.t) (am : t) (e : Env) :
  let e1 := match _refresh_task am with
            | Some h => set_tasks (alter cancel_task h (tasks e)) e
            | None => e
            end in
  let am1 := set_refresh_task None (set_token_info (Some ti) am) in
  let called (s : t * Env) :=
    (fst (callback (on_token_refresh am) (TokenRefreshed ti) (snd s)),
     (fst s, snd (callback (on_token_refresh am) (TokenRefreshed ti) (snd s)))) in
  set_tokens ti (am, e)
  = match to_schedule am ti with
    | Some (Aware _) =>
        (Raise (Builtin "TypeError"
                  (Str "can't subtract offset-naive and offset-aware datetimes")),
         (am1, e1))
    | Some (Naive x) =>
        if Qlt_bool 0 (x - 300 - clock e)
        then if running_loop e
             then called (set_refresh_task (Some (length (tasks e1))) am1,
                          set_tasks (tasks e1 ++
                                     [mkTask (x - 300 - clock e) (clock e) Sleeping]) e1)
             else (Raise (Builtin "RuntimeError" (Str "no running event loop")),
                   (am1, e1))
        else called (am1, e1)
    | None => called (am1, e1)
    end.
Proof.
  unfold to_schedule, callback. run_auth.
  destruct am as [cfg otr oae tok task], ti as [acc rt [[x|x]|] ty]; simpl;
    destruct task as [h|]; simpl;
    destruct (AuthConfig.auto_refresh cfg); simpl;
    destruct (truthy_str rt); simpl;
    try (destruct (Qlt_bool 0 (x - 300 - clock e)); simpl);
    try (destruct (running_loop e); simpl);
    destruct otr; simpl; try reflexivity;
    match goal with
    | |- context [application e ?n ?c] => destruct (application e n c); reflexivity
    end.
Qed.

(** Whatever comes of it, [set_tokens] stores the credential and leaves
    the configuration and the rest of the world alone. *)
Lemma set_tokens_frame (ti : TokenInfo.t) (am am' : t) (e e' : Env) (r : Res unit) :
  set_tokens ti (am, e) = (r, (am', e')) ->
  _token_info am' = Some ti
  /\ config am' = config am
  /\ on_token_refresh am' = on_token_refresh am
  /\ on_auth_error am' = on_auth_error am
  /\ clock e' = clock e /\ network e' = network e /\ sent e' = sent e
  /\ slept e' = slept e /\ application e' = application e
  /\ running_loop e' = running_loop e.
Proof.
  rewrite set_tokens_run. cbv zeta. unfold callback, notify.
  destruct (to_schedule am ti) as [[x|x]|];
    [destruct (Qlt_bool 0 (x - 300 - clock e)); [destruct (running_loop e) eqn:Hloop|]| |];
    destruct am as [cfg [|] oae tok [h|]]; simpl;
    try match goal with
        | |- context [application e ?n ?c] => destruct (application e n c)
        end;
    intros [= <- <- <-]; simpl; repeat split; try reflexivity; exact Hloop.
Qed.

(** When [set_tokens] returns. *)
Lemma set_tokens_returns (ti : TokenInfo.t) (am : t) (e : Env) :
  (forall x, to_schedule am ti <> Some (Aware x)) ->
  running_loop e = true ->
  (on_token_refresh am = true ->
   application e (length (notified e)) (TokenRefreshed ti) = None) ->
  exists am' e', set_tokens ti (am, e) = (Ok tt, (am', e')).
Proof.
  intros Hnaive Hloop Hcb. rewrite set_tokens_run. cbv zeta.
  unfold callback, notify. rewrite Hloop.
  destruct (to_schedule am ti) as [[x|x]|];
    [destruct (Qlt_bool 0 (x - 300 - clock e))|exfalso; exact (Hnaive x eq_refl)|];
    destruct am as [cfg [|] oae tok [h|]]; simpl in *;
    rewrite ?(Hcb eq_refl); simpl; do 2 eexists; reflexivity.
Qed.

(** The handlers turn whatever was raised into an [AuthenticationError]
    and leave the token store alone; [on_auth_error], when given, is
    called with that error, and what it raises is raised instead. *)
Lemma refresh_handler_run {A} (x : Exn) (am : t) (e : Env) :
  exists err,
    err_class err = AuthenticationError
    /\ refresh_handler (A := A) x (am, e)
       = if on_auth_error am
         then (match application e (length (notified e)) (AuthError (SDK err)) with
               | None => Raise (SDK err)
               | Some y => Raise y
               end,
               (am, set_notified (notified e ++ [AuthError (SDK err)]) e))
         else (Raise (SDK err), (am, e)).
Proof.
  unfold refresh_handler.
  destruct (construct_no_kwargs AuthenticationError
              (if isinstance_httpx_RequestError x
               then Str "Network error during token refresh: " +++ str x
               else Str "Token refresh failed: " +++ str x)) as (err & Hc & Hcls).
  rewrite Hc. exists err. split; [exact Hcls|].
  run_auth. destruct (on_auth_error am); [|reflexivity].
  cbn [fst snd].
  destruct (application e (length (notified e)) (AuthError (SDK err))); reflexivity.
Qed.

(** What the handlers leave behind. *)
Lemma refresh_handler_frame {A} (x : Exn) (am am' : t) (e e' : Env) (r : Res A) :
  refresh_handler x (am, e) = (r, (am', e')) ->
  am' = am
  /\ clock e' = clock e /\ network e' = network e /\ sent e' = sent e
  /\ slept e' = slept e /\ tasks e' = tasks e /\ application e' = application e
  /\ exists y, r = Raise y.
Proof.
  intros Hrun. destruct (refresh_handler_run (A := A) x am e) as (err & _ & Hh).
  rewrite Hh in Hrun.
  destruct (on_auth_error am);
    [destruct (application e (length (notified e)) (AuthError (SDK err)))|];
    injection Hrun as <- <- <-; repeat split; eauto.
Qed.

(** [refresh_exchange] run through. *)
Lemma refresh_exchange_run (prev : TokenInfo.t) (rt : string) (am : t) (e : Env) :
  let req := refresh_request (AuthConfig.base_url (config am)) rt in
  let e1 := set_sent (sent e ++ [req]) e in
  refresh_exchange prev rt (am, e) =
    match network e (length (sent e)) req with
    | Fail x => (Raise x, (am, e1))
    | Respond resp =>
        if negb (status_code resp =? 200)
        then (Raise (multiple_values "status"), (am, e1))
        else match body resp with
             | None => (Raise (Builtin "JSONDecodeError" (Str "Expecting value")),
                        (am, e1))
             | Some (JDict d) =>
                 match new_token_from d prev e1 with
                 | Ok ti =>
                     (match fst (set_tokens ti (am, e1)) with
                      | Ok _ => Ok ti
                      | Raise x => Raise x
                      end, snd (set_tokens ti (am, e1)))
                 | Raise x => (Raise x, (am, e1))
                 end
             | Some _ => (Raise (Builtin "TypeError" (Str "indices must be integers")),
                          (am, e1))
             end
    end.
Proof.
  simpl. unfold refresh_exchange, send, lift, bind, gets, on_snd, raise_new, ret, raise.
  simpl.
  destruct (network e (length (sent e))
              (refresh_request (AuthConfig.base_url (config am)) rt)) as [resp|x];
    [|reflexivity].
  destruct (status_code resp =? 200); simpl; [|reflexivity].
  destruct (body resp) as [[| | | | |d]|]; try reflexivity.
  destruct (new_token_from d prev _) as [ti|x]; [|reflexivity].
  destruct (set_tokens ti _) as [[[]|x] s]; reflexivity.
Qed.
End AuthProps.

Section RefreshClaims.
Import AuthManager.

Lemma truthy_str_Some (rt : string) :
  truthy_str (Some rt) = true <-> rt <> "".
Proof.
  simpl. rewrite negb_true_iff. apply String.eqb_neq.
Qed.

(** [refresh_token] on a credential with a usable refresh token: the
    exchange, then the handlers. *)
Lemma refresh_token_run (am : t) (e : Env) (prev : TokenInfo.t) (rt : string) :
  _token_info am = Some prev -> TokenInfo.refresh_token prev = Some rt -> rt <> "" ->
  refresh_token (am, e) =
    match refresh_exchange prev rt (am, e) with
    | (Ok ti, s) => (Ok ti, s)
    | (Raise x, s) => refresh_handler x s
    end.
Proof.
  intros Htok Hrt Hne. apply String.eqb_neq in Hne.
  unfold refresh_token, bind, gets, try_except. simpl.
  rewrite Htok, Hrt, Hne. simpl. reflexivity.
Qed.

(** Without a usable refresh token [refresh_token] fails before any
    exchange, and without a word to [on_auth_error]. *)
Lemma refresh_token_unavailable (am : t) (e : Env) :
  (forall prev, _token_info am = Some prev ->
                truthy_str (TokenInfo.refresh_token prev) = false) ->
  exists err, refresh_token (am, e) = (Raise (SDK err), (am, e))
              /\ err_class err = AuthenticationError.
Proof.
  intros Hno. unfold refresh_token, bind, gets, raise_new, raise. simpl.
  destruct (_token_info am) as [prev|]; [|eexists; split; reflexivity].
  specialize (Hno prev eq_refl).
  destruct (TokenInfo.refresh_token prev) as [rt|]; [|eexists; split; reflexivity].
  simpl in Hno. rewrite Hno. eexists; split; reflexivity.
Qed.

(** What the exchange leaves behind, whatever comes of it: the request
    has been sent, and the store holds the credential it held or, when
    the answer was usable, the new one. *)
Lemma refresh_exchange_frame (prev : TokenInfo.t) (rt : string) (am am' : t)
    (e e' : Env) (r : Res TokenInfo.t) :
  refresh_exchange prev rt (am, e) = (r, (am', e')) ->
  config am' = config am
  /\ on_token_refresh am' = on_token_refresh am
  /\ on_auth_error am' = on_auth_error am
  /\ clock e' = clock e /\ network e' = network e
  /\ sent e' = (sent e ++ [refresh_request (AuthConfig.base_url (config am)) rt])%list
  /\ slept e' = slept e /\ application e' = application e
  /\ (_token_info am' = _token_info am \/ exists ti, _token_info am' = Some ti).
Proof.
  rewrite refresh_exchange_run. cbv zeta.
  set (e1 := set_sent (sent e ++ [refresh_request (AuthConfig.base_url (config am)) rt]) e).
  assert (Hkeep : forall x, (Raise x, (am, e1)) = (r, (am', e')) ->
            config am' = config am
            /\ on_token_refresh am' = on_token_refresh am
            /\ on_auth_error am' = on_auth_error am
            /\ clock e' = clock e /\ network e' = network e
            /\ sent e' = sent e1
            /\ slept e' = slept e /\ application e' = application e
            /\ (_token_info am' = _token_info am \/ exists ti, _token_info am' = Some ti)).
  { intros x [= _ <- <-]. repeat split; try reflexivity. left. reflexivity. }
  destruct (network e (length (sent e))
              (refresh_request (AuthConfig.base_url (config am)) rt)) as [resp|y];
    [|apply Hkeep].
  destruct (negb (status_code resp =? 200)); [apply Hkeep|].
  destruct (body resp) as [[| | | | |d]|]; try apply Hkeep.
  destruct (new_token_from d prev e1) as [ti|y]; [|apply Hkeep].
  destruct (set_tokens ti (am, e1)) as [r1 [am1 e2]] eqn:Hset. simpl.
  destruct (set_tokens_frame ti am am1 e1 e2 r1 Hset)
    as (Hstored & Hcfg & Hotr & Hoae & Hclock & Hnet & Hsent & Hslept & Happ & _).
  intros [= _ <- <-]. repeat split; try assumption. right. eauto.
Qed.

(** Whatever [refresh_token] raises is an [AuthenticationError], or what
    [on_auth_error] raised when it was called with one. *)
Lemma refresh_token_raises (am : t) (e : Env) (x : Exn) (s : t * Env) :
  refresh_token (am, e) = (Raise x, s) ->
  (exists err, x = SDK err /\ err_class err = AuthenticationError)
  \/ (on_auth_error am = true
      /\ exists n err, err_class err = AuthenticationError
                       /\ application e n (AuthError (SDK err)) = Some x).
Proof.
  intros Hrun.
  destruct (_token_info am) as [prev|] eqn:Htok.
  - destruct (truthy_str (TokenInfo.refresh_token prev)) eqn:Htr.
    + destruct (TokenInfo.refresh_token prev) as [rt|] eqn:Hrt; [|discriminate].
      apply truthy_str_Some in Htr.
      rewrite (refresh_token_run am e prev rt Htok Hrt Htr) in Hrun.
      destruct (refresh_exchange prev rt (am, e)) as [[ti|y] [am1 e1]] eqn:Hex;
        [discriminate|].
      destruct (refresh_exchange_frame _ _ _ _ _ _ _ Hex)
        as (_ & _ & Hoae & _ & _ & _ & _ & Happ & _).
      destruct (refresh_handler_run (A := TokenInfo.t) y am1 e1) as (err & Hcls & Hh).
      rewrite Hh, Hoae, Happ in Hrun.
      destruct (on_auth_error am); [|injection Hrun as <- _; eauto].
      destruct (application e (length (notified e1)) (AuthError (SDK err))) as [z|] eqn:Hz;
        injection Hrun as <- _; [right|left]; eauto 6.
    + destruct (refresh_token_unavailable am e) as (err & Hh & Hcls).
      { intros p Hp. congruence. }
      rewrite Hh in Hrun. injection Hrun as <- _. eauto.
  - destruct (refresh_token_unavailable am e) as (err & Hh & Hcls).
    { intros p Hp. congruence. }
    rewrite Hh in Hrun. injection Hrun as <- _. eauto.
Qed.

(** A refresh that returns answered 200 with a JSON object, and its
    result is the credential built from that object and stored by a
    [set_tokens] that returned. *)
Lemma refresh_token_returns (am : t) (e : Env) (ti : TokenInfo.t) (s : t * Env) :
  refresh_token (am, e) = (Ok ti, s) ->
  exists prev rt resp d,
    _token_info am = Some prev /\ TokenInfo.refresh_token prev = Some rt
    /\ network e (length (sent e))
         (refresh_request (AuthConfig.base_url (config am)) rt) = Respond resp
    /\ status_code resp = 200 /\ body resp = Some (JDict d)
    /\ new_token_from d prev
         (set_sent (sent e ++ [refresh_request (AuthConfig.base_url (config am)) rt]) e)
       = Ok ti
    /\ set_tokens ti
         (am, set_sent (sent e ++ [refresh_request (AuthConfig.base_url (config am)) rt]) e)
       = (Ok tt, s).
Proof.
  intros Hrun. destruct s as [am' e'].
  assert (Hnever : forall y s0,
            refresh_handler (A := TokenInfo.t) y s0 <> (Ok ti, (am', e'))).
  { intros y [am0 e0] Hh.
    destruct (refresh_handler_frame y am0 _ e0 _ _ Hh) as (_ & _ & _ & _ & _ & _ & _ & z & Hz).
    discriminate Hz. }
  destruct (_token_info am) as [prev|] eqn:Htok;
    [destruct (truthy_str (TokenInfo.refresh_token prev)) eqn:Htr|].
  - destruct (TokenInfo.refresh_token prev) as [rt|] eqn:Hrt; [|discriminate].
    apply truthy_str_Some in Htr.
    rewrite (refresh_token_run am e prev rt Htok Hrt Htr), refresh_exchange_run in Hrun.
    cbv zeta in Hrun.
    exists prev, rt.
    destruct (network e (length (sent e))
                (refresh_request (AuthConfig.base_url (config am)) rt)) as [resp|y];
      [|exfalso; exact (Hnever _ _ Hrun)].
    destruct (status_code resp =? 200) eqn:Hst; simpl in Hrun;
      [|exfalso; exact (Hnever _ _ Hrun)].
    apply Z.eqb_eq in Hst.
    destruct (body resp) as [[| | | | |d]|] eqn:Hbody;
      try (exfalso; exact (Hnever _ _ Hrun)).
    destruct (new_token_from d prev _) as [ti'|y] eqn:Hnew;
      [|exfalso; exact (Hnever _ _ Hrun)].
    destruct (set_tokens ti' _) as [[[]|y] s1] eqn:Hset; simpl in Hrun;
      [|exfalso; exact (Hnever _ _ Hrun)].
    injection Hrun as <- <-. exists resp, d. repeat split; assumption.
  - destruct (refresh_token_unavailable am e) as (err & Hh & _).
    { intros p Hp. congruence. }
    rewrite Hh in Hrun. discriminate.
  - destruct (refresh_token_unavailable am e) as (err & Hh & _).
    { intros p Hp. congruence. }
    rewrite Hh in Hrun. discriminate.
Qed.
End RefreshClaims.

Section TokenStoreClaims.
Import AuthManager.

(** C7 (amended).  With a refresh token stored:
    - when the transport call fails or the response status is not 200,
      [refresh_token] fails and the token store is exactly as before,
      stored credential included; it raises an [AuthenticationError], or,
      when [on_auth_error] is given and raises on being called with that
      error, what the callback raises;
    - when it returns, the answer was a 200 and the stored credential is
      the one returned;
    - whatever it raises is an [AuthenticationError] or what
      [on_auth_error] raised on being called with one. *)
Theorem refresh_failure_keeps_credential (am : t) (e : Env)
    (prev : TokenInfo.t) (rt : string)
    (Htok : _token_info am = Some prev)
    (Hrt : TokenInfo.refresh_token prev = Some rt) (Hne : rt <> "") :
  let answer := network e (length (sent e))
                  (refresh_request (AuthConfig.base_url (config am)) rt) in
  (((exists x, answer = Fail x)
    \/ (exists resp, answer = Respond resp /\ status_code resp <> 200)) ->
     exists err e',
       err_class err = AuthenticationError
       /\ refresh_token (am, e)
          = (Raise (if on_auth_error am
                    then default (SDK err)
                           (application e (length (notified e)) (AuthError (SDK err)))
                    else SDK err),
             (am, e')))
  /\ (forall ti am' e',
        refresh_token (am, e) = (Ok ti, (am', e')) ->
        _token_info am' = Some ti
        /\ exists resp, answer = Respond resp /\ status_code resp = 200)
  /\ (forall x s,
        refresh_token (am, e) = (Raise x, s) ->
        (exists err, x = SDK err /\ err_class err = AuthenticationError)
        \/ (on_auth_error am = true
            /\ exists n err, err_class err = AuthenticationError
                             /\ application e n (AuthError (SDK err)) = Some x)).
Proof.
  intros answer. split; [|split].
  - intros Hfail.
    rewrite (refresh_token_run am e prev rt Htok Hrt Hne), refresh_exchange_run.
    fold answer. cbv zeta.
    set (e1 := set_sent (sent e ++ [refresh_request (AuthConfig.base_url (config am)) rt]) e).
    assert (Hhandled : forall x,
              exists err e',
                err_class err = AuthenticationError
                /\ refresh_handler (A := TokenInfo.t) x (am, e1)
                   = (Raise (if on_auth_error am
                             then default (SDK err)
                                    (application e (length (notified e))
                                       (AuthError (SDK err)))
                             else SDK err),
                      (am, e'))).
    { intros x. destruct (refresh_handler_run (A := TokenInfo.t) x am e1) as (err & Hcls & Hh).
      exists err. rewrite Hh. simpl.
      destruct (on_auth_error am); [|eauto].
      destruct (application e (length (notified e)) (AuthError (SDK err))); simpl; eauto. }
    destruct Hfail as [(x & ->)|(resp & -> & Hst)]; [apply Hhandled|].
    apply Z.eqb_neq in Hst. rewrite Hst. simpl. apply Hhandled.
  - intros ti am' e' Hrun.
    destruct (refresh_token_returns am e ti (am', e') Hrun)
      as (prev' & rt' & resp & d & Htok' & Hrt' & Hnet & Hst & _ & _ & Hset).
    assert (prev' = prev) by congruence. subst prev'.
    assert (rt' = rt) by congruence. subst rt'.
    split; [|exists resp; split; assumption].
    exact (proj1 (set_tokens_frame _ _ _ _ _ _ Hset)).
  - intros x s. apply refresh_token_raises.
Qed.

(** C10.  When a refresh returns and the body of the answer has no
    [refresh_token] field, the credential returned, which is the one now
    stored, carries the refresh token of the credential it replaces. *)
Theorem refresh_keeps_refresh_token (am : t) (e : Env) (prev ti : TokenInfo.t)
    (am' : t) (e' : Env) (rt : string) (resp : Response) (d : gmap string json)
    (Htok : _token_info am = Some prev)
    (Hrt : TokenInfo.refresh_token prev = Some rt)
    (Hrun : refresh_token (am, e) = (Ok ti, (am', e')))
    (Hnet : network e (length (sent e))
              (refresh_request (AuthConfig.base_url (config am)) rt) = Respond resp)
    (Hbody : body resp = Some (JDict d))
    (Homit : d !! "refresh_token" = None) :
  TokenInfo.refresh_token ti = TokenInfo.refresh_token prev
  /\ _token_info am' = Some ti.
Proof.
  destruct (refresh_token_returns am e ti (am', e') Hrun)
    as (prev' & rt' & resp' & d' & Htok' & Hrt' & Hnet' & _ & Hbody' & Hnew & Hset).
  assert (prev' = prev) by congruence. subst prev'.
  assert (rt' = rt) by congruence. subst rt'.
  assert (resp' = resp) by congruence. subst resp'.
  assert (d' = d) by congruence. subst d'.
  split.
  - unfold new_token_from in Hnew. rewrite Homit, Hrt in Hnew. simpl in Hnew.
    destruct (d !! "access_token") as [[| | |a| |]|]; try discriminate.
    destruct (d !! "expires_in") as [[| | | | |]|];
      [| | | | | |destruct (d !! "expires_at") as [[| | |s| |]|];
                   [| | |destruct (fromisoformat _ s)| | |]];
      try discriminate; injection Hnew as <-; simpl; congruence.
  - exact (proj1 (set_tokens_frame _ _ _ _ _ _ Hset)).
Qed.

(** C6 (amended).  [ensure_valid_token]
    - without a credential raises [AuthenticationError];
    - with a valid credential returns its access token, nothing else
      happening;
    - with an invalid credential that has a refresh token, and with
      [auto_refresh] on, does what [refresh_token] does and returns the
      access token of the credential that call returns, which is then the
      stored one, the refresh request being the one thing sent;
    - with an invalid credential otherwise (no refresh token, or
      [auto_refresh] off) raises [AuthenticationError] and sends
      nothing;
    - with a credential whose validity cannot be checked raises what the
      check raises, and nothing else happens.
    The check: an API key is valid; a bearer credential without expiry
    is valid; one with a naive expiry is valid until 60 seconds before
    it; one with a timezone-aware expiry makes the check raise
    [TypeError]. *)
Theorem ensure_valid_token_cases (am : t) (e : Env) :
  (_token_info am = None ->
     exists err, ensure_valid_token (am, e) = (Raise (SDK err), (am, e))
                 /\ err_class err = AuthenticationError)
  /\ (forall ti, _token_info am = Some ti ->
        (_is_token_valid am (clock e) = Ok true ->
           ensure_valid_token (am, e) = (Ok (TokenInfo.access_token ti), (am, e)))
        /\ (_is_token_valid am (clock e) = Ok false ->
            truthy_str (TokenInfo.refresh_token ti) = true ->
            AuthConfig.auto_refresh (config am) = true ->
              ensure_valid_token (am, e)
              = (match fst (refresh_token (am, e)) with
                 | Ok ti' => Ok (TokenInfo.access_token ti')
                 | Raise x => Raise x
                 end, snd (refresh_token (am, e)))
              /\ forall ti' am' e',
                   refresh_token (am, e) = (Ok ti', (am', e')) ->
                   _token_info am' = Some ti'
                   /\ exists rt, TokenInfo.refresh_token ti = Some rt
                        /\ sent e' = (sent e ++
                             [refresh_request (AuthConfig.base_url (config am)) rt])%list)
        /\ (_is_token_valid am (clock e) = Ok false ->
            truthy_str (TokenInfo.refresh_token ti) = false
            \/ AuthConfig.auto_refresh (config am) = false ->
              exists err, ensure_valid_token (am, e) = (Raise (SDK err), (am, e))
                          /\ err_class err = AuthenticationError)
        /\ (forall x, _is_token_valid am (clock e) = Raise x ->
              ensure_valid_token (am, e) = (Raise x, (am, e)))
        /\ (TokenInfo.token_type ti = "api_key" \/ TokenInfo.expires_at ti = None ->
              _is_token_valid am (clock e) = Ok true)
        /\ (forall x, TokenInfo.token_type ti <> "api_key" ->
              TokenInfo.expires_at ti = Some (Naive x) ->
              ((clock e < x - 60)%Q -> _is_token_valid am (clock e) = Ok true)
              /\ ((x - 60 <= clock e)%Q -> _is_token_valid am (clock e) = Ok false))
        /\ (forall x, TokenInfo.token_type ti <> "api_key" ->
              TokenInfo.expires_at ti = Some (Aware x) ->
              exists m, _is_token_valid am (clock e) = Raise (Builtin "TypeError" m))).
Proof.
  split.
  - intros Hnone. unfold ensure_valid_token, bind, gets, raise_new, raise. simpl.
    rewrite Hnone. eexists; split; reflexivity.
  - intros ti Htok. split; [|split; [|split; [|split; [|split; [|split]]]]].
    + intros Hvalid. unfold ensure_valid_token, lift, bind, gets, on_snd, ret. simpl.
      rewrite Htok. simpl. rewrite Hvalid. reflexivity.
    + intros Hinvalid Hrt Hauto. split.
      * unfold ensure_valid_token, lift, bind, gets, on_snd, ret. simpl.
        rewrite Htok. simpl. rewrite Hinvalid, Hrt, Hauto. simpl.
        destruct (refresh_token (am, e)) as [[ti'|x] s]; reflexivity.
      * intros ti' am' e' Hrun.
        destruct (refresh_token_returns am e ti' (am', e') Hrun)
          as (prev & rt & resp & d & Htok' & Hrt' & _ & _ & _ & _ & Hset).
        assert (prev = ti) by congruence. subst prev.
        destruct (set_tokens_frame _ _ _ _ _ _ Hset)
          as (Hstored & _ & _ & _ & _ & _ & Hsent & _).
        split; [exact Hstored|]. exists rt. split; [exact Hrt'|exact Hsent].
    + intros Hinvalid Hno.
      unfold ensure_valid_token, lift, bind, gets, on_snd, raise_new, raise.
      simpl. rewrite Htok. simpl. rewrite Hinvalid.
      assert (Hcond : truthy_str (TokenInfo.refresh_token ti)
                      && AuthConfig.auto_refresh (config am) = false).
      { destruct Hno as [-> | ->]; [reflexivity|apply andb_false_r]. }
      rewrite Hcond. eexists; split; reflexivity.
    + intros x Hraise. unfold ensure_valid_token, lift, bind, gets, on_snd. simpl.
      rewrite Htok. simpl. rewrite Hraise. reflexivity.
    + unfold _is_token_valid. rewrite Htok.
      intros [-> | ->]; [reflexivity|].
      destruct (String.eqb (TokenInfo.token_type ti) "api_key"); reflexivity.
    + intros x Hty Hexp. apply String.eqb_neq in Hty.
      unfold _is_token_valid. rewrite Htok, Hty, Hexp. simpl.
      split; intros Hcmp; f_equal;
        [apply Qlt_bool_iff|apply Qlt_bool_false]; exact Hcmp.
    + intros x Hty Hexp. apply String.eqb_neq in Hty.
      unfold _is_token_valid. rewrite Htok, Hty, Hexp. simpl. eexists. reflexivity.
Qed.
End TokenStoreClaims.

Lemma refresh_failure_keeps_credential_witness :
  exists err e',
    err_class err = AuthenticationError
    /\ AuthManager.refresh_token (bearer_store true None, idp 500 1000)
       = (Raise (SDK err), (bearer_store true None, e')).
Proof.
  apply (refresh_failure_keeps_credential (bearer_store true None) (idp 500 1000)
           (TokenInfo.mk "tok0" (Some "r0") None "bearer") "r0" eq_refl eq_refl).
  - discriminate.
  - right. exists (refresh_answer 500). split; [reflexivity|discriminate].
Defined.

(** C7, as stated, fails: an answer with status 201, a 2xx status
    received without any transport failure and carrying a well-formed
    body, makes [refresh_token] raise [AuthenticationError]. *)
Lemma refresh_rejects_other_2xx :
  network (idp 201 1000) 0 (AuthManager.refresh_request "https://idp.example/" "r0")
    = Respond (refresh_answer 201)
  /\ 200 <= status_code (refresh_answer 201) < 300
  /\ exists err e',
       AuthManager.refresh_token (bearer_store true None, idp 201 1000)
       = (Raise (SDK err), (bearer_store true None, e'))
       /\ err_class err = AuthenticationError.
Proof.
  split; [reflexivity|]. split; [simpl; lia|].
  do 2 eexists. split; [vm_compute; reflexivity|reflexivity].
Qed.

Lemma refresh_keeps_refresh_token_witness :
  match AuthManager.refresh_token (bearer_store true None, idp 200 1000) with
  | (Ok ti, (am', _)) =>
      TokenInfo.refresh_token ti = Some "r0" /\ AuthManager._token_info am' = Some ti
  | (Raise _, _) => False
  end.
Proof.
  destruct (AuthManager.refresh_token (bearer_store true None, idp 200 1000))
    as [[ti|x] [am' e']] eqn:Hrun.
  - apply (refresh_keeps_refresh_token (bearer_store true None) (idp 200 1000)
             (TokenInfo.mk "tok0" (Some "r0") None "bearer") ti am' e' "r0"
             (refresh_answer 200)
             {[ "access_token" := JStr "tok1"; "expires_in" := JNum 3600 ]}
             eq_refl eq_refl Hrun eq_refl eq_refl).
    vm_compute. reflexivity.
  - vm_compute in Hrun. discriminate Hrun.
Defined.

Lemma ensure_valid_token_cases_witness :
  AuthManager.ensure_valid_token (bearer_store true (Some 1000%Q), idp 200 2000)
  = (match fst (AuthManager.refresh_token (bearer_store true (Some 1000%Q), idp 200 2000)) with
     | Ok ti' => Ok (TokenInfo.access_token ti')
     | Raise x => Raise x
     end,
     snd (AuthManager.refresh_token (bearer_store true (Some 1000%Q), idp 200 2000))).
Proof.
  apply (proj2 (ensure_valid_token_cases (bearer_store true (Some 1000%Q)) (idp 200 2000))
           (TokenInfo.mk "tok0" (Some "r0") (Some (Naive 1000)) "bearer") eq_refl).
  - vm_compute. reflexivity.
  - reflexivity.
  - reflexivity.
Defined.

(** C6, as stated, fails: with [auto_refresh] off, an expired credential
    that has a refresh token is not refreshed, although the exchange
    would succeed; [ensure_valid_token] raises and sends nothing. *)
Lemma ensure_valid_without_auto_refresh :
  AuthManager._is_token_valid (bearer_store false (Some 1000%Q)) (clock (idp 200 2000))
  = Ok false
  /\ TokenInfo.refresh_token <$> AuthManager._token_info (bearer_store false (Some 1000%Q))
     = Some (Some "r0")
  /\ (exists ti s,
        AuthManager.refresh_token (bearer_store false (Some 1000%Q), idp 200 2000) = (Ok ti, s)
        /\ TokenInfo.access_token ti = "tok1")
  /\ exists err,
       AuthManager.ensure_valid_token (bearer_store false (Some 1000%Q), idp 200 2000)
       = (Raise (SDK err), (bearer_store false (Some 1000%Q), idp 200 2000))
       /\ err_class err = AuthenticationError.
Proof.
  split; [vm_compute; reflexivity|]. split; [reflexivity|]. split.
  - do 2 eexists. split; [vm_compute; reflexivity|reflexivity].
  - eexists. split; [vm_compute; reflexivity|reflexivity].
Qed.

(** ** Scheduled refresh *)

Section ScheduleProps.
Import AuthManager.

Lemma cancelled_not_sleeping (t : Task) : task_state (cancel_task t) <> Sleeping.
Proof.
  unfold cancel_task. destruct (task_state t) eqn:Hs; simpl; congruence.
Qed.

(** After the cancellation step of [set_tokens] and [clear_tokens] no
    task is asleep. *)
Lemma cancel_clears (am : t) (e : Env) :
  one_pending am e ->
  forall (i : nat) (t : Task),
    match _refresh_task am with
    | Some h => alter cancel_task h (tasks e)
    | None => tasks e
    end !! i = Some t ->
    task_state t <> Sleeping.
Proof.
  intros Hinv i t Hlook Hs.
  destruct (_refresh_task am) as [h|] eqn:Hh.
  - destruct (decide (h = i)) as [->|Hne].
    + rewrite list_lookup_alter_eq in Hlook.
      destruct (tasks e !! i) as [t0|]; [|discriminate].
      injection Hlook as <-. exact (cancelled_not_sleeping t0 Hs).
    + rewrite list_lookup_alter_ne in Hlook by assumption.
      specialize (Hinv i t Hlook Hs). congruence.
  - specialize (Hinv i t Hlook Hs). congruence.
Qed.

Lemma cancel_length (am : t) (e : Env) :
  length (match _refresh_task am with
          | Some h => alter cancel_task h (tasks e)
          | None => tasks e
          end) = length (tasks e).
Proof. destruct (_refresh_task am); [apply length_alter|reflexivity]. Qed.

(** The tasks, the handle and the result [set_tokens] leaves. *)
Lemma set_tokens_tasks (ti : TokenInfo.t) (am : t) (e : Env) :
  let cancelled := match _refresh_task am with
                   | Some h => alter cancel_task h (tasks e)
                   | None => tasks e
                   end in
  exists r am' e',
    set_tokens ti (am, e) = (r, (am', e'))
    /\ _token_info am' = Some ti
    /\ match to_schedule am ti with
       | Some (Naive x) =>
           if Qlt_bool 0 (x - 300 - clock e) && running_loop e
           then _refresh_task am' = Some (length (tasks e))
                /\ tasks e' = (cancelled ++ [mkTask (x - 300 - clock e) (clock e) Sleeping])%list
           else _refresh_task am' = None /\ tasks e' = cancelled
       | _ => _refresh_task am' = None /\ tasks e' = cancelled
       end
    /\ match to_schedule am ti with
       | Some (Aware _) =>
           notified e' = notified e /\ exists m, r = Raise (Builtin "TypeError" m)
       | Some (Naive x) =>
           if Qlt_bool 0 (x - 300 - clock e) && negb (running_loop e)
           then notified e' = notified e /\ exists m, r = Raise (Builtin "RuntimeError" m)
           else r = fst (callback (on_token_refresh am) (TokenRefreshed ti) e)
       | None => r = fst (callback (on_token_refresh am) (TokenRefreshed ti) e)
       end.
Proof.
  intros cancelled. subst cancelled. rewrite set_tokens_run. cbv zeta.
  unfold callback, notify.
  destruct (to_schedule am ti) as [[x|x]|];
    [destruct (Qlt_bool 0 (x - 300 - clock e)); [destruct (running_loop e)|]| |];
    destruct am as [cfg [|] oae tok [h|]]; simpl;
    try match goal with
        | |- context [application e ?n ?c] => destruct (application e n c)
        end;
    do 3 eexists; (split; [reflexivity|]); simpl;
    rewrite ?length_alter; repeat split; eauto.
Qed.

(** [set_tokens] keeps at most one refresh pending, cancels what was
    pending, and arms a timer exactly when it should and can. *)
Lemma set_tokens_schedules (ti : TokenInfo.t) (am : t) (e : Env) :
  one_pending am e ->
  exists r am' e',
    set_tokens ti (am, e) = (r, (am', e'))
    /\ _token_info am' = Some ti
    /\ one_pending am' e'
    /\ (forall h t, tasks e !! h = Some t ->
          exists t', tasks e' !! h = Some t' /\ task_state t' <> Sleeping)
    /\ (forall x,
          AuthConfig.auto_refresh (config am) = true ->
          truthy_str (TokenInfo.refresh_token ti) = true ->
          TokenInfo.expires_at ti = Some (Naive x) ->
          ((clock e < x - 300)%Q -> running_loop e = true ->
             _refresh_task am' = Some (length (tasks e))
             /\ tasks e' !! length (tasks e)
                = Some (mkTask (x - 300 - clock e) (clock e) Sleeping))
          /\ ((x - 300 <= clock e)%Q -> _refresh_task am' = None)
          /\ ((clock e < x - 300)%Q -> running_loop e = false ->
              _refresh_task am' = None /\ notified e' = notified e
              /\ exists m, r = Raise (Builtin "RuntimeError" m)))
    /\ (forall x,
          AuthConfig.auto_refresh (config am) = true ->
          truthy_str (TokenInfo.refresh_token ti) = true ->
          TokenInfo.expires_at ti = Some (Aware x) ->
          _refresh_task am' = None /\ notified e' = notified e
          /\ exists m, r = Raise (Builtin "TypeError" m))
    /\ (AuthConfig.auto_refresh (config am) = false
        \/ truthy_str (TokenInfo.refresh_token ti) = false
        \/ TokenInfo.expires_at ti = None ->
        _refresh_task am' = None)
    /\ ((forall x, TokenInfo.expires_at ti <> Some (Aware x)) ->
        running_loop e = true ->
        (on_token_refresh am = true ->
         application e (length (notified e)) (TokenRefreshed ti) = None) ->
        r = Ok tt).
Proof.
  intros Hinv.
  destruct (set_tokens_tasks ti am e) as (r & am' & e' & Hrun & Hstored & Hsched & Hres).
  pose proof (cancel_clears am e Hinv) as Hclear.
  pose proof (cancel_length am e) as Hlen.
  set (cancelled := match _refresh_task am with
                    | Some h => alter cancel_task h (tasks e)
                    | None => tasks e
                    end) in *.
  assert (Hold : forall h t, tasks e !! h = Some t ->
                   exists t', cancelled !! h = Some t' /\ task_state t' <> Sleeping).
  { intros h t Hlook.
    assert (Hlt : (h < length cancelled)%nat)
      by (rewrite Hlen; eapply lookup_lt_Some; eassumption).
    destruct (lookup_lt_is_Some_2 _ _ Hlt) as (t' & Ht'). eauto. }
  assert (Hcases :
            (_refresh_task am' = None /\ tasks e' = cancelled)
            \/ (exists d, _refresh_task am' = Some (length (tasks e))
                          /\ tasks e' = (cancelled ++ [mkTask d (clock e) Sleeping])%list)).
  { destruct (to_schedule am ti) as [[x|x]|]; try (left; exact Hsched).
    destruct (Qlt_bool 0 (x - 300 - clock e) && running_loop e);
      [right; eauto|left; exact Hsched]. }
  exists r, am', e'. split; [exact Hrun|]. split; [exact Hstored|].
  unfold to_schedule in Hsched, Hres.
  split; [|split; [|split; [|split; [|split]]]].
  - intros h t Hlook Hs.
    destruct Hcases as [(Hh & Htasks)|(d & Hh & Htasks)]; rewrite Htasks in Hlook.
    + exfalso. exact (Hclear h t Hlook Hs).
    + apply lookup_app_Some in Hlook as [Hlook|(Hge & Hlook)].
      * exfalso. exact (Hclear h t Hlook Hs).
      * rewrite Hh. f_equal. rewrite Hlen in *.
        apply lookup_lt_Some in Hlook. simpl in Hlook. lia.
  - intros h t Hlook. destruct (Hold h t Hlook) as (t' & Ht' & Hns).
    exists t'. split; [|exact Hns].
    destruct Hcases as [(_ & ->)|(d & _ & ->)]; [exact Ht'|].
    rewrite lookup_app_l by (eapply lookup_lt_Some; eassumption). exact Ht'.
  - intros x Hauto Hrt Hexp. rewrite Hauto, Hrt, Hexp in Hsched, Hres.
    simpl in Hsched, Hres.
    split; [|split].
    + intros Hcmp Hloop.
      assert (Hb : Qlt_bool 0 (x - 300 - clock e) = true) by (apply Qlt_bool_iff; lra).
      rewrite Hb, Hloop in Hsched. destruct Hsched as (Hh & ->). split; [exact Hh|].
      rewrite <- Hlen. apply list_lookup_middle. reflexivity.
    + intros Hcmp.
      assert (Hb : Qlt_bool 0 (x - 300 - clock e) = false) by (apply Qlt_bool_false; lra).
      rewrite Hb in Hsched. apply Hsched.
    + intros Hcmp Hloop.
      assert (Hb : Qlt_bool 0 (x - 300 - clock e) = true) by (apply Qlt_bool_iff; lra).
      rewrite Hb, Hloop in Hsched, Hres. simpl in Hsched, Hres.
      split; [apply Hsched|exact Hres].
  - intros x Hauto Hrt Hexp. rewrite Hauto, Hrt, Hexp in Hsched, Hres.
    simpl in Hsched, Hres. split; [apply Hsched|exact Hres].
  - intros Hno.
    destruct (AuthConfig.auto_refresh (config am)) eqn:Hauto;
      destruct (truthy_str (TokenInfo.refresh_token ti)) eqn:Hrt;
      destruct (TokenInfo.expires_at ti) as [x|] eqn:Hexp; simpl in Hsched;
      try apply Hsched.
    destruct Hno as [Hno|[Hno|Hno]]; discriminate.
  - intros Hnaive Hloop Hcb.
    assert (Hcalled : fst (callback (on_token_refresh am) (TokenRefreshed ti) e) = Ok tt).
    { unfold callback, notify. destruct (on_token_refresh am); [|reflexivity].
      rewrite (Hcb eq_refl). reflexivity. }
    rewrite Hloop in Hres.
    destruct (AuthConfig.auto_refresh (config am) && truthy_str (TokenInfo.refresh_token ti));
      [|congruence].
    destruct (TokenInfo.expires_at ti) as [[x|x]|]; [| |congruence].
    + rewrite andb_false_r in Hres. congruence.
    + exfalso. exact (Hnaive x eq_refl).
Qed.
End ScheduleProps.

Section WakeupProps.
Import AuthManager.

(** With a usable refresh token, [refresh_token] posts exactly the
    refresh request, whatever comes of it, and takes no time of its
    own; token-store configuration is never touched. *)
Lemma refresh_token_sends (am : t) (e : Env) (prev : TokenInfo.t) (rt : string)
    (r : Res TokenInfo.t) (am1 : t) (e1 : Env) :
  _token_info am = Some prev -> TokenInfo.refresh_token prev = Some rt -> rt <> "" ->
  refresh_token (am, e) = (r, (am1, e1)) ->
  sent e1 = (sent e ++ [refresh_request (AuthConfig.base_url (config am)) rt])%list
  /\ clock e1 = clock e.
Proof.
  intros Htok Hrt Hne Hrun.
  rewrite (refresh_token_run am e prev rt Htok Hrt Hne) in Hrun.
  destruct (refresh_exchange prev rt (am, e)) as [[ti|y] [am0 e0]] eqn:Hex;
    destruct (refresh_exchange_frame _ _ _ _ _ _ _ Hex)
      as (_ & _ & _ & Hclock & _ & Hsent & _).
  - injection Hrun as _ _ <-. split; assumption.
  - destruct (refresh_handler_frame y am0 am1 e0 e1 r Hrun)
      as (_ & Hclock1 & _ & Hsent1 & _).
    split; congruence.
Qed.

(** The wake-up of a sleeping refresh task posts the refresh request,
    at the task's due time when the clock was not yet past it. *)
Lemma wakeup_posts (am : t) (e : Env) (h : nat) (task : Task)
    (prev : TokenInfo.t) (rt : string) :
  tasks e !! h = Some task -> task_state task = Sleeping ->
  _token_info am = Some prev -> TokenInfo.refresh_token prev = Some rt -> rt <> "" ->
  exists r am1 e1,
    _auto_refresh_wakeup h (am, e) = (r, (am1, e1))
    /\ sent e1 = (sent e ++ [refresh_request (AuthConfig.base_url (config am)) rt])%list
    /\ clock e1 = Qmax (clock e) (due task).
Proof.
  intros Hlook Hs Htok Hrt Hne.
  unfold _auto_refresh_wakeup, bind, gets, on_snd, modify, try_except, ret. simpl.
  rewrite Hlook, Hs. simpl.
  set (e0 := set_tasks _ (set_clock _ e)).
  destruct (refresh_token (am, e0)) as [r [am1 e1]] eqn:Hrun.
  destruct (refresh_token_sends am e0 prev rt r am1 e1 Htok Hrt Hne Hrun) as (Hsent & Hclock).
  destruct r as [ti|x]; simpl.
  - do 3 eexists. split; [reflexivity|]. simpl. split; assumption.
  - unfold notify_auth_error, bind, gets, on_snd, notify, modify, ret. simpl.
    destruct (on_auth_error am1); simpl;
      [destruct (application e1 (length (notified e1)) (AuthError x))|];
      do 3 eexists; (split; [reflexivity|]); simpl; split; assumption.
Qed.
End WakeupProps.

Section ScheduleClaims.
Import AuthManager.

(** A refresh answered with [expires_in = 3600] when the clock reads
    [t0], inside a running event loop and with a callback that returns,
    leaves one sleeping task, due at [t0 + 3300]. *)
Lemma refresh_hour_schedules (am : t) (e : Env) (prev : TokenInfo.t) (rt a : string)
    (resp : Response) (d : gmap string json) :
  one_pending am e ->
  AuthConfig.auto_refresh (config am) = true ->
  _token_info am = Some prev -> TokenInfo.refresh_token prev = Some rt -> rt <> "" ->
  network e (length (sent e))
    (refresh_request (AuthConfig.base_url (config am)) rt) = Respond resp ->
  status_code resp = 200 -> body resp = Some (JDict d) ->
  d !! "access_token" = Some (JStr a) -> d !! "refresh_token" = None ->
  d !! "expires_in" = Some (JNum 3600) ->
  running_loop e = true ->
  (on_token_refresh am = true ->
   application e (length (notified e))
     (TokenRefreshed (TokenInfo.mk a (Some rt) (Some (Naive (clock e + 3600))) "bearer"))
   = None) ->
  exists ti am' e' task,
    refresh_token (am, e) = (Ok ti, (am', e'))
    /\ ti = TokenInfo.mk a (Some rt) (Some (Naive (clock e + 3600))) "bearer"
    /\ _token_info am' = Some ti
    /\ config am' = config am
    /\ one_pending am' e'
    /\ _refresh_task am' = Some (length (tasks e))
    /\ tasks e' !! length (tasks e) = Some task
    /\ task_state task = Sleeping
    /\ (due task == clock e + 3300)%Q
    /\ (clock e' == clock e)%Q.
Proof.
  intros Hinv Hauto Htok Hrt Hne Hnet Hst Hbody Hacc Homit Hexp Hloop Hcb.
  rewrite (refresh_token_run am e prev rt Htok Hrt Hne), refresh_exchange_run.
  cbv zeta. rewrite Hnet, Hst, Hbody. simpl.
  unfold new_token_from. rewrite Hacc, Homit, Hrt, Hexp. simpl.
  set (e0 := set_sent (sent e ++ [refresh_request (AuthConfig.base_url (config am)) rt]) e).
  set (ti := TokenInfo.set_expires_at (Some (Naive (clock e + 3600)))
               (TokenInfo.mk a (Some rt) None "bearer")).
  assert (Hinv0 : one_pending am e0) by exact Hinv.
  destruct (set_tokens_schedules ti am e0 Hinv0)
    as (r & am' & e' & Hset & Hstored & Hinv' & _ & Harm & _ & _ & Hres).
  destruct (set_tokens_frame _ _ _ _ _ _ Hset) as (_ & Hcfg & _ & _ & Hclock & _).
  assert (Hr : r = Ok tt).
  { apply Hres; [intros x; discriminate|exact Hloop|exact Hcb]. }
  subst r.
  specialize (Harm (clock e + 3600)%Q Hauto).
  destruct Harm as (Harm & _); [apply truthy_str_Some; exact Hne|reflexivity|].
  destruct Harm as (Hh & Htask); [simpl; lra|exact Hloop|].
  rewrite Hset. simpl.
  exists ti, am', e', (mkTask (clock e + 3600 - 300 - clock e0) (clock e0) Sleeping).
  repeat split; try assumption; try reflexivity.
  - unfold due. simpl. ring.
  - rewrite Hclock. reflexivity.
Qed.

End ScheduleClaims.

Lemma one_pending_quiet (am : AuthManager.t) (now : Q) (net : nat -> Request -> Outcome) :
  one_pending am (quiet_env now net).
Proof. intros h t Hlook. discriminate Hlook. Qed.

Lemma one_pending_watched (status : Z) : one_pending watched_store (pending_env status).
Proof. intros [|h] t Hlook Hs; [reflexivity|discriminate Hlook]. Qed.



(** ** Request executor *)

Section HttpProps.
Import HttpClient.

(** The keyword clash of the subclass constructors: for every status of
    [error_map] the call [error_class(message=..., code=..., status=...,
    details=...)] of [create_error_from_response] raises [TypeError]
    instead of building the error. *)
Lemma create_error_mapped_status (d : gmap string json) (st : Z) (cls : ErrorClass) :
  error_map !! st = Some cls ->
  create_error_from_response d st = Raise (multiple_values "code").
Proof.
  intros Hmap. unfold create_error_from_response, error_class. rewrite Hmap. simpl.
  assert (Hcls : cls <> BackstageSDKError).
  { unfold error_map in Hmap.
    repeat (apply lookup_insert_Some in Hmap as [[_ <-]|[_ Hmap]]; [discriminate|]).
    rewrite lookup_empty in Hmap. discriminate. }
  destruct cls; try reflexivity. congruence.
Qed.

(** For a status outside [error_map] the base class is built, with the
    status of the response. *)
Lemma create_error_unmapped_status (d : gmap string json) (st : Z) :
  error_map !! st = None ->
  exists err, create_error_from_response d st = Ok err
              /\ err_class err = BackstageSDKError /\ status err = Some st.
Proof.
  intros Hmap. unfold create_error_from_response, error_class. rewrite Hmap. simpl.
  eexists. split; [reflexivity|]. split; reflexivity.
Qed.

Lemma handle_response_no_httpx (resp : Response) (x : Exn) :
  handle_response resp = Raise x -> isinstance_httpx_RequestError x = false.
Proof.
  unfold handle_response, create_error_from_response.
  destruct (400 <=? status_code resp).
  - destruct (match body resp with Some j => j | None => _ end) as [| | | | |d];
      try (intros [= <-]; reflexivity).
    destruct (construct _ _ _) as [err|y] eqn:Hc; intros [= <-]; [reflexivity|].
    unfold construct in Hc.
    destruct (error_class (status_code resp)); simpl in Hc;
      try discriminate; injection Hc as <-; reflexivity.
  - destruct (status_code resp =? 204); [discriminate|].
    destruct (body resp); discriminate.
Qed.

(** What the handlers of [_execute_request] make of an exception. *)
Lemma transport_handler_run {A} (x : Exn) (f : Frame) :
  exists y,
    transport_handler (A := A) x f = (Raise y, f)
    /\ isinstance_httpx_RequestError y = false
    /\ match x with
       | HttpxTimeoutException _ => exists err, y = SDK err /\ err_class err = TimeoutError
       | HttpxRequestError _ => exists err, y = SDK err /\ err_class err = NetworkError
       | _ => y = x
       end.
Proof.
  unfold transport_handler, raise_new, raise.
  destruct x as [err|m|m|n m]; simpl; eexists; (split; [reflexivity|]); split;
    try reflexivity; eexists; split; reflexivity.
Qed.

(** [_execute_request] lets no [httpx] exception out: it wraps them all
    into SDK errors. *)
Lemma execute_request_no_httpx method url params json data timeout
    (f f' : Frame) (x : Exn) :
  _execute_request method url params json data timeout f = (Raise x, f') ->
  isinstance_httpx_RequestError x = false.
Proof.
  unfold _execute_request, try_except.
  match goal with |- context [let (_, _) := ?body f in _] =>
    destruct (body f) as [[p|y] f1] end; [discriminate|].
  destruct (transport_handler_run (A := Payload) y f1) as (z & Hh & Hz & _).
  rewrite Hh. intros [= <- _]. exact Hz.
Qed.
End HttpProps.

Section RetryProps.
Import HttpClient.

(** A call through the breaker either fails fast with the breaker's own
    [CircuitBreakerError], nothing having run, or hands out what the
    protected function did. *)
Lemma call_outcome {E : Type} `{Runtime E} {A : Type} (func : M E A)
    (cb : CircuitBreaker.t) (e : E) :
  (exists err, CircuitBreaker.call func (cb, e) = (Raise (SDK err), (cb, e))
               /\ err_class err = CircuitBreakerError)
  \/ (exists cb', CircuitBreaker.call func (cb, e) = (fst (func e), (cb', snd (func e)))).
Proof.
  destruct (CircuitBreaker.State_eq_dec (CircuitBreaker.state cb) CircuitBreaker.open)
    as [Hopen|Hno].
  - destruct (Qlt_le_dec (CircuitBreaker.timeout cb)
                (time e - CircuitBreaker.last_failure_time cb)) as [Hel|Hel].
    + right. rewrite (call_half_opens _ _ _ Hopen Hel), call_passes by (simpl; congruence).
      destruct (func e) as [[a|x] e']; simpl; eexists; reflexivity.
    + left. destruct (call_fail_fast func cb e Hopen Hel) as (err & Heq & Hcls). eauto.
  - right. rewrite call_passes by assumption.
    destruct (func e) as [[a|x] e']; simpl; eexists; reflexivity.
Qed.

(** Nothing that [_make_request] raises is an [httpx] exception. *)
Lemma make_request_no_httpx method url params json data timeout
    (f f' : Frame) (x : Exn) :
  _make_request method url params json data timeout f = (Raise x, f') ->
  isinstance_httpx_RequestError x = false.
Proof.
  unfold _make_request, on_circuit_breaker.
  destruct (call_outcome (_execute_request method url params json data timeout)
              (circuit_breaker (fst (snd f))) f) as [(err & Hc & _)|(cb' & Hc)];
    rewrite Hc.
  - destruct f as [h [c e]]. intros [= <- _]. reflexivity.
  - destruct (_execute_request method url params json data timeout f)
      as [[p|y] [h1 [c1 e1]]] eqn:Hexec; simpl; [discriminate|].
    intros [= <- _]. eapply execute_request_no_httpx. exact Hexec.
Qed.

(** The retry loop around a function that raises nothing the predicate
    accepts is that function, run once. *)
Lemma attempts_once {S : Type} `{Runtime S} {A : Type} (wait : Z -> Q)
    (retry_on : Exn -> bool) (fn : M S A) (remaining : nat) (attempt_number : Z) (s : S) :
  (forall x s', fn s = (Raise x, s') -> retry_on x = false) ->
  Tenacity.attempts wait retry_on fn remaining attempt_number s = fn s.
Proof.
  intros Hno. destruct remaining; simpl; unfold try_except;
    destruct (fn s) as [[a|x] s'] eqn:Hfn; try reflexivity;
    rewrite (Hno x s' eq_refl); reflexivity.
Qed.

(** The retry loop of [request] never goes round: every [request] is a
    single pass through the breaker. *)
Lemma request_retry_loop_once (n : Z) (wait : Z -> Q)
    method url params json data timeout (f : Frame) :
  Tenacity.retrying n wait isinstance_httpx_RequestError
    (_make_request method url params json data timeout) f
  = _make_request method url params json data timeout f.
Proof.
  unfold Tenacity.retrying. apply attempts_once.
  intros x s'. apply make_request_no_httpx.
Qed.

(** [request] without a rate limiter, run through. *)
Lemma request_run method path params json data headers options
    (c : t) (e : Env) :
  rate_limiter c = None ->
  request method path params json data headers options (c, e) =
    let url := urljoin (ClientConfig.base_url (config c)) (lstrip_slash path) in
    let f := (prepare_headers c (clock e) headers, (c, e)) in
    match _make_request method url params json data
            (options ≫= RequestOptions.timeout) f with
    | (Ok p, (_, ce')) => (Ok p, ce')
    | (Raise x, (_, ce')) =>
        (match _transform_error x with
         | Ok err => Raise (SDK err)
         | Raise y => Raise y
         end, ce')
    end.
Proof.
  intros Hrl. unfold request, bind, gets, on_snd, ret. simpl. rewrite Hrl. simpl.
  unfold try_except. rewrite request_retry_loop_once.
  destruct (_make_request _ _ _ _ _ _ _) as [[p|x] [h ce']]; [reflexivity|].
  destruct (_transform_error x); reflexivity.
Qed.

(** The first exchange of [_execute_request] when no refresh is
    attempted: the response is not a 401, or there is no token store. *)
Lemma execute_request_plain method url params json data timeout
    (h : gmap string string) (c : t) (e : Env) (resp : Response) :
  let req := mkRequest method url params json data h
               (match timeout with
                | Some q => if Qeq_bool q 0 then None else Some q
                | None => None
                end) in
  network e (length (sent e)) req = Respond resp ->
  (status_code resp =? 401) && bool_decide (is_Some (auth_manager c)) = false ->
  _execute_request method url params json data timeout (h, (c, e))
  = (handle_response resp, (h, (c, set_sent (sent e ++ [req]) e))).
Proof.
  intros req Hnet Hplain.
  unfold _execute_request, try_except, bind, gets, on_snd, send, ret, raise. simpl.
  fold req. rewrite Hnet. simpl. rewrite Hplain. simpl.
  destruct (handle_response resp) as [p|x] eqn:Hh; [reflexivity|].
  destruct (transport_handler_run (A := Payload) x
              (h, (c, set_sent (sent e ++ [req]) e))) as (y & Hy & _ & Hcase).
  rewrite Hy. pose proof (handle_response_no_httpx resp x Hh) as Hx.
  destruct x; try discriminate; subst y; reflexivity.
Qed.

(** [_execute_request] when the transport fails at once. *)
Lemma execute_request_transport_failure method url params json data timeout
    (h : gmap string string) (c : t) (e : Env) (x : Exn) :
  let req := mkRequest method url params json data h
               (match timeout with
                | Some q => if Qeq_bool q 0 then None else Some q
                | None => None
                end) in
  network e (length (sent e)) req = Fail x ->
  exists y,
    _execute_request method url params json data timeout (h, (c, e))
    = (Raise y, (h, (c, set_sent (sent e ++ [req]) e)))
    /\ match x with
       | HttpxTimeoutException _ => exists err, y = SDK err /\ err_class err = TimeoutError
       | HttpxRequestError _ => exists err, y = SDK err /\ err_class err = NetworkError
       | _ => y = x
       end.
Proof.
  intros req Hnet.
  unfold _execute_request, try_except, bind, gets, on_snd, send, ret, raise. simpl.
  fold req. rewrite Hnet. simpl.
  destruct (transport_handler_run (A := Payload) x
              (h, (c, set_sent (sent e ++ [req]) e))) as (y & Hy & _ & Hcase).
  rewrite Hy. eauto.
Qed.
End RetryProps.

Section HttpClaims.
Import HttpClient.

Lemma error_map_unmapped (st : Z) :
  st ∉ mapped_statuses -> error_map !! st = None.
Proof.
  unfold mapped_statuses, error_map. intros Hnot.
  repeat (apply not_elem_of_cons in Hnot as [? Hnot]).
  repeat (rewrite lookup_insert_ne by congruence). apply lookup_empty.
Qed.

(** A call the breaker lets through hands out what the function did. *)
Lemma call_admitted {E : Type} `{Runtime E} {A : Type} (func : M E A)
    (cb : CircuitBreaker.t) (e : E) :
  CircuitBreaker.state cb <> CircuitBreaker.open
  \/ (CircuitBreaker.timeout cb < time e - CircuitBreaker.last_failure_time cb)%Q ->
  exists cb', CircuitBreaker.call func (cb, e) = (fst (func e), (cb', snd (func e))).
Proof.
  intros Hadm.
  destruct (call_outcome func cb e) as [(err & Hc & _)|Hc]; [|exact Hc].
  exfalso.
  destruct (CircuitBreaker.State_eq_dec (CircuitBreaker.state cb) CircuitBreaker.open)
    as [Hopen|Hno].
  - destruct Hadm as [Hadm|Hel]; [congruence|].
    rewrite (call_half_opens _ _ _ Hopen Hel), call_passes in Hc by (simpl; congruence).
    destruct (func e) as [[a|x] e']; simpl in Hc; [discriminate|].
    destruct (_ <=? _); injection Hc as _ Hcb _;
      apply (f_equal CircuitBreaker.failure_count) in Hcb; simpl in Hcb; lia.
  - rewrite call_passes in Hc by assumption.
    destruct (func e) as [[a|x] e']; simpl in Hc; [discriminate|].
    destruct (_ <=? _); injection Hc as _ Hcb _;
      apply (f_equal CircuitBreaker.failure_count) in Hcb; simpl in Hcb; lia.
Qed.

(** What [request] raises when the breaker lets the call through and
    [_execute_request] raises an SDK error. *)
Lemma request_surfaces method path params json data headers options
    (c : t) (e : Env) (err : SDKError) (f' : Frame) :
  rate_limiter c = None ->
  CircuitBreaker.state (circuit_breaker c) <> CircuitBreaker.open
  \/ (CircuitBreaker.timeout (circuit_breaker c)
      < clock e - CircuitBreaker.last_failure_time (circuit_breaker c))%Q ->
  _execute_request method
    (urljoin (ClientConfig.base_url (config c)) (lstrip_slash path))
    params json data (options ≫= RequestOptions.timeout)
    (prepare_headers c (clock e) headers, (c, e)) = (Raise (SDK err), f') ->
  exists s, request method path params json data headers options (c, e)
            = (Raise (SDK err), s).
Proof.
  intros Hrl Hadm Hexec. rewrite request_run by assumption. cbv zeta.
  unfold _make_request, on_circuit_breaker. cbn [fst snd].
  pose proof (call_admitted
                (_execute_request method
                   (urljoin (ClientConfig.base_url (config c)) (lstrip_slash path))
                   params json data (options ≫= RequestOptions.timeout))
                (circuit_breaker c) (prepare_headers c (clock e) headers, (c, e)))
    as Hcall.
  destruct (Hcall Hadm) as (cb' & ->). rewrite Hexec. simpl. destruct f' as [h' [c' e']]. simpl.
  eexists. reflexivity.
Qed.
End HttpClaims.

(** ** Further properties of the request executor *)

Section ClassifierProps.

Lemma mapped_status_lookup (st : Z) :
  st ∈ mapped_statuses -> exists cls, error_map !! st = Some cls.
Proof.
  unfold mapped_statuses. intros Hin.
  repeat (apply elem_of_cons in Hin as [->|Hin]; [eexists; reflexivity|]).
  apply elem_of_nil in Hin. contradiction.
Qed.

(** For every status of the table, [create_error_from_response] does not
    return an error object: the constructor call raises [TypeError]
    (keyword [code] given twice), whatever the body says. *)
Theorem create_error_from_response_mapped (d : gmap string json) (st : Z)
    (Hin : st ∈ mapped_statuses) :
  create_error_from_response d st = Raise (multiple_values "code").
Proof.
  destruct (mapped_status_lookup st Hin) as (cls & Hmap).
  unfold create_error_from_response, error_class. rewrite Hmap. simpl.
  assert (Hcls : cls <> BackstageSDKError).
  { intros ->. unfold error_map in Hmap.
    repeat (apply lookup_insert_Some in Hmap as [[_ Hmap]|[_ Hmap]]; [discriminate|]).
    rewrite lookup_empty in Hmap. discriminate. }
  destruct cls; try reflexivity. congruence.
Qed.

(** For a status outside the table the base class is built: it carries
    the status, the body's [message] (default ['Unknown error']) and
    [details], and as code the body's [error] when that is truthy,
    ['API_ERROR'] when the body has no [error], and ['SDK_ERROR'] when the
    body has a falsy one. *)
Theorem create_error_from_response_unmapped (d : gmap string json) (st : Z)
    (Hout : st ∉ mapped_statuses) :
  exists err,
    create_error_from_response d st = Ok err
    /\ err_class err = BackstageSDKError
    /\ status err = Some st
    /\ message err = StrOf (default (JStr "Unknown error") (d !! "message"))
    /\ code err = match d !! "error" with
                  | None => JStr "API_ERROR"
                  | Some c => if truthy c then c else JStr "SDK_ERROR"
                  end.
Proof.
  unfold create_error_from_response, error_class, dict_get.
  rewrite (error_map_unmapped st Hout). simpl.
  eexists. split; [reflexivity|]. repeat split.
  destruct (d !! "error") as [c|]; reflexivity.
Qed.

(** [is_retryable_error] on the errors the SDK builds from a message
    alone: retryable are exactly [ServerError], [NetworkError],
    [TimeoutError] and [CircuitBreakerError]. *)
Theorem is_retryable_error_by_class (cls : ErrorClass) (msg : pystr) (err : SDKError)
    (Hbuilt : construct cls msg no_kwargs = Ok err) :
  is_retryable_error (SDK err) = Ok true
  <-> cls ∈ [ServerError; NetworkError; TimeoutError; CircuitBreakerError].
Proof.
  assert (Heq : is_retryable_error (SDK err)
                = Ok (bool_decide (cls ∈ [ServerError; NetworkError; TimeoutError;
                                          CircuitBreakerError]))).
  { destruct cls; simpl in Hbuilt; injection Hbuilt as <-; vm_compute; reflexivity. }
  rewrite Heq. split.
  - intros [= Hb]. apply bool_decide_eq_true in Hb. exact Hb.
  - intros Hin. f_equal. apply bool_decide_eq_true. exact Hin.
Qed.
End ClassifierProps.

Section RequestProps.
Import HttpClient.

(** [_transform_error] always yields an SDK error, and leaves SDK errors
    as they are. *)
Lemma transform_error_total (x : Exn) :
  exists err,
    _transform_error x = Ok err
    /\ match x with
       | SDK e => err = e
       | HttpxTimeoutException _ => err_class err = TimeoutError
       | HttpxRequestError _ => err_class err = NetworkError
       | Builtin _ _ =>
           err_class err = BackstageSDKError /\ code err = JStr "SDK_ERROR"
           /\ status err = None
       end.
Proof.
  destruct x as [e|m|m|n m]; simpl; eexists; split; try reflexivity.
  repeat split.
Qed.

(** A call the breaker lets through, the function raising: the failure
    is recorded once. *)
Lemma call_admitted_failure {E : Type} `{Runtime E} {A : Type} (func : M E A)
    (cb : CircuitBreaker.t) (e e' : E) (x : Exn) :
  CircuitBreaker.state cb <> CircuitBreaker.open
  \/ (CircuitBreaker.timeout cb < time e - CircuitBreaker.last_failure_time cb)%Q ->
  func e = (Raise x, e') ->
  exists cb',
    CircuitBreaker.call func (cb, e) = (Raise x, (cb', e'))
    /\ CircuitBreaker.failure_count cb' = CircuitBreaker.failure_count cb + 1
    /\ CircuitBreaker.last_failure_time cb' = time e'.
Proof.
  intros Hadm Hf.
  assert (Hcall : exists cb1,
             CircuitBreaker.state cb1 <> CircuitBreaker.open
             /\ CircuitBreaker.failure_count cb1 = CircuitBreaker.failure_count cb
             /\ CircuitBreaker.call func (cb, e) = CircuitBreaker.call func (cb1, e)).
  { destruct (CircuitBreaker.State_eq_dec (CircuitBreaker.state cb) CircuitBreaker.open)
      as [Hopen|Hno].
    - destruct Hadm as [Hadm|Hel]; [congruence|].
      exists (CircuitBreaker.set_state CircuitBreaker.half_open cb).
      split; [simpl; congruence|]. split; [reflexivity|].
      apply call_half_opens; assumption.
    - exists cb. repeat split. assumption. }
  destruct Hcall as (cb1 & Hno & Hcount & ->).
  rewrite call_passes by assumption. rewrite Hf. simpl.
  destruct (_ <=? _); eexists; (split; [reflexivity|]); simpl; rewrite Hcount;
    split; reflexivity.
Qed.

(** A call the breaker lets through, the function returning: a closed
    breaker is left as it is (its failure count is not reset). *)
Lemma call_admitted_success {E : Type} `{Runtime E} {A : Type} (func : M E A)
    (cb : CircuitBreaker.t) (e e' : E) (a : A) :
  CircuitBreaker.state cb <> CircuitBreaker.open
  \/ (CircuitBreaker.timeout cb < time e - CircuitBreaker.last_failure_time cb)%Q ->
  func e = (Ok a, e') ->
  exists cb',
    CircuitBreaker.call func (cb, e) = (Ok a, (cb', e'))
    /\ (CircuitBreaker.state cb = CircuitBreaker.closed -> cb' = cb)
    /\ (CircuitBreaker.state cb <> CircuitBreaker.closed -> cb' = CircuitBreaker.reset cb).
Proof.
  intros Hadm Hf.
  destruct (CircuitBreaker.State_eq_dec (CircuitBreaker.state cb) CircuitBreaker.open)
    as [Hopen|Hno].
  - destruct Hadm as [Hadm|Hel]; [congruence|].
    rewrite (call_half_opens _ _ _ Hopen Hel), call_passes by (simpl; congruence).
    rewrite Hf. simpl. eexists. split; [reflexivity|]. split; [congruence|reflexivity].
  - rewrite call_passes by assumption. rewrite Hf.
    destruct (CircuitBreaker.state cb) eqn:Hs; try congruence;
      eexists; (split; [reflexivity|]); split; congruence.
Qed.

(** [request] in terms of what [_execute_request] does, the breaker
    letting the call through. *)
Lemma request_after_raise method path params json data headers options
    (c c' : t) (e e' : Env) (h' : gmap string string) (x : Exn) :
  rate_limiter c = None ->
  CircuitBreaker.state (circuit_breaker c) <> CircuitBreaker.open
  \/ (CircuitBreaker.timeout (circuit_breaker c)
      < clock e - CircuitBreaker.last_failure_time (circuit_breaker c))%Q ->
  _execute_request method
    (urljoin (ClientConfig.base_url (config c)) (lstrip_slash path))
    params json data (options ≫= RequestOptions.timeout)
    (prepare_headers c (clock e) headers, (c, e)) = (Raise x, (h', (c', e'))) ->
  exists cb',
    request method path params json data headers options (c, e)
    = (match _transform_error x with
       | Ok err => Raise (SDK err)
       | Raise y => Raise y
       end, (set_circuit_breaker cb' c', e'))
    /\ CircuitBreaker.failure_count cb'
       = CircuitBreaker.failure_count (circuit_breaker c) + 1
    /\ CircuitBreaker.last_failure_time cb' = clock e'.
Proof.
  intros Hrl Hadm Hexec. rewrite request_run by assumption. cbv zeta.
  unfold _make_request, on_circuit_breaker. cbn [fst snd].
  pose proof (call_admitted_failure
                (_execute_request method
                   (urljoin (ClientConfig.base_url (config c)) (lstrip_slash path))
                   params json data (options ≫= RequestOptions.timeout))
                (circuit_breaker c) (prepare_headers c (clock e) headers, (c, e))
                (h', (c', e')) x) as Hcall.
  destruct (Hcall Hadm Hexec) as (cb' & -> & Hcount & Hlast).
  exists cb'. split; [reflexivity|]. split; assumption.
Qed.

Lemma request_after_return method path params json data headers options
    (c c' : t) (e e' : Env) (h' : gmap string string) (p : Payload) :
  rate_limiter c = None ->
  CircuitBreaker.state (circuit_breaker c) <> CircuitBreaker.open
  \/ (CircuitBreaker.timeout (circuit_breaker c)
      < clock e - CircuitBreaker.last_failure_time (circuit_breaker c))%Q ->
  _execute_request method
    (urljoin (ClientConfig.base_url (config c)) (lstrip_slash path))
    params json data (options ≫= RequestOptions.timeout)
    (prepare_headers c (clock e) headers, (c, e)) = (Ok p, (h', (c', e'))) ->
  exists cb',
    request method path params json data headers options (c, e)
    = (Ok p, (set_circuit_breaker cb' c', e'))
    /\ (CircuitBreaker.state (circuit_breaker c) = CircuitBreaker.closed ->
        cb' = circuit_breaker c)
    /\ (CircuitBreaker.state (circuit_breaker c) <> CircuitBreaker.closed ->
        cb' = CircuitBreaker.reset (circuit_breaker c)).
Proof.
  intros Hrl Hadm Hexec. rewrite request_run by assumption. cbv zeta.
  unfold _make_request, on_circuit_breaker. cbn [fst snd].
  pose proof (call_admitted_success
                (_execute_request method
                   (urljoin (ClientConfig.base_url (config c)) (lstrip_slash path))
                   params json data (options ≫= RequestOptions.timeout))
                (circuit_breaker c) (prepare_headers c (clock e) headers, (c, e))
                (h', (c', e')) p) as Hcall.
  destruct (Hcall Hadm Hexec) as (cb' & -> & Hclosed & Hother).
  exists cb'. split; [reflexivity|]. split; assumption.
Qed.

(** Without a rate limiter, whatever [request] raises is an instance of
    [BackstageSDKError]: no [httpx] exception and no builtin exception
    reaches the caller. *)
Theorem request_raises_sdk_errors method path params json data headers options
    (c : t) (e : Env) (x : Exn) (s : t * Env)
    (Hrl : rate_limiter c = None)
    (Hrun : request method path params json data headers options (c, e) = (Raise x, s)) :
  exists err, x = SDK err.
Proof.
  rewrite request_run in Hrun by assumption. cbv zeta in Hrun.
  destruct (_make_request _ _ _ _ _ _ _) as [[p|y] [h ce']]; [discriminate|].
  destruct (transform_error_total y) as (err & Ht & _). rewrite Ht in Hrun.
  injection Hrun as <- _. eauto.
Qed.
End RequestProps.

Section RequestOutcomes.
Import HttpClient.

(** A transport failure is final: when the first exchange fails,
    [request] raises [NetworkError] ([TimeoutError] for a timeout) after
    that one attempt: one request was sent, nothing was slept, and the
    breaker has counted one failure, whatever [retries] and [retry_delay]
    say. *)
Theorem request_transport_failure_is_final
    method path params json data headers options (c : t) (e : Env) (x : Exn)
    (Hrl : rate_limiter c = None)
    (Hadm : CircuitBreaker.state (circuit_breaker c) <> CircuitBreaker.open
            \/ (CircuitBreaker.timeout (circuit_breaker c)
                < clock e - CircuitBreaker.last_failure_time (circuit_breaker c))%Q)
    (Hhttpx : isinstance_httpx_RequestError x = true)
    (Hnet : forall req, network e (length (sent e)) req = Fail x) :
  exists err c' e',
    request method path params json data headers options (c, e)
    = (Raise (SDK err), (c', e'))
    /\ err_class err = (if isinstance_httpx_TimeoutException x
                        then TimeoutError else NetworkError)
    /\ length (sent e') = S (length (sent e))
    /\ slept e' = slept e
    /\ CircuitBreaker.failure_count (circuit_breaker c')
       = CircuitBreaker.failure_count (circuit_breaker c) + 1.
Proof.
  destruct (execute_request_transport_failure method
              (urljoin (ClientConfig.base_url (config c)) (lstrip_slash path))
              params json data (options ≫= RequestOptions.timeout)
              (prepare_headers c (clock e) headers) c e x (Hnet _))
    as (y & Hexec & Hy).
  destruct (request_after_raise method path params json data headers options
              c c e _ _ y Hrl Hadm Hexec) as (cb' & Hrun & Hcount & _).
  destruct x as [err0|m|m|n m]; try discriminate;
    destruct Hy as (err & -> & Hcls); simpl in Hrun;
    exists err; do 2 eexists; (split; [exact Hrun|]);
    (split; [exact Hcls|]); simpl; rewrite length_app; simpl;
    (split; [lia|]); (split; [reflexivity|exact Hcount]).
Qed.

(** The typed errors of the table never reach the caller: for a response
    whose status is in [error_map] (not a 401 when there is a token
    store), [request] raises a base [BackstageSDKError] with code
    [SDK_ERROR] and no HTTP status, the wrapped [TypeError] of the failed
    constructor call; the breaker counts a failure. *)
Theorem request_mapped_status_is_untyped
    method path params json data headers options (c : t) (e : Env) (resp : Response)
    (Hrl : rate_limiter c = None)
    (Hadm : CircuitBreaker.state (circuit_breaker c) <> CircuitBreaker.open
            \/ (CircuitBreaker.timeout (circuit_breaker c)
                < clock e - CircuitBreaker.last_failure_time (circuit_breaker c))%Q)
    (Hnet : forall req, network e (length (sent e)) req = Respond resp)
    (Hmapped : status_code resp ∈ mapped_statuses)
    (Hplain : status_code resp <> 401 \/ auth_manager c = None)
    (Hbody : body resp = None \/ exists d, body resp = Some (JDict d)) :
  exists err c' e',
    request method path params json data headers options (c, e)
    = (Raise (SDK err), (c', e'))
    /\ err_class err = BackstageSDKError
    /\ code err = JStr "SDK_ERROR"
    /\ status err = None
    /\ CircuitBreaker.failure_count (circuit_breaker c')
       = CircuitBreaker.failure_count (circuit_breaker c) + 1.
Proof.
  assert (Hst : 400 <= status_code resp).
  { unfold mapped_statuses in Hmapped.
    repeat (apply elem_of_cons in Hmapped as [->|Hmapped]; [lia|]).
    apply elem_of_nil in Hmapped. contradiction. }
  assert (Hno401 : (status_code resp =? 401)
                   && bool_decide (is_Some (auth_manager c)) = false).
  { destruct Hplain as [Hne| ->].
    - apply Z.eqb_neq in Hne. rewrite Hne. reflexivity.
    - apply andb_false_iff. right. apply bool_decide_eq_false. intros [? ?]. discriminate. }
  assert (Hresp : handle_response resp = Raise (multiple_values "code")).
  { unfold handle_response. apply Z.leb_le in Hst. rewrite Hst.
    destruct (mapped_status_lookup _ Hmapped) as (cls & Hmap).
    destruct Hbody as [->|(d & ->)];
      rewrite (create_error_mapped_status _ _ cls Hmap); reflexivity. }
  pose proof (execute_request_plain method
                (urljoin (ClientConfig.base_url (config c)) (lstrip_slash path))
                params json data (options ≫= RequestOptions.timeout)
                (prepare_headers c (clock e) headers) c e resp (Hnet _) Hno401) as Hexec.
  rewrite Hresp in Hexec.
  destruct (request_after_raise method path params json data headers options
              c c e _ _ _ Hrl Hadm Hexec) as (cb' & Hrun & Hcount & _).
  simpl in Hrun. do 3 eexists. split; [exact Hrun|].
  repeat split. exact Hcount.
Qed.

(** Every status below 400 is a success, 3xx included (and a 401 aside):
    [request] returns [{}] for 204, the parsed body when there is one,
    the text otherwise; a closed breaker is left exactly as it was. *)
Theorem request_success_statuses
    method path params json data headers options (c : t) (e : Env) (resp : Response)
    (Hrl : rate_limiter c = None)
    (Hadm : CircuitBreaker.state (circuit_breaker c) <> CircuitBreaker.open
            \/ (CircuitBreaker.timeout (circuit_breaker c)
                < clock e - CircuitBreaker.last_failure_time (circuit_breaker c))%Q)
    (Hnet : forall req, network e (length (sent e)) req = Respond resp)
    (Hst : status_code resp < 400) :
  exists c' e',
    request method path params json data headers options (c, e)
    = (Ok (if status_code resp =? 204 then PJson (JDict ∅)
           else match body resp with
                | Some j => PJson j
                | None => PText (text resp)
                end), (c', e'))
    /\ length (sent e') = S (length (sent e))
    /\ (CircuitBreaker.state (circuit_breaker c) = CircuitBreaker.closed -> c' = c).
Proof.
  assert (Hno401 : (status_code resp =? 401)
                   && bool_decide (is_Some (auth_manager c)) = false).
  { assert (Hne : status_code resp <> 401) by lia.
    apply Z.eqb_neq in Hne. rewrite Hne. reflexivity. }
  pose proof (execute_request_plain method
                (urljoin (ClientConfig.base_url (config c)) (lstrip_slash path))
                params json data (options ≫= RequestOptions.timeout)
                (prepare_headers c (clock e) headers) c e resp (Hnet _) Hno401) as Hexec.
  assert (Hresp : handle_response resp
                  = Ok (if status_code resp =? 204 then PJson (JDict ∅)
                        else match body resp with
                             | Some j => PJson j
                             | None => PText (text resp)
                             end)).
  { unfold handle_response.
    assert (Hlt : (400 <=? status_code resp) = false) by (apply Z.leb_gt; lia).
    rewrite Hlt. destruct (status_code resp =? 204); [reflexivity|].
    destruct (body resp); reflexivity. }
  rewrite Hresp in Hexec.
  destruct (request_after_return method path params json data headers options
              c c e _ _ _ Hrl Hadm Hexec) as (cb' & Hrun & Hclosed & _).
  do 2 eexists. split; [exact Hrun|]. split.
  - simpl. rewrite length_app. simpl. lia.
  - intros Hc. rewrite (Hclosed Hc). destruct c; reflexivity.
Qed.
End RequestOutcomes.

Lemma create_error_from_response_mapped_witness :
  create_error_from_response {[ "message" := JStr "no such entity" ]} 404
  = Raise (multiple_values "code").
Proof.
  apply create_error_from_response_mapped.
  apply (bool_decide_unpack _). vm_compute. reflexivity.
Defined.

Lemma create_error_from_response_unmapped_witness :
  exists err,
    create_error_from_response {[ "error" := JStr "" ]} 418 = Ok err
    /\ err_class err = BackstageSDKError
    /\ status err = Some 418
    /\ message err = StrOf (default (JStr "Unknown error")
                              (({[ "error" := JStr "" ]} : gmap string json) !! "message"))
    /\ code err = match ({[ "error" := JStr "" ]} : gmap string json) !! "error" with
                  | None => JStr "API_ERROR"
                  | Some c => if truthy c then c else JStr "SDK_ERROR"
                  end.
Proof.
  apply create_error_from_response_unmapped.
  apply (bool_decide_unpack _). vm_compute. reflexivity.
Defined.

Lemma is_retryable_error_by_class_witness :
  is_retryable_error
    (SDK (BackstageSDKError_init ServerError (Str "boom") (Some (JStr "SERVER_ERROR"))
            (Some 500) None)) = Ok true
  <-> ServerError ∈ [ServerError; NetworkError; TimeoutError; CircuitBreakerError].
Proof.
  exact (is_retryable_error_by_class ServerError (Str "boom") _ eq_refl).
Defined.

Lemma request_raises_sdk_errors_witness :
  match get_entities (plain_client 1000, quiet_env 1000 two_failures_then_success) with
  | (Raise x, _) => exists err, x = SDK err
  | (Ok _, _) => False
  end.
Proof.
  destruct (get_entities (plain_client 1000, quiet_env 1000 two_failures_then_success))
    as [[p|x] s] eqn:Hrun.
  - vm_compute in Hrun. discriminate Hrun.
  - exact (request_raises_sdk_errors "GET" "/entities" JNull JNull JNull None None
             (plain_client 1000) (quiet_env 1000 two_failures_then_success) x s
             eq_refl Hrun).
Defined.

Lemma request_transport_failure_is_final_witness :
  exists err c' e',
    get_entities (plain_client 1000,
                  quiet_env 1000 (fun _ _ => Fail (HttpxRequestError (Str "refused"))))
    = (Raise (SDK err), (c', e'))
    /\ err_class err = NetworkError
    /\ length (sent e') = 1%nat
    /\ slept e' = []
    /\ CircuitBreaker.failure_count (HttpClient.circuit_breaker c') = 0 + 1.
Proof.
  assert (Hadm : CircuitBreaker.state (HttpClient.circuit_breaker (plain_client 1000))
                 <> CircuitBreaker.open
                 \/ (CircuitBreaker.timeout (HttpClient.circuit_breaker (plain_client 1000))
                     < clock (quiet_env 1000
                                (fun _ _ => Fail (HttpxRequestError (Str "refused"))))
                       - CircuitBreaker.last_failure_time
                           (HttpClient.circuit_breaker (plain_client 1000)))%Q)
    by (left; discriminate).
  exact (request_transport_failure_is_final "GET" "/entities" JNull JNull JNull None None
           (plain_client 1000)
           (quiet_env 1000 (fun _ _ => Fail (HttpxRequestError (Str "refused"))))
           (HttpxRequestError (Str "refused")) eq_refl Hadm eq_refl
           (fun _ => eq_refl)).
Defined.

Lemma request_mapped_status_is_untyped_witness :
  exists err c' e',
    get_entities (plain_client 1000, quiet_env 1000 (fun _ _ => Respond (error_response 404)))
    = (Raise (SDK err), (c', e'))
    /\ err_class err = BackstageSDKError
    /\ code err = JStr "SDK_ERROR"
    /\ status err = None
    /\ CircuitBreaker.failure_count (HttpClient.circuit_breaker c') = 0 + 1.
Proof.
  assert (Hadm : CircuitBreaker.state (HttpClient.circuit_breaker (plain_client 1000))
                 <> CircuitBreaker.open
                 \/ (CircuitBreaker.timeout (HttpClient.circuit_breaker (plain_client 1000))
                     < clock (quiet_env 1000 (fun _ _ => Respond (error_response 404)))
                       - CircuitBreaker.last_failure_time
                           (HttpClient.circuit_breaker (plain_client 1000)))%Q)
    by (left; discriminate).
  assert (Hin : status_code (error_response 404) ∈ mapped_statuses)
    by (apply (bool_decide_unpack _); vm_compute; reflexivity).
  assert (Hplain : status_code (error_response 404) <> 401
                   \/ HttpClient.auth_manager (plain_client 1000) = None)
    by (right; reflexivity).
  assert (Hbody : body (error_response 404) = None
                  \/ exists d, body (error_response 404) = Some (JDict d))
    by (right; eexists; reflexivity).
  exact (request_mapped_status_is_untyped "GET" "/entities" JNull JNull JNull None None
           (plain_client 1000) (quiet_env 1000 (fun _ _ => Respond (error_response 404)))
           (error_response 404) eq_refl Hadm (fun _ => eq_refl) Hin Hplain Hbody).
Defined.

Lemma request_success_statuses_witness :
  exists c' e',
    get_entities (plain_client 1000,
                  quiet_env 1000 (fun _ _ => Respond (mkResponse 302 "Found" None "moved")))
    = (Ok (PText "moved"), (c', e'))
    /\ length (sent e') = 1%nat
    /\ (CircuitBreaker.state (HttpClient.circuit_breaker (plain_client 1000))
        = CircuitBreaker.closed -> c' = plain_client 1000).
Proof.
  assert (Hadm : CircuitBreaker.state (HttpClient.circuit_breaker (plain_client 1000))
                 <> CircuitBreaker.open
                 \/ (CircuitBreaker.timeout (HttpClient.circuit_breaker (plain_client 1000))
                     < clock (quiet_env 1000
                                (fun _ _ => Respond (mkResponse 302 "Found" None "moved")))
                       - CircuitBreaker.last_failure_time
                           (HttpClient.circuit_breaker (plain_client 1000)))%Q)
    by (left; discriminate).
  assert (Hst : status_code (mkResponse 302 "Found" None "moved") < 400)
    by (vm_compute; reflexivity).
  exact (request_success_statuses "GET" "/entities" JNull JNull JNull None None
           (plain_client 1000)
           (quiet_env 1000 (fun _ _ => Respond (mkResponse 302 "Found" None "moved")))
           (mkResponse 302 "Found" None "moved") eq_refl Hadm (fun _ => eq_refl) Hst).
Defined.

Section UnauthorizedProps.
Import HttpClient.

(** What [_execute_request] hands out for the response it keeps. *)
Lemma raise_response (resp : Response) (f : Frame) :
  try_except
    (match handle_response resp with
     | Ok payload => ret payload
     | Raise x => raise x
     end) transport_handler f
  = (handle_response resp, f).
Proof.
  unfold try_except, ret, raise.
  destruct (handle_response resp) as [p|x] eqn:Hh; [reflexivity|].
  destruct (transport_handler_run (A := Payload) x f) as (y & Hy & _ & Hcase).
  rewrite Hy. pose proof (handle_response_no_httpx resp x Hh) as Hx.
  destruct x; try discriminate; subst y; reflexivity.
Qed.

(** [_execute_request] on a 401 when the refresh fails: the 401 response
    is kept and classified; nothing is sent after the refresh attempt. *)
Lemma execute_request_refresh_fails method url params json data timeout
    (h : gmap string string) (c : t) (e : Env) (resp : Response)
    (am am1 : AuthManager.t) (e2 : Env) (x : Exn) :
  let req := mkRequest method url params json data h
               (match timeout with
                | Some q => if Qeq_bool q 0 then None else Some q
                | None => None
                end) in
  network e (length (sent e)) req = Respond resp ->
  status_code resp = 401 ->
  auth_manager c = Some am ->
  AuthManager.refresh_token (am, set_sent (sent e ++ [req]) e) = (Raise x, (am1, e2)) ->
  _execute_request method url params json data timeout (h, (c, e))
  = (handle_response resp, (h, (set_auth_manager (Some am1) c, e2))).
Proof.
  intros req Hnet Hst Ham Hrefresh.
  etransitivity; [|apply (raise_response resp (h, (set_auth_manager (Some am1) c, e2)))].
  unfold _execute_request, try_except, bind, gets, on_snd, on_auth_manager, send, ret.
  simpl. fold req. rewrite Hnet. simpl. rewrite Hst, Ham. simpl.
  rewrite Ham, Hrefresh. simpl. reflexivity.
Qed.
End UnauthorizedProps.

Section RefreshOnUnauthorized.
Import HttpClient.

(** [request] in terms of what [_execute_request] does, the breaker
    letting the call through. *)
Lemma request_after method path params json data headers options
    (c c' : t) (e e' : Env) (h' : gmap string string) (r : Res Payload) :
  rate_limiter c = None ->
  CircuitBreaker.state (circuit_breaker c) <> CircuitBreaker.open
  \/ (CircuitBreaker.timeout (circuit_breaker c)
      < clock e - CircuitBreaker.last_failure_time (circuit_breaker c))%Q ->
  _execute_request method
    (urljoin (ClientConfig.base_url (config c)) (lstrip_slash path))
    params json data (options ≫= RequestOptions.timeout)
    (prepare_headers c (clock e) headers, (c, e)) = (r, (h', (c', e'))) ->
  exists cb',
    request method path params json data headers options (c, e)
    = (match r with
       | Ok p => Ok p
       | Raise x => match _transform_error x with
                    | Ok err => Raise (SDK err)
                    | Raise y => Raise y
                    end
       end, (set_circuit_breaker cb' c', e')).
Proof.
  intros Hrl Hadm Hexec. destruct r as [p|x].
  - destruct (request_after_return method path params json data headers options
                c c' e e' h' p Hrl Hadm Hexec) as (cb' & Hrun & _). eauto.
  - destruct (request_after_raise method path params json data headers options
                c c' e e' h' x Hrl Hadm Hexec) as (cb' & Hrun & _). eauto.
Qed.

(** A refresh that fails leaves the token store as it was and sends at
    most the refresh request. *)
Lemma refresh_token_failure_frame (am am1 : AuthManager.t) (e e1 : Env) (x : Exn) :
  AuthManager.refresh_token (am, e) = (Raise x, (am1, e1)) ->
  (AuthManager._token_info am1 = AuthManager._token_info am
   \/ exists ti, AuthManager._token_info am1 = Some ti)
  /\ slept e1 = slept e
  /\ (length (sent e1) <= S (length (sent e)))%nat.
Proof.
  intros Hrun.
  destruct (AuthManager._token_info am) as [prev|] eqn:Htok;
    [destruct (truthy_str (TokenInfo.refresh_token prev)) eqn:Htr|].
  - destruct (TokenInfo.refresh_token prev) as [rt|] eqn:Hrt; [|discriminate].
    apply truthy_str_Some in Htr.
    rewrite (refresh_token_run am e prev rt Htok Hrt Htr) in Hrun.
    destruct (AuthManager.refresh_exchange prev rt (am, e)) as [[ti|y] [am2 e2]] eqn:Hex;
      [discriminate|].
    destruct (refresh_exchange_frame _ _ _ _ _ _ _ Hex)
      as (_ & _ & _ & _ & _ & Hsent & Hslept & _ & Hinfo).
    destruct (refresh_handler_frame y am2 am1 e2 e1 _ Hrun)
      as (-> & _ & _ & Hsent1 & Hslept1 & _).
    split; [rewrite <- Htok; exact Hinfo|]. split; [congruence|].
    rewrite Hsent1, Hsent, length_app. simpl. lia.
  - destruct (refresh_token_unavailable am e) as (err & Hh & _).
    { intros p Hp. congruence. }
    rewrite Hh in Hrun. injection Hrun as _ <- <-.
    split; [left; exact Htok|]. split; [reflexivity|lia].
  - destruct (refresh_token_unavailable am e) as (err & Hh & _).
    { intros p Hp. congruence. }
    rewrite Hh in Hrun. injection Hrun as _ <- <-.
    split; [left; exact Htok|]. split; [reflexivity|lia].
Qed.

(** A 401 whose refresh fails never reaches the caller as an
    [AuthenticationError]: with a token store, a first answer of 401 and
    a refresh that raises, [request] raises a base [BackstageSDKError]
    with code [SDK_ERROR] and no status (the wrapped [TypeError] of the
    failed [AuthenticationError(...)] call); the API request is not
    repeated (at most the refresh request follows it), and nothing is
    slept. *)
Theorem request_unauthorized_refresh_fails
    method path params json data headers options
    (c : t) (e : Env) (resp : Response) (am : AuthManager.t)
    (s2 : AuthManager.t * Env) (x : Exn)
    (Hrl : rate_limiter c = None)
    (Hadm : CircuitBreaker.state (circuit_breaker c) <> CircuitBreaker.open
            \/ (CircuitBreaker.timeout (circuit_breaker c)
                < clock e - CircuitBreaker.last_failure_time (circuit_breaker c))%Q)
    (Ham : auth_manager c = Some am)
    (Hnet : network e (length (sent e))
              (first_request method path params json data headers options c e)
            = Respond resp)
    (Hst : status_code resp = 401)
    (Hbody : body resp = None \/ exists d, body resp = Some (JDict d))
    (Hrefresh :
       AuthManager.refresh_token
         (am, set_sent (sent e ++ [first_request method path params json data
                                     headers options c e]) e)
       = (Raise x, s2)) :
  exists err c',
    request method path params json data headers options (c, e)
    = (Raise (SDK err), (c', snd s2))
    /\ err_class err = BackstageSDKError
    /\ code err = JStr "SDK_ERROR"
    /\ status err = None
    /\ auth_manager c' = Some (fst s2)
    /\ (length (sent (snd s2)) <= S (S (length (sent e))))%nat
    /\ slept (snd s2) = slept e.
Proof.
  destruct s2 as [am1 e2].
  assert (Hmapped : status_code resp ∈ mapped_statuses)
    by (rewrite Hst; apply (bool_decide_unpack _); reflexivity).
  assert (Hresp : handle_response resp = Raise (multiple_values "code")).
  { unfold handle_response. rewrite Hst. simpl.
    destruct (mapped_status_lookup _ Hmapped) as (cls & Hmap).
    destruct Hbody as [->|(d & ->)];
      rewrite <- Hst, (create_error_mapped_status _ _ cls Hmap); reflexivity. }
  pose proof (execute_request_refresh_fails method
                (urljoin (ClientConfig.base_url (config c)) (lstrip_slash path))
                params json data (options ≫= RequestOptions.timeout)
                (prepare_headers c (clock e) headers) c e resp am am1 e2 x
                Hnet Hst Ham Hrefresh) as Hexec.
  rewrite Hresp in Hexec.
  destruct (request_after method path params json data headers options
              c _ e e2 _ _ Hrl Hadm Hexec) as (cb' & Hrun).
  simpl in Hrun.
  destruct (refresh_token_failure_frame _ _ _ _ _ Hrefresh) as (_ & Hslept & Hsent).
  simpl in Hsent. rewrite length_app in Hsent. simpl in Hsent.
  do 2 eexists. split; [exact Hrun|]. repeat split; try assumption. simpl. lia.
Qed.
End RefreshOnUnauthorized.

Lemma request_unauthorized_refresh_fails_witness :
  match get_entities (signed_client 1000, quiet_env 1000 (unauthorized_then 500)) with
  | (Raise (SDK err), (c', e')) =>
      err_class err = BackstageSDKError /\ code err = JStr "SDK_ERROR"
      /\ status err = None /\ length (sent e') = 2%nat /\ slept e' = []
  | _ => False
  end.
Proof.
  assert (Hadm : CircuitBreaker.state (HttpClient.circuit_breaker (signed_client 1000))
                 <> CircuitBreaker.open
                 \/ (CircuitBreaker.timeout (HttpClient.circuit_breaker (signed_client 1000))
                     < clock (quiet_env 1000 (unauthorized_then 500))
                       - CircuitBreaker.last_failure_time
                           (HttpClient.circuit_breaker (signed_client 1000)))%Q)
    by (left; discriminate).
  assert (Hbody : body (error_response 401) = None
                  \/ exists d, body (error_response 401) = Some (JDict d))
    by (right; eexists; reflexivity).
  destruct (AuthManager.refresh_token
              (bearer_store true None,
               set_sent (sent (quiet_env 1000 (unauthorized_then 500))
                         ++ [first_request "GET" "/entities" JNull JNull JNull None None
                               (signed_client 1000)
                               (quiet_env 1000 (unauthorized_then 500))])
                 (quiet_env 1000 (unauthorized_then 500))))
    as [[ti|x] s2] eqn:Hrefresh.
  - vm_compute in Hrefresh. discriminate Hrefresh.
  - destruct (request_unauthorized_refresh_fails "GET" "/entities" JNull JNull JNull
                None None (signed_client 1000) (quiet_env 1000 (unauthorized_then 500))
                (error_response 401) (bearer_store true None) s2 x
                eq_refl Hadm eq_refl eq_refl eq_refl Hbody Hrefresh)
      as (err & c' & Hrun & Hcls & Hcode & Hstatus & _ & _ & Hslept).
    unfold get_entities. rewrite Hrun.
    repeat split; try assumption; try (rewrite Hslept; reflexivity).
    vm_compute in Hrefresh. injection Hrefresh as _ <-. reflexivity.
Defined.

Section RefreshedOnUnauthorized.
Import HttpClient.

(** The credential a refresh returns is a bearer credential. *)
Lemma new_token_from_bearer (d : gmap string json) (prev ti : TokenInfo.t) (e : Env) :
  AuthManager.new_token_from d prev e = Ok ti -> TokenInfo.token_type ti = "bearer".
Proof.
  unfold AuthManager.new_token_from.
  destruct (d !! "access_token") as [[| | |a| |]|]; try discriminate;
    destruct (default _ (d !! "refresh_token")) as [| | |r| |]; try discriminate;
    (destruct (d !! "expires_in") as [[| | | | |]|];
       [| | | | | |destruct (d !! "expires_at") as [[| | |s| |]|];
                    [| | |destruct (fromisoformat e s)| | |]]);
    try discriminate; intros [= <-]; reflexivity.
Qed.

Lemma refresh_token_stores (am am1 : AuthManager.t) (e e2 : Env) (ti : TokenInfo.t) :
  AuthManager.refresh_token (am, e) = (Ok ti, (am1, e2)) ->
  AuthManager._token_info am1 = Some ti
  /\ TokenInfo.token_type ti = "bearer"
  /\ slept e2 = slept e
  /\ exists rt,
       sent e2 = (sent e ++ [AuthManager.refresh_request
                               (AuthConfig.base_url (AuthManager.config am)) rt])%list.
Proof.
  intros Hrun.
  destruct (refresh_token_returns am e ti (am1, e2) Hrun)
    as (prev & rt & resp & d & Htok & Hrt & _ & _ & _ & Hnew & Hset).
  pose proof (new_token_from_bearer _ _ _ _ Hnew) as Hbearer.
  destruct (set_tokens_frame _ _ _ _ _ _ Hset)
    as (Hstored & _ & _ & _ & _ & _ & Hsent & Hslept & _).
  split; [exact Hstored|]. split; [exact Hbearer|]. split; [exact Hslept|].
  exists rt. exact Hsent.
Qed.

(** [_execute_request] on a 401 when the refresh returns: the request is
    sent again with the new credential, and the answer to that is the
    one classified; when the repetition itself fails in the transport,
    the 401 is. *)
Lemma execute_request_refreshed method url params json data timeout
    (h : gmap string string) (c : t) (e : Env) (resp : Response)
    (am am1 : AuthManager.t) (e2 : Env) (ti : TokenInfo.t) :
  let req := mkRequest method url params json data h
               (match timeout with
                | Some q => if Qeq_bool q 0 then None else Some q
                | None => None
                end) in
  let req2 := with_header "Authorization" ("Bearer " ++ TokenInfo.access_token ti) req in
  h <> ∅ ->
  network e (length (sent e)) req = Respond resp ->
  status_code resp = 401 ->
  auth_manager c = Some am ->
  AuthManager.refresh_token (am, set_sent (sent e ++ [req]) e) = (Ok ti, (am1, e2)) ->
  _execute_request method url params json data timeout (h, (c, e))
  = (match network e2 (length (sent e2)) req2 with
     | Respond resp2 => handle_response resp2
     | Fail _ => handle_response resp
     end,
     (headers req2, (set_auth_manager (Some am1) c, set_sent (sent e2 ++ [req2]) e2))).
Proof.
  intros req req2 Hne Hnet Hst Ham Hrefresh.
  destruct (refresh_token_stores _ _ _ _ _ Hrefresh) as (Hstored & Hbearer & _).
  assert (Hhdr : AuthManager.get_auth_header am1
                 = Some ("Bearer " ++ TokenInfo.access_token ti)).
  { unfold AuthManager.get_auth_header. rewrite Hstored, Hbearer. reflexivity. }
  assert (Hempty : bool_decide (h = ∅) = false) by (apply bool_decide_eq_false; exact Hne).
  destruct (network e2 (length (sent e2)) req2) as [resp2|y] eqn:Hnet2;
    unfold req2, with_header, req in Hnet2; simpl in Hnet2;
    unfold req in Hnet, Hrefresh.
  - etransitivity;
      [|apply (raise_response resp2
                 (headers req2,
                  (set_auth_manager (Some am1) c, set_sent (sent e2 ++ [req2]) e2)))].
    unfold _execute_request, put_auth_header.
    unfold try_except, bind, gets, on_snd, on_fst, on_auth_manager, modify, send, ret.
    simpl. rewrite Hnet. simpl. rewrite Hst, Ham. simpl.
    rewrite Ham, Hrefresh. simpl. rewrite Hhdr. simpl. rewrite Hempty. simpl.
    rewrite Hnet2. reflexivity.
  - etransitivity;
      [|apply (raise_response resp
                 (headers req2,
                  (set_auth_manager (Some am1) c, set_sent (sent e2 ++ [req2]) e2)))].
    unfold _execute_request, put_auth_header.
    unfold try_except, bind, gets, on_snd, on_fst, on_auth_manager, modify, send, ret.
    simpl. rewrite Hnet. simpl. rewrite Hst, Ham. simpl.
    rewrite Ham, Hrefresh. simpl. rewrite Hhdr. simpl. rewrite Hempty. simpl.
    rewrite Hnet2. reflexivity.
Qed.
End RefreshedOnUnauthorized.

Section RefreshedRequest.
Import HttpClient.

Lemma prepare_headers_non_empty (c : t) (now : Q) (headers : option (gmap string string)) :
  prepare_headers c now headers <> ∅.
Proof. unfold prepare_headers. apply insert_non_empty. Qed.

(** A 401 answered by a successful refresh: within the one attempt the
    token store is refreshed once and the API request is sent once more,
    now with [Authorization: Bearer <new token>]; what [request] hands
    out is the classification of the answer to that repetition (of the
    401 again when the repetition fails in the transport).  Three
    requests are sent in all and nothing is slept. *)
Theorem request_unauthorized_refreshed
    method path params json data headers options
    (c : t) (e : Env) (resp : Response) (am : AuthManager.t)
    (ti : TokenInfo.t) (s2 : AuthManager.t * Env)
    (Hrl : rate_limiter c = None)
    (Hadm : CircuitBreaker.state (circuit_breaker c) <> CircuitBreaker.open
            \/ (CircuitBreaker.timeout (circuit_breaker c)
                < clock e - CircuitBreaker.last_failure_time (circuit_breaker c))%Q)
    (Ham : auth_manager c = Some am)
    (Hnet : network e (length (sent e))
              (first_request method path params json data headers options c e)
            = Respond resp)
    (Hst : status_code resp = 401)
    (Hrefresh :
       AuthManager.refresh_token
         (am, set_sent (sent e ++ [first_request method path params json data
                                     headers options c e]) e)
       = (Ok ti, s2)) :
  let req1 := first_request method path params json data headers options c e in
  let req2 := with_header "Authorization" ("Bearer " ++ TokenInfo.access_token ti) req1 in
  exists c' rt,
    request method path params json data headers options (c, e)
    = (surfaced (match network (snd s2) (length (sent (snd s2))) req2 with
                 | Respond resp2 => handle_response resp2
                 | Fail _ => handle_response resp
                 end),
       (c', set_sent (sent (snd s2) ++ [req2]) (snd s2)))
    /\ sent (snd s2)
       = (sent e ++ [req1; AuthManager.refresh_request
                             (AuthConfig.base_url (AuthManager.config am)) rt])%list
    /\ auth_manager c' = Some (fst s2)
    /\ AuthManager._token_info (fst s2) = Some ti
    /\ slept (snd s2) = slept e.
Proof.
  intros req1 req2. destruct s2 as [am1 e2].
  pose proof (execute_request_refreshed method
                (urljoin (ClientConfig.base_url (config c)) (lstrip_slash path))
                params json data (options ≫= RequestOptions.timeout)
                (prepare_headers c (clock e) headers) c e resp am am1 e2 ti
                (prepare_headers_non_empty _ _ _) Hnet Hst Ham Hrefresh) as Hexec.
  destruct (request_after method path params json data headers options
              c _ e _ _ _ Hrl Hadm Hexec) as (cb' & Hrun).
  destruct (refresh_token_stores _ _ _ _ _ Hrefresh) as (Hstored & _ & Hslept & rt & Hsent).
  exists (set_circuit_breaker cb' (set_auth_manager (Some am1) c)), rt.
  split; [exact Hrun|]. simpl. split; [|split; [reflexivity|split; assumption]].
  rewrite Hsent. simpl. rewrite <- app_assoc. reflexivity.
Qed.
End RefreshedRequest.

Lemma request_unauthorized_refreshed_witness :
  match get_entities (signed_client 1000, quiet_env 1000 (unauthorized_then 200)) with
  | (Ok p, (_, e')) => p = PJson (JDict {[ "items" := JList [] ]})
                       /\ length (sent e') = 3%nat
  | _ => False
  end.
Proof.
  assert (Hadm : CircuitBreaker.state (HttpClient.circuit_breaker (signed_client 1000))
                 <> CircuitBreaker.open
                 \/ (CircuitBreaker.timeout (HttpClient.circuit_breaker (signed_client 1000))
                     < clock (quiet_env 1000 (unauthorized_then 200))
                       - CircuitBreaker.last_failure_time
                           (HttpClient.circuit_breaker (signed_client 1000)))%Q)
    by (left; discriminate).
  destruct (AuthManager.refresh_token
              (bearer_store true None,
               set_sent (sent (quiet_env 1000 (unauthorized_then 200))
                         ++ [first_request "GET" "/entities" JNull JNull JNull None None
                               (signed_client 1000)
                               (quiet_env 1000 (unauthorized_then 200))])
                 (quiet_env 1000 (unauthorized_then 200))))
    as [[ti|x] s2] eqn:Hrefresh.
  - destruct (request_unauthorized_refreshed "GET" "/entities" JNull JNull JNull
                None None (signed_client 1000) (quiet_env 1000 (unauthorized_then 200))
                (error_response 401) (bearer_store true None) ti s2
                eq_refl Hadm eq_refl eq_refl eq_refl Hrefresh)
      as (c' & rt & Hrun & Hsent & _).
    unfold get_entities. rewrite Hrun.
    vm_compute in Hrefresh. injection Hrefresh as <- <-.
    vm_compute. split; reflexivity.
  - vm_compute in Hrefresh. discriminate Hrefresh.
Defined.

(** ** Further properties of breaker and limiter *)

Section BreakerTrips.
Context {E : Type} `{Runtime E}.
Import CircuitBreaker.

(** After [n] failing calls in a row a fresh breaker is closed with
    [failure_count = n] still below the threshold, or open with the
    threshold reached. *)
Lemma failing_calls_count (thr : Z) (tmo rec : Q) (n : nat) (cb : t) :
  failing_calls n (init thr tmo rec) cb ->
  failure_threshold cb = thr
  /\ ((state cb = closed /\ failure_count cb = Z.of_nat n /\ (n = 0%nat \/ Z.of_nat n < thr))
      \/ (state cb = open /\ thr <= failure_count cb)).
Proof.
  remember (init thr tmo rec) as cb0 eqn:Hcb0.
  induction 1 as [cb|n cb cb1 cb2 A func e x e' Hrun IH Hcall].
  - subst cb. split; [reflexivity|]. left. simpl. repeat split. left. reflexivity.
  - destruct (IH Hcb0) as (Hthr & Hcases). clear IH.
    destruct Hcases as [(Hst & Hcnt & Hlow)|(Hst & Hcnt)].
    + rewrite call_passes in Hcall by congruence.
      destruct (func e) as [[a|y] e1]; [rewrite Hst in Hcall; discriminate|].
      simpl in Hcall. rewrite Hthr, Hcnt in Hcall.
      destruct (thr <=? Z.of_nat n + 1) eqn:Hle; injection Hcall as _ <- _; simpl.
      * split; [exact Hthr|]. right. split; [reflexivity|].
        apply Z.leb_le in Hle. lia.
      * split; [exact Hthr|]. left. rewrite Hst. apply Z.leb_gt in Hle.
        repeat split; lia.
    + destruct (Qlt_le_dec (timeout cb1) (time e - last_failure_time cb1)) as [Hel|Hel].
      * rewrite (call_half_opens _ _ _ Hst Hel), call_passes in Hcall
          by (simpl; congruence).
        destruct (func e) as [[a|y] e1]; [discriminate|].
        simpl in Hcall. rewrite Hthr in Hcall.
        destruct (thr <=? failure_count cb1 + 1) eqn:Hle; injection Hcall as _ <- _; simpl.
        -- split; [exact Hthr|]. right. split; [reflexivity|lia].
        -- apply Z.leb_gt in Hle. lia.
      * destruct (call_fail_fast func cb1 e Hst Hel) as (err & Heq & _).
        rewrite Heq in Hcall. injection Hcall as _ <- _.
        split; [exact Hthr|]. right. split; assumption.
Qed.

(** Once a fresh breaker has seen as many failing calls in a row as its
    threshold says (one at least), it is open; with fewer it is still
    closed and has counted them all. *)
Theorem breaker_trips_at_threshold (thr : Z) (tmo rec : Q) (n : nat) (cb : t)
    (Hrun : failing_calls n (init thr tmo rec) cb) :
  ((1 <= n)%nat -> thr <= Z.of_nat n -> state cb = open)
  /\ (Z.of_nat n < thr -> state cb = closed /\ failure_count cb = Z.of_nat n).
Proof.
  destruct (failing_calls_count thr tmo rec n cb Hrun)
    as (_ & [(Hst & Hcnt & Hlow)|(Hst & Hcnt)]).
  - split.
    + intros Hn Hthr. destruct Hlow as [->|Hlow]; lia.
    + intros _. split; assumption.
  - split; [intros _ _; exact Hst|].
    intros Hlt. exfalso.
    clear Hst. revert cb Hrun Hcnt.
    assert (Hbound : forall k cb', failing_calls k (init thr tmo rec) cb' ->
                       failure_count cb' <= Z.of_nat k).
    { clear. intros k cb' Hk.
      remember (init thr tmo rec) as cb0 eqn:Hcb0.
      induction Hk as [cb|k cb cb1 cb2 A func e x e' Hrun IH Hcall].
      - subst cb. simpl. lia.
      - specialize (IH Hcb0).
        destruct (call_outcome func cb1 e) as [(err & Hc & _)|(cb' & Hc)];
          rewrite Hc in Hcall.
        + injection Hcall as _ <- _. lia.
        + destruct (State_eq_dec (state cb1) open) as [Hopen|Hno].
          * destruct (Qlt_le_dec (timeout cb1) (time e - last_failure_time cb1))
              as [Hel|Hel].
            -- rewrite (call_half_opens _ _ _ Hopen Hel), call_passes in Hc
                 by (simpl; congruence).
               destruct (func e) as [[a|y] e1]; simpl in Hc, Hcall.
               ++ discriminate.
               ++ injection Hcall as _ <- _.
                  destruct (_ <=? _); injection Hc as <-; simpl; lia.
            -- destruct (call_fail_fast func cb1 e Hopen Hel) as (err & Heq & _).
               rewrite Heq in Hc. injection Hc as _ Hcb _.
               injection Hcall as _ <- _. rewrite <- Hcb. lia.
          * rewrite call_passes in Hc by assumption.
            destruct (func e) as [[a|y] e1]; simpl in Hc, Hcall.
            -- discriminate.
            -- injection Hcall as _ <- _.
               destruct (_ <=? _); injection Hc as <-; simpl; lia. }
    intros cb Hrun Hcnt. specialize (Hbound n cb Hrun). lia.
Qed.
End BreakerTrips.

Lemma breaker_trips_at_threshold_witness :
  let refused : M Env Response :=
    send (mkRequest "GET" (urljoin "https://idp.example/api/" "entities")
            JNull JNull JNull ∅ None) in
  let e := quiet_env 1000 (fun _ _ => Fail (HttpxRequestError (Str "refused"))) in
  let cb1 := fst (snd (CircuitBreaker.call refused (CircuitBreaker.init 2 60 30, e))) in
  let cb2 := fst (snd (CircuitBreaker.call refused (cb1, e))) in
  CircuitBreaker.state cb1 = CircuitBreaker.closed
  /\ CircuitBreaker.state cb2 = CircuitBreaker.open.
Proof.
  intros refused e cb1 cb2.
  assert (H1 : failing_calls 1 (CircuitBreaker.init 2 60 30) cb1).
  { eapply (failing_more 0 _ _ cb1 refused e).
    - apply failing_none.
    - vm_compute. reflexivity. }
  assert (H2 : failing_calls 2 (CircuitBreaker.init 2 60 30) cb2).
  { eapply (failing_more 1 _ _ cb2 refused e).
    - exact H1.
    - vm_compute. reflexivity. }
  split.
  - apply (proj2 (breaker_trips_at_threshold 2 60 30 1 cb1 H1)). simpl. lia.
  - apply (proj1 (breaker_trips_at_threshold 2 60 30 2 cb2 H2)); simpl; lia.
Defined.

Section LimiterBurst.
Context {E : Type} `{Runtime E}.
Import RateLimiter.

(** After [n] acquisitions a fresh limiter still holds at least
    [burst_size - n] tokens; rate and capacity are as constructed. *)
Lemma limiter_after_tokens (rps : Q) (burst : Z) (now0 : Q) (n : nat) (rl : t) :
  (0 <= rps)%Q ->
  limiter_after (init rps burst now0) n rl ->
  requests_per_second rl = rps /\ burst_size rl = burst
  /\ (inject_Z burst - inject_Z (Z.of_nat n) <= tokens rl)%Q.
Proof.
  intros Hrps Hrun.
  induction Hrun as [|n rl e r rl' e' Hrun IH Hclock Hacq].
  - split; [reflexivity|]. split; [reflexivity|].
    cbn [init tokens]. change (inject_Z (Z.of_nat 0)) with 0%Q. lra.
  - destruct IH as (Hr & Hb & Ht).
    assert (Hn : (inject_Z (Z.of_nat (S n)) == inject_Z (Z.of_nat n) + 1)%Q).
    { rewrite Nat2Z.inj_succ. unfold Z.succ. rewrite inject_Z_plus. reflexivity. }
    assert (Hfill : (inject_Z burst - inject_Z (Z.of_nat n) <= refill rl (time e))%Q).
    { unfold refill. rewrite Hr, Hb.
      assert (0 <= (time e - last_update rl) * rps)%Q
        by (apply Qmult_le_0_compat; lra).
      assert (0 <= inject_Z (Z.of_nat n))%Q
        by (apply inject_Z_nonneg; lia).
      apply Q.min_glb; lra. }
    rewrite acquire_cases in Hacq. simpl in Hacq.
    destruct (Qle_bool 1 (refill rl (time e))) eqn:Hone.
    + injection Hacq as _ <- _. simpl. repeat split; try assumption. lra.
    + assert (Hlt : (refill rl (time e) < 1)%Q).
      { apply Qnot_le_lt. intros Hle. apply Qle_bool_iff in Hle. congruence. }
      destruct (Qeq_bool (requests_per_second rl) 0);
        injection Hacq as _ <- _; simpl; repeat split; try assumption; lra.
Qed.

(** A fresh limiter admits a burst: each of its first [burst_size]
    acquisitions returns at once, without sleeping, however fast they
    come (the clock only must not run backwards), even at rate 0. *)
Theorem limiter_admits_burst (rps : Q) (burst : Z) (now0 : Q) (n : nat) (rl : t) (e : E)
    (Hrps : (0 <= rps)%Q)
    (Hrun : limiter_after (init rps burst now0) n rl)
    (Hclock : (last_update rl <= time e)%Q)
    (Hn : Z.of_nat n < burst) :
  exists rl', acquire (rl, e) = (Ok tt, (rl', e))
              /\ (tokens rl' == refill rl (time e) - 1)%Q.
Proof.
  destruct (limiter_after_tokens rps burst now0 n rl Hrps Hrun) as (Hr & Hb & Ht).
  assert (Hone : (1 <= refill rl (time e))%Q).
  { unfold refill. rewrite Hr, Hb.
    assert (0 <= (time e - last_update rl) * rps)%Q
      by (apply Qmult_le_0_compat; lra).
    assert (Hgap : (inject_Z (Z.of_nat n) + 1 <= inject_Z burst)%Q).
    { change 1%Q with (inject_Z 1). rewrite <- inject_Z_plus, <- Zle_Qle. lia. }
    assert (0 <= inject_Z (Z.of_nat n))%Q by (apply inject_Z_nonneg; lia).
    apply Q.min_glb; lra. }
  rewrite acquire_cases. simpl. apply Qle_bool_iff in Hone. rewrite Hone.
  eexists. split; [reflexivity|]. simpl. reflexivity.
Qed.

(** At rate 0 an acquisition that finds less than one token cannot
    compute its wait: it raises [ZeroDivisionError], having refilled and
    stamped the bucket but slept nothing. *)
Theorem limiter_zero_rate (rl : t) (e : E)
    (Hrate : (requests_per_second rl == 0)%Q)
    (Hempty : (refill rl (time e) < 1)%Q) :
  exists m rl',
    acquire (rl, e) = (Raise (Builtin "ZeroDivisionError" m), (rl', e))
    /\ tokens rl' = refill rl (time e) /\ last_update rl' = time e.
Proof.
  rewrite acquire_cases. simpl.
  destruct (Qle_bool 1 (refill rl (time e))) eqn:Hone;
    [apply Qle_bool_iff in Hone; lra|].
  apply Qeq_bool_iff in Hrate. rewrite Hrate.
  do 2 eexists. split; [reflexivity|]. split; reflexivity.
Qed.
End LimiterBurst.

Lemma limiter_admits_burst_witness :
  exists rl',
    RateLimiter.acquire
      (RateLimiter.init 0 2 100,
       quiet_env 100 (fun _ _ => Fail (HttpxRequestError (Str "refused"))))
    = (Ok tt, (rl', quiet_env 100 (fun _ _ => Fail (HttpxRequestError (Str "refused")))))
    /\ (RateLimiter.tokens rl' == RateLimiter.refill (RateLimiter.init 0 2 100) 100 - 1)%Q.
Proof.
  assert (Hrps : (0 <= 0)%Q) by (vm_compute; discriminate).
  assert (Hclock : (RateLimiter.last_update (RateLimiter.init 0 2 100)
                    <= time (quiet_env 100
                               (fun _ _ => Fail (HttpxRequestError (Str "refused")))))%Q)
    by (vm_compute; discriminate).
  assert (Hn : Z.of_nat 0 < 2) by (vm_compute; reflexivity).
  exact (limiter_admits_burst 0 2 100 0 (RateLimiter.init 0 2 100)
           (quiet_env 100 (fun _ _ => Fail (HttpxRequestError (Str "refused"))))
           Hrps (limiter_start _) Hclock Hn).
Defined.

Lemma limiter_zero_rate_witness :
  exists m rl',
    RateLimiter.acquire
      (RateLimiter.init 0 0 100,
       quiet_env 160 (fun _ _ => Fail (HttpxRequestError (Str "refused"))))
    = (Raise (Builtin "ZeroDivisionError" m),
       (rl', quiet_env 160 (fun _ _ => Fail (HttpxRequestError (Str "refused")))))
    /\ RateLimiter.tokens rl' = RateLimiter.refill (RateLimiter.init 0 0 100) 160
    /\ RateLimiter.last_update rl' = 160%Q.
Proof.
  assert (Hrate : (RateLimiter.requests_per_second (RateLimiter.init 0 0 100) == 0)%Q)
    by reflexivity.
  assert (Hempty : (RateLimiter.refill (RateLimiter.init 0 0 100)
                      (time (quiet_env 160
                               (fun _ _ => Fail (HttpxRequestError (Str "refused")))))
                    < 1)%Q)
    by (vm_compute; reflexivity).
  exact (limiter_zero_rate (RateLimiter.init 0 0 100)
           (quiet_env 160 (fun _ _ => Fail (HttpxRequestError (Str "refused"))))
           Hrate Hempty).
Defined.

Section SinglePass.
Import HttpClient.

(** One pass through [_execute_request]: nothing is slept and at most
    three requests are sent. *)
Lemma execute_request_frame method url params json data timeout
    (h h' : gmap string string) (c c' : t) (e e' : Env) (r : Res Payload) :
  h <> ∅ ->
  _execute_request method url params json data timeout (h, (c, e)) = (r, (h', (c', e'))) ->
  slept e' = slept e
  /\ (length (sent e) <= length (sent e') <= length (sent e) + 3)%nat.
Proof.
  intros Hne Hexec.
  set (req := mkRequest method url params json data h
                (match timeout with
                 | Some q => if Qeq_bool q 0 then None else Some q
                 | None => None
                 end)).
  destruct (network e (length (sent e)) req) as [resp|x] eqn:Hnet.
  - destruct ((status_code resp =? 401) && bool_decide (is_Some (auth_manager c)))
      eqn:Hplain.
    + apply andb_true_iff in Hplain as [Hst Ham]. apply Z.eqb_eq in Hst.
      apply bool_decide_eq_true in Ham. destruct Ham as [am Ham].
      destruct (AuthManager.refresh_token (am, set_sent (sent e ++ [req]) e))
        as [[ti|x] [am1 e2]] eqn:Hrefresh.
      * rewrite (execute_request_refreshed method url params json data timeout
                   h c e resp am am1 e2 ti Hne Hnet Hst Ham Hrefresh) in Hexec.
        injection Hexec as _ _ _ <-.
        destruct (refresh_token_stores _ _ _ _ _ Hrefresh) as (_ & _ & Hslept & rt & Hsent).
        assert (Hlen : length (sent e2) = S (S (length (sent e)))).
        { rewrite Hsent. simpl. rewrite !length_app. simpl. lia. }
        simpl. rewrite length_app, Hlen. simpl.
        split; [exact Hslept|lia].
      * rewrite (execute_request_refresh_fails method url params json data timeout
                   h c e resp am am1 e2 x Hnet Hst Ham Hrefresh) in Hexec.
        injection Hexec as _ _ _ <-.
        destruct (refresh_token_failure_frame _ _ _ _ _ Hrefresh)
          as (_ & Hslept & Hsent).
        simpl in Hsent. rewrite length_app in Hsent. simpl in Hsent.
        split; [exact Hslept|].
        split; [|lia].
        assert (Hmono : (length (sent (set_sent (sent e ++ [req]) e)) <= length (sent e2))%nat).
        { clear -Hrefresh.
          destruct (AuthManager._token_info am) as [prev|] eqn:Htok;
            [destruct (truthy_str (TokenInfo.refresh_token prev)) eqn:Htr|].
          - destruct (TokenInfo.refresh_token prev) as [rt|] eqn:Hrt; [|discriminate].
            apply truthy_str_Some in Htr.
            destruct (refresh_token_sends _ _ _ _ _ _ _ Htok Hrt Htr Hrefresh) as (-> & _).
            rewrite length_app. lia.
          - destruct (refresh_token_unavailable am (set_sent (sent e ++ [req]) e))
              as (err & Hh & _).
            { intros p Hp. congruence. }
            rewrite Hh in Hrefresh. injection Hrefresh as _ _ <-. lia.
          - destruct (refresh_token_unavailable am (set_sent (sent e ++ [req]) e))
              as (err & Hh & _).
            { intros p Hp. congruence. }
            rewrite Hh in Hrefresh. injection Hrefresh as _ _ <-. lia. }
        simpl in Hmono. rewrite length_app in Hmono. simpl in Hmono. lia.
    + rewrite (execute_request_plain method url params json data timeout
                 h c e resp Hnet Hplain) in Hexec.
      injection Hexec as _ _ _ <-. simpl. rewrite length_app. simpl.
      split; [reflexivity|lia].
  - destruct (execute_request_transport_failure method url params json data timeout
                h c e x Hnet) as (y & Heq & _).
    rewrite Heq in Hexec. injection Hexec as _ _ _ <-. simpl. rewrite length_app. simpl.
    split; [reflexivity|lia].
Qed.

Lemma single_pass_admitted method path params json data headers options
    (c c' : t) (e e' : Env) (r : Res Payload) :
  rate_limiter c = None ->
  CircuitBreaker.state (circuit_breaker c) <> CircuitBreaker.open
  \/ (CircuitBreaker.timeout (circuit_breaker c)
      < clock e - CircuitBreaker.last_failure_time (circuit_breaker c))%Q ->
  request method path params json data headers options (c, e) = (r, (c', e')) ->
  slept e' = slept e
  /\ (length (sent e) <= length (sent e') <= length (sent e) + 3)%nat.
Proof.
  intros Hrl Hadm Hrun.
  destruct (_execute_request method
              (urljoin (ClientConfig.base_url (config c)) (lstrip_slash path))
              params json data (options ≫= RequestOptions.timeout)
              (prepare_headers c (clock e) headers, (c, e)))
    as [r1 [h1 [c1 e1]]] eqn:Hexec.
  destruct (request_after method path params json data headers options
              c c1 e e1 h1 r1 Hrl Hadm Hexec) as (cb' & Heq).
  rewrite Heq in Hrun. injection Hrun as _ _ <-.
  exact (execute_request_frame _ _ _ _ _ _ _ _ _ _ _ _ _
           (prepare_headers_non_empty _ _ _) Hexec).
Qed.
End SinglePass.

(** ** Further properties of [request] *)

Section RequestShape.
Import HttpClient.

(** [request] against an open breaker that is still cooling down:
    [CircuitBreakerError], nothing sent, nothing changed. *)
Lemma request_fails_fast method path params json data headers options
    (c : t) (e : Env) :
  rate_limiter c = None ->
  CircuitBreaker.state (circuit_breaker c) = CircuitBreaker.open ->
  (clock e - CircuitBreaker.last_failure_time (circuit_breaker c)
   <= CircuitBreaker.timeout (circuit_breaker c))%Q ->
  exists err,
    request method path params json data headers options (c, e)
    = (Raise (SDK err), (c, e))
    /\ err_class err = CircuitBreakerError.
Proof.
  intros Hrl Hopen Hel. rewrite request_run by assumption. cbv zeta.
  unfold _make_request, on_circuit_breaker. cbn [fst snd].
  pose proof (call_fail_fast
                (_execute_request method
                   (urljoin (ClientConfig.base_url (config c)) (lstrip_slash path))
                   params json data (options ≫= RequestOptions.timeout))
                (circuit_breaker c) (prepare_headers c (clock e) headers, (c, e))
                Hopen) as Hcall.
  destruct (Hcall Hel) as (err & -> & Hcls).
  exists err. split; [|exact Hcls]. simpl. destruct c; reflexivity.
Qed.

(** Whatever is configured and whatever happens, one [request] is one
    pass: it never sleeps (no backoff is ever taken) and sends at most
    three requests, the call, one refresh and one repetition. *)
Theorem request_is_single_pass method path params json data headers options
    (c c' : t) (e e' : Env) (r : Res Payload)
    (Hrl : rate_limiter c = None)
    (Hrun : request method path params json data headers options (c, e)
            = (r, (c', e'))) :
  slept e' = slept e
  /\ (length (sent e) <= length (sent e') <= length (sent e) + 3)%nat.
Proof.
  destruct (CircuitBreaker.State_eq_dec (CircuitBreaker.state (circuit_breaker c))
              CircuitBreaker.open) as [Hopen|Hno].
  - destruct (Qlt_le_dec (CircuitBreaker.timeout (circuit_breaker c))
                (clock e - CircuitBreaker.last_failure_time (circuit_breaker c)))
      as [Hel|Hel].
    + exact (single_pass_admitted method path params json data headers options
               c c' e e' r Hrl (or_intror Hel) Hrun).
    + destruct (request_fails_fast method path params json data headers options c e
                  Hrl Hopen Hel) as (err & Heq & _).
      rewrite Heq in Hrun. injection Hrun as _ _ <-. split; [reflexivity|lia].
  - exact (single_pass_admitted method path params json data headers options
             c c' e e' r Hrl (or_introl Hno) Hrun).
Qed.
End RequestShape.

Lemma request_is_single_pass_witness :
  match get_entities (signed_client 1000, quiet_env 1000 (unauthorized_then 200)) with
  | (_, (_, e')) => slept e' = [] /\ (0 <= length (sent e') <= 0 + 3)%nat
  end.
Proof.
  destruct (get_entities (signed_client 1000, quiet_env 1000 (unauthorized_then 200)))
    as [r [c' e']] eqn:Hrun.
  exact (request_is_single_pass "GET" "/entities" JNull JNull JNull None None
           (signed_client 1000) c' (quiet_env 1000 (unauthorized_then 200)) e' r
           eq_refl Hrun).
Defined.

Section HeadersAndPaths.
Import HttpClient.

(** The headers of a request: [X-Request-ID] is always the generated id,
    whatever the caller passes; every other header the caller passes
    wins over the client's defaults and over the credential; and the
    credential, when the caller does not override it, goes under
    [Authorization] if its header value starts with [Bearer] and under
    [X-API-Key] otherwise. *)
Theorem prepare_headers_precedence (c : t) (now : Q)
    (headers : option (gmap string string)) :
  prepare_headers c now headers !! "X-Request-ID" = Some (_generate_request_id c now)
  /\ (forall hs key value,
        headers = Some hs -> key <> "X-Request-ID" -> hs !! key = Some value ->
        prepare_headers c now headers !! key = Some value)
  /\ (forall am tok,
        auth_manager c = Some am -> AuthManager.get_auth_header am = Some tok ->
        tok <> "" ->
        (forall hs, headers = Some hs -> hs !! credential_header tok = None) ->
        prepare_headers c now headers !! credential_header tok = Some tok)
  /\ (auth_manager c = None -> headers = None ->
      forall key, key <> "X-Request-ID" ->
                  prepare_headers c now headers !! key = client_headers c !! key).
Proof.
  unfold prepare_headers. split; [apply lookup_insert_eq|]. split; [|split].
  - intros hs key value -> Hkey Hlook.
    rewrite lookup_insert_ne by congruence.
    apply lookup_union_Some_l. exact Hlook.
  - intros am tok Ham Hhdr Hne Hfree.
    assert (Hkey : credential_header tok <> "X-Request-ID")
      by (unfold credential_header; destruct (String.prefix _ _); discriminate).
    rewrite lookup_insert_ne by congruence.
    rewrite Ham. simpl. rewrite Hhdr.
    apply String.eqb_neq in Hne. rewrite Hne. simpl.
    assert (Hauth : (if String.prefix "Bearer" tok
                     then <["Authorization" := tok]> (client_headers c)
                     else <["X-API-Key" := tok]> (client_headers c))
                    !! credential_header tok = Some tok).
    { unfold credential_header.
      destruct (String.prefix "Bearer" tok); apply lookup_insert_eq. }
    destruct headers as [hs|]; [|exact Hauth].
    rewrite lookup_union_r by (apply Hfree; reflexivity). exact Hauth.
  - intros Ham -> key Hkey. rewrite lookup_insert_ne by congruence.
    rewrite Ham. reflexivity.
Qed.

Lemma lstrip_slash_head (s : string) (ch : ascii) (rest : string) :
  lstrip_slash s = String ch rest -> Ascii.eqb ch "/" = false.
Proof.
  induction s as [|a s IH]; simpl; [discriminate|].
  destruct (Ascii.eqb a "/") eqn:Ha; [exact IH|].
  intros [= <- _]. exact Ha.
Qed.

(** Leading slashes of the path make no difference: what is joined to
    the base URL never starts with a slash, stripping is idempotent, and
    [request] with ["/" ++ path] is [request] with [path]. *)
Theorem request_ignores_leading_slash (path : string) :
  (forall ch rest, lstrip_slash path = String ch rest -> Ascii.eqb ch "/" = false)
  /\ lstrip_slash (lstrip_slash path) = lstrip_slash path
  /\ forall method params json data headers options s,
       request method ("/" ++ path) params json data headers options s
       = request method path params json data headers options s.
Proof.
  split; [apply lstrip_slash_head|]. split.
  - destruct (lstrip_slash path) as [|ch rest] eqn:Hs; [reflexivity|].
    pose proof (lstrip_slash_head path ch rest Hs) as Hch.
    simpl. rewrite Hch. reflexivity.
  - intros. reflexivity.
Qed.

(** A client whose [rate_limit] is 0 requests cannot make any request:
    the limiter is built with rate 0 and an empty bucket, and [request]
    raises a raw [ZeroDivisionError] before anything is sent. *)
Theorem request_rate_limit_zero method path params json data headers options
    (config : ClientConfig.t) (am : option AuthManager.t) (self_id : Z) (now : Q)
    (e : Env)
    (Hzero : ClientConfig.rate_limit config = Some 0) :
  exists m c',
    request method path params json data headers options
      (init config am self_id now, e)
    = (Raise (Builtin "ZeroDivisionError" m), (c', e)).
Proof.
  unfold request, bind, gets, on_rate_limiter. simpl.
  repeat (rewrite Hzero; simpl).
  rewrite acquire_cases. cbv zeta.
  destruct (Qle_bool 1 _) eqn:Hone.
  { exfalso. apply Qle_bool_iff in Hone. unfold RateLimiter.refill in Hone.
    simpl in Hone.
    match type of Hone with
    | (1 <= Qmin ?a ?b)%Q => pose proof (Q.le_min_l a b) as Hmin
    end.
    change (inject_Z (0 `min` 10)) with 0%Q in *. lra. }
  simpl. do 2 eexists. reflexivity.
Qed.
End HeadersAndPaths.

Lemma prepare_headers_precedence_witness :
  HttpClient.prepare_headers (signed_client 1000) 1000
    (Some {[ "Accept" := "text/plain"; "X-Request-ID" := "mine" ]}) !! "Accept"
  = Some "text/plain"
  /\ HttpClient.prepare_headers (signed_client 1000) 1000
       (Some {[ "Accept" := "text/plain"; "X-Request-ID" := "mine" ]}) !! "Authorization"
     = Some "Bearer tok0".
Proof.
  destruct (prepare_headers_precedence (signed_client 1000) 1000
              (Some {[ "Accept" := "text/plain"; "X-Request-ID" := "mine" ]}))
    as (_ & Hcaller & Hcred & _).
  split.
  - apply (Hcaller {[ "Accept" := "text/plain"; "X-Request-ID" := "mine" ]}
             "Accept" "text/plain" eq_refl).
    + discriminate.
    + vm_compute. reflexivity.
  - apply (Hcred (bearer_store true None) "Bearer tok0" eq_refl eq_refl).
    + discriminate.
    + intros hs [= <-]. vm_compute. reflexivity.
Defined.

Lemma request_rate_limit_zero_witness :
  exists m c',
    HttpClient.request "GET" "/entities" JNull JNull JNull None None
      (HttpClient.init
         (ClientConfig.mk "https://idp.example/api/" None None None None None true (Some 0))
         None 1 1000,
       idp 200 1000)
    = (Raise (Builtin "ZeroDivisionError" m), (c', idp 200 1000)).
Proof.
  exact (request_rate_limit_zero "GET" "/entities" JNull JNull JNull None None
           (ClientConfig.mk "https://idp.example/api/" None None None None None true (Some 0))
           None 1 1000 (idp 200 1000) eq_refl).
Defined.

Lemma request_ignores_leading_slash_witness :
  Ascii.eqb "e" "/" = false.
Proof.
  exact (proj1 (request_ignores_leading_slash "//entities") "e"%char "ntities" eq_refl).
Defined.

(** ** The claims about the request executor *)

Section ExecutorClaims.
Import HttpClient.

(** C2 (amended).  The class [create_error_from_response] selects for a
    status is the one its table gives: 400 Validation, 401
    Authentication, 403 Authorization, 404 NotFound, 429 RateLimit, 500,
    502 and 503 Server, 504 Timeout, and the base [BackstageSDKError] for
    every other status, the other 5xx included.  For a response with
    such another status, 400 or above, the caller of [request] receives
    a base-class error: it carries that status when the body is a JSON
    object or no JSON at all, and is the wrapped failure of reading the
    body, without a status, when the body is other JSON.  A transport
    timeout reaches the caller as [TimeoutError] and another transport
    failure as [NetworkError].  (What the caller receives for the
    statuses of the table is not part of this statement.) *)
Theorem error_classification :
  (error_class 400 = ValidationError /\ error_class 401 = AuthenticationError
   /\ error_class 403 = AuthorizationError /\ error_class 404 = NotFoundError
   /\ error_class 429 = RateLimitError /\ error_class 500 = ServerError
   /\ error_class 502 = ServerError /\ error_class 503 = ServerError
   /\ error_class 504 = TimeoutError
   /\ forall st, st ∉ mapped_statuses -> error_class st = BackstageSDKError)
  /\ forall method path params json data headers options (c : t) (e : Env),
       rate_limiter c = None ->
       CircuitBreaker.state (circuit_breaker c) <> CircuitBreaker.open
       \/ (CircuitBreaker.timeout (circuit_breaker c)
           < clock e - CircuitBreaker.last_failure_time (circuit_breaker c))%Q ->
       (forall resp,
          network e (length (sent e))
            (first_request method path params json data headers options c e)
          = Respond resp ->
          400 <= status_code resp -> status_code resp ∉ mapped_statuses ->
          exists err s,
            request method path params json data headers options (c, e)
            = (Raise (SDK err), s)
            /\ err_class err = BackstageSDKError
            /\ (body resp = None \/ (exists d, body resp = Some (JDict d)) ->
                status err = Some (status_code resp))
            /\ (forall j, body resp = Some j -> (forall d, j <> JDict d) ->
                status err = None /\ code err = JStr "SDK_ERROR"))
       /\ (forall m,
             network e (length (sent e))
               (first_request method path params json data headers options c e)
             = Fail (HttpxTimeoutException m) ->
             exists err s,
               request method path params json data headers options (c, e)
               = (Raise (SDK err), s)
               /\ err_class err = TimeoutError)
       /\ (forall m,
             network e (length (sent e))
               (first_request method path params json data headers options c e)
             = Fail (HttpxRequestError m) ->
             exists err s,
               request method path params json data headers options (c, e)
               = (Raise (SDK err), s)
               /\ err_class err = NetworkError).
Proof.
  split.
  - repeat (split; [reflexivity|]).
    intros st Hnot. unfold error_class. rewrite (error_map_unmapped st Hnot). reflexivity.
  - intros method path params json data headers options c e Hrl Hadm.
    split; [|split].
    + intros resp Hnet Hst Hnot.
      pose proof (error_map_unmapped _ Hnot) as Hmap.
      assert (Hplain : (status_code resp =? 401)
                       && bool_decide (is_Some (auth_manager c)) = false).
      { apply andb_false_iff. left. apply Z.eqb_neq. intros H401.
        apply Hnot. rewrite H401. apply (bool_decide_unpack _). reflexivity. }
      pose proof (execute_request_plain method
                    (urljoin (ClientConfig.base_url (config c)) (lstrip_slash path))
                    params json data (options ≫= RequestOptions.timeout)
                    (prepare_headers c (clock e) headers) c e resp Hnet Hplain) as Hexec.
      destruct (handle_response resp) as [p|x] eqn:Hresp.
      { exfalso. unfold handle_response in Hresp. apply Z.leb_le in Hst.
        rewrite Hst in Hresp.
        destruct (body resp) as [[| | | | |d]|]; try discriminate;
          match type of Hresp with
          | context [create_error_from_response ?d ?st] =>
              destruct (create_error_from_response d st); discriminate
          end. }
      destruct (request_after_raise method path params json data headers options
                  c c e _ _ x Hrl Hadm Hexec) as (cb' & Hrun & _).
      destruct (transform_error_total x) as (err & Herr & Hshape).
      rewrite Herr in Hrun. exists err. eexists. split; [exact Hrun|].
      unfold handle_response in Hresp. apply Z.leb_le in Hst. rewrite Hst in Hresp.
      assert (Hdict : forall d,
                match create_error_from_response d (status_code resp) with
                | Ok err0 => Raise (SDK err0)
                | Raise y => Raise y
                end = @Raise Payload x ->
                err_class err = BackstageSDKError
                /\ status err = Some (status_code resp)).
      { intros d Hd.
        destruct (create_error_unmapped_status d (status_code resp) Hmap)
          as (err0 & Hc & Hcls & Hs).
        rewrite Hc in Hd. injection Hd as <-. subst err. split; assumption. }
      destruct (body resp) as [j|] eqn:Hbody.
      * destruct j as [|b|q|str|l|d];
          try (injection Hresp as <-; destruct Hshape as (Hcls & Hcode & Hs);
               split; [exact Hcls|]; split;
               [intros [Hn|(d & Hd)]; discriminate|intros _ _ _; split; assumption]).
        destruct (Hdict d Hresp) as (Hcls & Hs).
        split; [exact Hcls|]. split; [intros _; exact Hs|].
        intros j [= <-] Hnodict. exfalso. exact (Hnodict d eq_refl).
      * destruct (Hdict _ Hresp) as (Hcls & Hs).
        split; [exact Hcls|]. split; [intros _; exact Hs|].
        intros j Hj. discriminate Hj.
    + intros m Hnet.
      destruct (execute_request_transport_failure method
                  (urljoin (ClientConfig.base_url (config c)) (lstrip_slash path))
                  params json data (options ≫= RequestOptions.timeout)
                  (prepare_headers c (clock e) headers) c e _ Hnet)
        as (y & Hexec & (err & -> & Hcls)).
      destruct (request_surfaces method path params json data headers options c e err _
                  Hrl Hadm Hexec) as (s & Hrun).
      eauto.
    + intros m Hnet.
      destruct (execute_request_transport_failure method
                  (urljoin (ClientConfig.base_url (config c)) (lstrip_slash path))
                  params json data (options ≫= RequestOptions.timeout)
                  (prepare_headers c (clock e) headers) c e _ Hnet)
        as (y & Hexec & (err & -> & Hcls)).
      destruct (request_surfaces method path params json data headers options c e err _
                  Hrl Hadm Hexec) as (s & Hrun).
      eauto.
Qed.
End ExecutorClaims.

Lemma error_classification_witness :
  (exists err s,
     get_entities (plain_client 1000, quiet_env 1000 (fun _ _ => Respond (error_response 418)))
     = (Raise (SDK err), s)
     /\ err_class err = BackstageSDKError
     /\ status err = Some 418)
  /\ (exists err s,
        get_entities (plain_client 1000,
                      quiet_env 1000
                        (fun _ _ => Respond (mkResponse 418 "" (Some (JList [])) "")))
        = (Raise (SDK err), s)
        /\ err_class err = BackstageSDKError
        /\ status err = None /\ code err = JStr "SDK_ERROR").
Proof.
  assert (Hrl : HttpClient.rate_limiter (plain_client 1000) = None) by reflexivity.
  assert (Hadm : forall net,
            CircuitBreaker.state (HttpClient.circuit_breaker (plain_client 1000))
            <> CircuitBreaker.open
            \/ (CircuitBreaker.timeout (HttpClient.circuit_breaker (plain_client 1000))
                < clock (quiet_env 1000 net)
                  - CircuitBreaker.last_failure_time
                      (HttpClient.circuit_breaker (plain_client 1000)))%Q)
    by (intros net; left; discriminate).
  split.
  - destruct (proj2 error_classification "GET" "/entities" JNull JNull JNull None None
                (plain_client 1000)
                (quiet_env 1000 (fun _ _ => Respond (error_response 418))) Hrl (Hadm _))
      as (Hunmapped & _).
    destruct (Hunmapped (error_response 418) eq_refl)
      as (err & s & Hrun & Hcls & Hstatus & _).
    + vm_compute. discriminate.
    + apply (bool_decide_unpack _). vm_compute. reflexivity.
    + exists err, s. split; [exact Hrun|]. split; [exact Hcls|].
      apply Hstatus. right. eexists. reflexivity.
  - destruct (proj2 error_classification "GET" "/entities" JNull JNull JNull None None
                (plain_client 1000)
                (quiet_env 1000
                   (fun _ _ => Respond (mkResponse 418 "" (Some (JList [])) "")))
                Hrl (Hadm _))
      as (Hunmapped & _).
    destruct (Hunmapped (mkResponse 418 "" (Some (JList [])) "") eq_refl)
      as (err & s & Hrun & Hcls & _ & Hother).
    + vm_compute. discriminate.
    + apply (bool_decide_unpack _). vm_compute. reflexivity.
    + destruct (Hother (JList []) eq_refl) as (Hstatus & Hcode); [discriminate|].
      exists err, s. split; [exact Hrun|]. split; [exact Hcls|].
      split; assumption.
Defined.

(** C2, as stated, fails: a 501 answer, a 5xx status, reaches the caller
    as a base [BackstageSDKError] carrying the status, not as a
    [ServerError]; and for 504 the class selected is [TimeoutError]. *)
Lemma unlisted_5xx_is_not_a_server_error :
  error_class 504 = TimeoutError
  /\ exists err s,
       get_entities (plain_client 1000,
                     quiet_env 1000 (fun _ _ => Respond (error_response 501)))
       = (Raise (SDK err), s)
       /\ err_class err = BackstageSDKError
       /\ err_class err <> ServerError
       /\ status err = Some 501.
Proof.
  split; [reflexivity|].
  do 2 eexists. split; [vm_compute; reflexivity|].
  split; [reflexivity|]. split; [discriminate|reflexivity].
Qed.

Section UnauthorizedClaim.
Import HttpClient.

(** What a refresh that raises has sent: nothing when it failed for
    want of a refresh token, the refresh request otherwise. *)
Lemma refresh_token_failure_sent (am am1 : AuthManager.t) (e e1 : Env) (x : Exn) :
  AuthManager.refresh_token (am, e) = (Raise x, (am1, e1)) ->
  sent e1 = sent e
  \/ exists rt, sent e1 = (sent e ++ [AuthManager.refresh_request
                                        (AuthConfig.base_url (AuthManager.config am)) rt])%list.
Proof.
  intros Hrun.
  destruct (AuthManager._token_info am) as [prev|] eqn:Htok;
    [destruct (truthy_str (TokenInfo.refresh_token prev)) eqn:Htr|].
  - destruct (TokenInfo.refresh_token prev) as [rt|] eqn:Hrt; [|discriminate].
    apply truthy_str_Some in Htr.
    destruct (refresh_token_sends _ _ _ _ _ _ _ Htok Hrt Htr Hrun) as (Hsent & _).
    right. eauto.
  - destruct (refresh_token_unavailable am e) as (err & Hh & _).
    { intros p Hp. congruence. }
    rewrite Hh in Hrun. injection Hrun as _ _ <-. left. reflexivity.
  - destruct (refresh_token_unavailable am e) as (err & Hh & _).
    { intros p Hp. congruence. }
    rewrite Hh in Hrun. injection Hrun as _ _ <-. left. reflexivity.
Qed.

(** C5 (amended).  A request whose first answer is a 401, the breaker
    letting the call through:
    - without a token store nothing is refreshed and nothing repeated:
      the 401 is classified at once;
    - with a token store [refresh_token] is called once.  When it
      raises, the API request is not repeated: the 401 is what is
      classified, and at most the refresh request has followed the call.
      When it returns, the API request is sent exactly once more, with
      [Authorization: Bearer <new access token>], and the answer to the
      repetition is what is classified (the 401 when the repetition
      fails in the transport); the requests sent are the call, the
      refresh request and the repetition;
    - in no case is anything slept or a further attempt made.
    (Which error the caller receives for the 401 is not part of this
    statement.) *)
Theorem unauthorized_is_refreshed_once
    method path params json data headers options
    (c : t) (e : Env) (resp : Response)
    (Hrl : rate_limiter c = None)
    (Hadm : CircuitBreaker.state (circuit_breaker c) <> CircuitBreaker.open
            \/ (CircuitBreaker.timeout (circuit_breaker c)
                < clock e - CircuitBreaker.last_failure_time (circuit_breaker c))%Q)
    (Hnet : network e (length (sent e))
              (first_request method path params json data headers options c e)
            = Respond resp)
    (Hst : status_code resp = 401) :
  let req1 := first_request method path params json data headers options c e in
  let e1 := set_sent (sent e ++ [req1]) e in
  (auth_manager c = None ->
     exists cb',
       request method path params json data headers options (c, e)
       = (surfaced (handle_response resp), (set_circuit_breaker cb' c, e1)))
  /\ (forall am, auth_manager c = Some am ->
        (forall x s2,
           AuthManager.refresh_token (am, e1) = (Raise x, s2) ->
           exists c',
             request method path params json data headers options (c, e)
             = (surfaced (handle_response resp), (c', snd s2))
             /\ auth_manager c' = Some (fst s2)
             /\ slept (snd s2) = slept e
             /\ (sent (snd s2) = sent e1
                 \/ exists rt,
                      sent (snd s2)
                      = (sent e1 ++ [AuthManager.refresh_request
                                       (AuthConfig.base_url (AuthManager.config am)) rt])%list))
        /\ (forall ti s2,
              AuthManager.refresh_token (am, e1) = (Ok ti, s2) ->
              let req2 := with_header "Authorization"
                            ("Bearer " ++ TokenInfo.access_token ti) req1 in
              exists c' rt,
                request method path params json data headers options (c, e)
                = (surfaced (match network (snd s2) (length (sent (snd s2))) req2 with
                             | Respond resp2 => handle_response resp2
                             | Fail _ => handle_response resp
                             end),
                   (c', set_sent (sent (snd s2) ++ [req2]) (snd s2)))
                /\ sent (snd s2)
                   = (sent e ++ [req1; AuthManager.refresh_request
                                         (AuthConfig.base_url (AuthManager.config am)) rt])%list
                /\ auth_manager c' = Some (fst s2)
                /\ AuthManager._token_info (fst s2) = Some ti
                /\ slept (snd s2) = slept e)).
Proof.
  intros req1 e1. split.
  - intros Hno.
    assert (Hplain : (status_code resp =? 401)
                     && bool_decide (is_Some (auth_manager c)) = false).
    { apply andb_false_iff. right. apply bool_decide_eq_false. rewrite Hno.
      intros [? ?]. discriminate. }
    pose proof (execute_request_plain method
                  (urljoin (ClientConfig.base_url (config c)) (lstrip_slash path))
                  params json data (options ≫= RequestOptions.timeout)
                  (prepare_headers c (clock e) headers) c e resp Hnet Hplain) as Hexec.
    destruct (request_after method path params json data headers options
                c _ e _ _ _ Hrl Hadm Hexec) as (cb' & Hrun).
    exists cb'. exact Hrun.
  - intros am Ham. split.
    + intros x [am1 e2] Hrefresh.
      pose proof (execute_request_refresh_fails method
                    (urljoin (ClientConfig.base_url (config c)) (lstrip_slash path))
                    params json data (options ≫= RequestOptions.timeout)
                    (prepare_headers c (clock e) headers) c e resp am am1 e2 x
                    Hnet Hst Ham Hrefresh) as Hexec.
      destruct (request_after method path params json data headers options
                  c _ e e2 _ _ Hrl Hadm Hexec) as (cb' & Hrun).
      destruct (refresh_token_failure_frame _ _ _ _ _ Hrefresh) as (_ & Hslept & _).
      eexists. split; [exact Hrun|]. split; [reflexivity|]. split; [exact Hslept|].
      exact (refresh_token_failure_sent _ _ _ _ _ Hrefresh).
    + intros ti [am1 e2] Hrefresh req2.
      pose proof (execute_request_refreshed method
                    (urljoin (ClientConfig.base_url (config c)) (lstrip_slash path))
                    params json data (options ≫= RequestOptions.timeout)
                    (prepare_headers c (clock e) headers) c e resp am am1 e2 ti
                    (prepare_headers_non_empty _ _ _) Hnet Hst Ham Hrefresh) as Hexec.
      destruct (request_after method path params json data headers options
                  c _ e _ _ _ Hrl Hadm Hexec) as (cb' & Hrun).
      destruct (refresh_token_stores _ _ _ _ _ Hrefresh)
        as (Hstored & _ & Hslept & rt & Hsent).
      exists (set_circuit_breaker cb' (set_auth_manager (Some am1) c)), rt.
      split; [exact Hrun|]. simpl. split; [|split; [reflexivity|split; assumption]].
      rewrite Hsent. simpl. rewrite <- app_assoc. reflexivity.
Qed.
End UnauthorizedClaim.

Lemma unauthorized_is_refreshed_once_witness :
  exists r c' e',
    get_entities (signed_client 1000, quiet_env 1000 (unauthorized_then 200))
    = (r, (c', e'))
    /\ length (sent e') = 3%nat /\ slept e' = [].
Proof.
  assert (Hadm : CircuitBreaker.state (HttpClient.circuit_breaker (signed_client 1000))
                 <> CircuitBreaker.open
                 \/ (CircuitBreaker.timeout (HttpClient.circuit_breaker (signed_client 1000))
                     < clock (quiet_env 1000 (unauthorized_then 200))
                       - CircuitBreaker.last_failure_time
                           (HttpClient.circuit_breaker (signed_client 1000)))%Q)
    by (left; discriminate).
  destruct (unauthorized_is_refreshed_once "GET" "/entities" JNull JNull JNull None None
              (signed_client 1000) (quiet_env 1000 (unauthorized_then 200))
              (error_response 401) eq_refl Hadm eq_refl eq_refl) as (_ & Hstore).
  destruct (Hstore (bearer_store true None) eq_refl) as (_ & Hreturns).
  destruct (AuthManager.refresh_token
              (bearer_store true None,
               set_sent (sent (quiet_env 1000 (unauthorized_then 200))
                         ++ [first_request "GET" "/entities" JNull JNull JNull None None
                               (signed_client 1000)
                               (quiet_env 1000 (unauthorized_then 200))])
                 (quiet_env 1000 (unauthorized_then 200))))
    as [[ti|x] s2] eqn:Hrefresh.
  - destruct (Hreturns ti s2 eq_refl) as (c' & rt & Hrun & Hsent & _ & _ & Hslept).
    unfold get_entities. rewrite Hrun. do 3 eexists. split; [reflexivity|].
    simpl. rewrite length_app, Hsent, length_app. simpl.
    split; [reflexivity|exact Hslept].
  - vm_compute in Hrefresh. discriminate Hrefresh.
Defined.

(** C5, as stated, fails.  A client without a token store that is
    answered 401 refreshes nothing and repeats nothing: the call is the
    only request sent.  And with a token store, when the refresh fails
    (the refresh endpoint answers 500), the 401 is followed by the
    refresh request only: the API request is not sent once more. *)
Lemma unauthorized_refresh_failure_is_not_repeated :
  (exists r c' e',
     get_entities (plain_client 1000, quiet_env 1000 (unauthorized_then 200))
     = (r, (c', e'))
     /\ sent e'
        = [first_request "GET" "/entities" JNull JNull JNull None None
             (plain_client 1000) (quiet_env 1000 (unauthorized_then 200))])
  /\ (exists r c' e',
        get_entities (signed_client 1000, quiet_env 1000 (unauthorized_then 500))
        = (r, (c', e'))
        /\ sent e'
           = [first_request "GET" "/entities" JNull JNull JNull None None
                (signed_client 1000) (quiet_env 1000 (unauthorized_then 500));
              AuthManager.refresh_request "https://idp.example/" "r0"]).
Proof.
  split; do 3 eexists; (split; [vm_compute; reflexivity|]); vm_compute; reflexivity.
Qed.

(** ** The retry policy of [request] *)

Section BackoffProps.

Lemma pow2_step (k : Z) : (2 ^ (k - 1) <= 2 ^ (k + 1 - 1))%Z.
Proof.
  destruct (Z_lt_le_dec (k - 1) 0) as [Hneg|Hpos].
  - rewrite (Z.pow_neg_r 2 (k - 1)) by assumption. apply Z.pow_nonneg. lia.
  - apply Z.pow_le_mono_r; lia.
Qed.

(** The delay never shrinks from one attempt to the next. *)
Lemma wait_exponential_mono (m max : Q) (k : Z) :
  (Tenacity.wait_exponential m max k <= Tenacity.wait_exponential m max (k + 1))%Q.
Proof.
  unfold Tenacity.wait_exponential. cbv zeta.
  pose proof (pow2_step k) as Hstep.
  assert (Hp : (0 <= 2 ^ (k - 1))%Z) by (apply Z.pow_nonneg; lia).
  assert (Hq0 : (0 <= inject_Z (2 ^ (k - 1)))%Q)
    by (change 0%Q with (inject_Z 0); rewrite <- Zle_Qle; exact Hp).
  assert (Hq : (inject_Z (2 ^ (k - 1)) <= inject_Z (2 ^ (k + 1 - 1)))%Q)
    by (rewrite <- Zle_Qle; exact Hstep).
  destruct (Qlt_le_dec m 0) as [Hneg|Hpos].
  - assert (Hzero : forall j, (0 <= inject_Z j)%Q ->
                      (Qmax (Qmax 0 0) (Qmin (m * inject_Z j) max) == 0)%Q).
    { intros j Hj. rewrite Q.max_l; [apply Q.max_id|].
      rewrite Q.max_id. eapply Qle_trans; [apply Q.le_min_l|]. nra. }
    rewrite (Hzero _ Hq0), (Hzero _ (Qle_trans _ _ _ Hq0 Hq)). apply Qle_refl.
  - apply Q.max_le_compat_l. apply Q.min_le_compat_r. nra.
Qed.

(** It lies between 0 and the cap; from a base delay that is not
    negative it is the base delay doubled at every attempt, capped. *)
Lemma wait_exponential_capped (m max : Q) (k : Z) :
  (0 <= max)%Q ->
  (0 <= Tenacity.wait_exponential m max k <= max)%Q
  /\ ((0 <= m)%Q ->
      (Tenacity.wait_exponential m max k
       == Qmin (m * inject_Z (2 ^ (k - 1))) max)%Q).
Proof.
  intros Hmax. unfold Tenacity.wait_exponential. cbv zeta.
  assert (Hp : (0 <= 2 ^ (k - 1))%Z) by (apply Z.pow_nonneg; lia).
  assert (Hq0 : (0 <= inject_Z (2 ^ (k - 1)))%Q)
    by (change 0%Q with (inject_Z 0); rewrite <- Zle_Qle; exact Hp).
  rewrite Q.max_id. split; [split|].
  - apply Q.le_max_l.
  - apply Q.max_lub; [exact Hmax|apply Q.le_min_r].
  - intros Hm. apply Q.max_r. apply Q.min_glb; [nra|exact Hmax].
Qed.
End BackoffProps.

Section PolicyProps.
Context {S : Type} `{Runtime S} {A : Type}.
Variable wait : Z -> Q.
Variable retry_on : Exn -> bool.
Variable fn : M S A.

(** One round of the loop. *)
Lemma attempts_return (remaining : nat) (k : Z) (s s' : S) (a : A) :
  fn s = (Ok a, s') ->
  Tenacity.attempts wait retry_on fn remaining k s = (Ok a, s').
Proof.
  intros Hfn. destruct remaining; simpl; unfold try_except; rewrite Hfn; reflexivity.
Qed.

Lemma attempts_final (remaining : nat) (k : Z) (s s' : S) (x : Exn) :
  fn s = (Raise x, s') -> retry_on x = false ->
  Tenacity.attempts wait retry_on fn remaining k s = (Raise x, s').
Proof.
  intros Hfn Hno. destruct remaining; simpl; unfold try_except; rewrite Hfn, Hno;
    reflexivity.
Qed.

Lemma attempts_exhausted (k : Z) (s s' : S) (x : Exn) :
  fn s = (Raise x, s') ->
  Tenacity.attempts wait retry_on fn 0 k s = (Raise x, s').
Proof.
  intros Hfn. simpl. unfold try_except. rewrite Hfn.
  destruct (retry_on x); reflexivity.
Qed.

Lemma attempts_again (remaining : nat) (k : Z) (s s' : S) (x : Exn) :
  fn s = (Raise x, s') -> retry_on x = true ->
  Tenacity.attempts wait retry_on fn (Datatypes.S remaining) k s
  = Tenacity.attempts wait retry_on fn remaining (k + 1) (sleep (wait k) s').
Proof.
  intros Hfn Hyes. simpl. unfold try_except. rewrite Hfn, Hyes. reflexivity.
Qed.
End PolicyProps.

Section TransportAlwaysFails.
Variable wait : Z -> Q.
Variable req : Request.
Variable m : pystr.

(** Against a transport that fails every time, the loop sends the
    request once per attempt allowed and sleeps between the attempts. *)
Lemma attempts_all_fail (remaining : nat) :
  forall (k : Z) (e : Env),
    (forall n r, network e n r = Fail (HttpxRequestError m)) ->
    exists e',
      Tenacity.attempts wait isinstance_httpx_RequestError (send req) remaining k e
      = (Raise (HttpxRequestError m), e')
      /\ length (sent e') = (length (sent e) + Datatypes.S remaining)%nat
      /\ length (slept e') = (length (slept e) + remaining)%nat.
Proof.
  induction remaining as [|remaining IH]; intros k e Hnet.
  - exists (set_sent (sent e ++ [req]) e).
    split; [|split].
    + apply attempts_exhausted. unfold send. rewrite Hnet. reflexivity.
    + simpl. rewrite length_app. reflexivity.
    + simpl. lia.
  - rewrite (attempts_again wait isinstance_httpx_RequestError (send req) remaining k
               e (set_sent (sent e ++ [req]) e) (HttpxRequestError m));
      [|unfold send; rewrite Hnet; reflexivity|reflexivity].
    destruct (IH (k + 1) (sleep (wait k) (set_sent (sent e ++ [req]) e)))
      as (e' & Hrun & Hsent & Hslept).
    { intros n r. simpl. apply Hnet. }
    exists e'. split; [exact Hrun|].
    rewrite Hsent, Hslept. simpl. rewrite !length_app. simpl. lia.
Qed.
End TransportAlwaysFails.

Section RetryClaim.
Import HttpClient.

End RetryClaim.



(** ** Further properties of the token store *)

Section AwareExpiry.
Import AuthManager.

(** A refresh answered 200 whose new credential is to be scheduled and
    carries a timezone-aware expiry (an [expires_at] text with an
    offset or a [Z], and no [expires_in]) is stored and fails all the
    same: [set_tokens] has stored the credential when
    [_schedule_refresh] raises [TypeError], so [refresh_token] raises,
    no timer is armed, and from then on the validity check of the stored
    credential raises [TypeError], and [ensure_valid_token] with it.
    Without [on_auth_error] what [refresh_token] raises is an
    [AuthenticationError]. *)
Theorem refresh_aware_expiry_is_stored (am : t) (e : Env) (prev ti : TokenInfo.t)
    (rt : string) (resp : Response) (d : gmap string json) (q : Q)
    (Htok : _token_info am = Some prev)
    (Hrt : TokenInfo.refresh_token prev = Some rt) (Hne : rt <> "")
    (Hnet : network e (length (sent e))
              (refresh_request (AuthConfig.base_url (config am)) rt) = Respond resp)
    (Hst : status_code resp = 200) (Hbody : body resp = Some (JDict d))
    (Hnew : new_token_from d prev
              (set_sent (sent e ++ [refresh_request (AuthConfig.base_url (config am)) rt]) e)
            = Ok ti)
    (Hsched : to_schedule am ti = Some (Aware q)) :
  exists x am' e',
    refresh_token (am, e) = (Raise x, (am', e'))
    /\ _token_info am' = Some ti /\ _refresh_task am' = None
    /\ (on_auth_error am = false ->
        exists err, x = SDK err /\ err_class err = AuthenticationError)
    /\ (forall now,
          _is_token_valid am' now
          = Raise (Builtin "TypeError"
                     (Str "can't compare offset-naive and offset-aware datetimes")))
    /\ forall e2,
         ensure_valid_token (am', e2)
         = (Raise (Builtin "TypeError"
                     (Str "can't compare offset-naive and offset-aware datetimes")),
            (am', e2)).
Proof.
  pose proof (new_token_from_bearer _ _ _ _ Hnew) as Hbearer.
  assert (Hexp : TokenInfo.expires_at ti = Some (Aware q)).
  { unfold to_schedule in Hsched.
    destruct (AuthConfig.auto_refresh (config am) && truthy_str (TokenInfo.refresh_token ti));
      [exact Hsched|discriminate]. }
  rewrite (refresh_token_run am e prev rt Htok Hrt Hne), refresh_exchange_run.
  cbv zeta. rewrite Hnet, Hst, Hbody, Hnew. simpl.
  rewrite set_tokens_run. cbv zeta. rewrite Hsched. cbn [fst snd].
  set (am1 := set_refresh_task None (set_token_info (Some ti) am)).
  set (e1 := match _refresh_task am with
             | Some h => set_tasks (alter cancel_task h (tasks _)) _
             | None => _
             end).
  destruct (refresh_handler_run (A := TokenInfo.t)
              (Builtin "TypeError"
                 (Str "can't subtract offset-naive and offset-aware datetimes")) am1 e1)
    as (err & Hcls & Hh).
  assert (Hvalid : forall now,
            _is_token_valid am1 now
            = Raise (Builtin "TypeError"
                       (Str "can't compare offset-naive and offset-aware datetimes"))).
  { intros now. unfold _is_token_valid, am1. simpl. rewrite Hbearer, Hexp. reflexivity. }
  assert (Hensure : forall e2,
            ensure_valid_token (am1, e2)
            = (Raise (Builtin "TypeError"
                        (Str "can't compare offset-naive and offset-aware datetimes")),
               (am1, e2))).
  { intros e2. unfold ensure_valid_token, _is_token_valid, bind, gets, on_snd, lift, am1.
    simpl. rewrite Hbearer, Hexp. reflexivity. }
  rewrite Hh.
  assert (Hoae : on_auth_error am1 = on_auth_error am) by reflexivity.
  rewrite Hoae.
  destruct (on_auth_error am).
  - destruct (application e1 (length (notified e1)) (AuthError (SDK err)));
      do 3 eexists; (split; [reflexivity|]); (split; [reflexivity|]);
      (split; [reflexivity|]); (split; [discriminate|]);
      (split; [exact Hvalid|exact Hensure]).
  - do 3 eexists. split; [reflexivity|]. split; [reflexivity|]. split; [reflexivity|].
    split; [intros _; eauto|]. split; [exact Hvalid|exact Hensure].
Qed.
End AwareExpiry.

(** The refresh endpoint answers with an [expires_at] text that ends in
    [Z], which the decoder reads as an aware datetime. *)
Lemma refresh_aware_expiry_is_stored_witness :
  exists x am' e',
    AuthManager.refresh_token
      (bearer_store true None,
       mkEnv 1000
         (fun _ _ => Respond (mkResponse 200 ""
                                (Some (JDict {[ "access_token" := JStr "tok1";
                                                "expires_at" := JStr "2030-01-01T00:00:00Z" ]}))
                                ""))
         [] [] (fun _ _ => None) [] true [] (fun _ => Some (Aware 5000)) (fun _ => None) Some)
    = (Raise x, (am', e'))
    /\ AuthManager.get_access_token am' = Some "tok1"
    /\ AuthManager._is_token_valid am' 1000
       = Raise (Builtin "TypeError"
                  (Str "can't compare offset-naive and offset-aware datetimes")).
Proof.
  assert (Hne : "r0" <> "") by discriminate.
  destruct (refresh_aware_expiry_is_stored (bearer_store true None)
              (mkEnv 1000
                 (fun _ _ => Respond (mkResponse 200 ""
                                (Some (JDict {[ "access_token" := JStr "tok1";
                                                "expires_at" := JStr "2030-01-01T00:00:00Z" ]}))
                                ""))
                 [] [] (fun _ _ => None) [] true [] (fun _ => Some (Aware 5000))
                 (fun _ => None) Some)
              (TokenInfo.mk "tok0" (Some "r0") None "bearer")
              (TokenInfo.mk "tok1" (Some "r0") (Some (Aware 5000)) "bearer")
              "r0" _ _ 5000 eq_refl eq_refl Hne eq_refl eq_refl eq_refl)
    as (x & am' & e' & Hrun & Hstored & _ & _ & Hvalid & _).
  - vm_compute. reflexivity.
  - reflexivity.
  - exists x, am', e'. split; [exact Hrun|].
    split; [unfold AuthManager.get_access_token; rewrite Hstored; reflexivity|].
    exact (Hvalid 1000%Q).
Defined.

Section ExpiryPrecedence.
Import AuthManager.

(** Where the new credential's expiry comes from, after a refresh that
    returned: from [expires_in] when the answer has that key (whatever
    [expires_at] says), a naive datetime that many seconds from now;
    else from the [expires_at] text, naive or aware as the text is; else
    from the [exp] claim of the new access token.  A key that is present
    decides alone, so an answer whose [expires_in] is not a number
    cannot succeed. *)
Theorem refresh_expiry_precedence (am : t) (e : Env) (ti : TokenInfo.t) (s : t * Env)
    (Hrun : refresh_token (am, e) = (Ok ti, s)) :
  exists resp d rt,
    network e (length (sent e))
      (refresh_request (AuthConfig.base_url (config am)) rt) = Respond resp
    /\ body resp = Some (JDict d)
    /\ d !! "access_token" = Some (JStr (TokenInfo.access_token ti))
    /\ match d !! "expires_in" with
       | Some (JNum q) => TokenInfo.expires_at ti = Some (Naive (clock e + q))
       | Some (JBool b) =>
           TokenInfo.expires_at ti = Some (Naive (clock e + (if b then 1 else 0)))
       | Some _ => False
       | None =>
           match d !! "expires_at" with
           | Some (JStr iso) =>
               is_Some (TokenInfo.expires_at ti)
               /\ TokenInfo.expires_at ti = fromisoformat e iso
           | Some _ => False
           | None =>
               TokenInfo.expires_at ti
               = _extract_expiry_from_jwt e (TokenInfo.access_token ti)
           end
       end.
Proof.
  destruct (refresh_token_returns am e ti s Hrun)
    as (prev & rt & resp & d & _ & _ & Hnet & _ & Hbody & Hnew & _).
  exists resp, d, rt. split; [exact Hnet|]. split; [exact Hbody|].
  unfold new_token_from in Hnew.
  destruct (d !! "access_token") as [a|]; [|discriminate].
  set (r := default _ (d !! "refresh_token")) in Hnew.
  assert (Hshape : exists access new_token_info,
             a = JStr access /\ TokenInfo.access_token new_token_info = access
             /\ match d !! "expires_in" with
                | Some (JNum q) =>
                    Ok (TokenInfo.set_expires_at
                          (Some (Naive (clock e + q))) new_token_info)
                | Some (JBool b) =>
                    Ok (TokenInfo.set_expires_at
                          (Some (Naive (clock e + (if b then 1 else 0)))) new_token_info)
                | Some _ =>
                    Raise (Builtin "TypeError"
                             (Str "unsupported type for timedelta seconds component"))
                | None =>
                    match d !! "expires_at" with
                    | Some (JStr s) =>
                        match fromisoformat e s with
                        | Some x => Ok (TokenInfo.set_expires_at (Some x) new_token_info)
                        | None => Raise (Builtin "ValueError"
                                           (Str "Invalid isoformat string"))
                        end
                    | Some _ =>
                        Raise (Builtin "AttributeError"
                                 (Str "object has no attribute 'replace'"))
                    | None =>
                        Ok (TokenInfo.set_expires_at
                              (_extract_expiry_from_jwt e access) new_token_info)
                    end
                end = Ok ti).
  { destruct a as [| | |access| |]; try discriminate.
    destruct r as [| | |rs| |]; try discriminate;
      eexists _, _; (split; [reflexivity|]); (split; [|exact Hnew]); reflexivity. }
  destruct Hshape as (access & nti & -> & Hacc & Hres).
  destruct (d !! "expires_in") as [[|b|q| | |]|]; try discriminate.
  - injection Hres as <-. simpl. rewrite Hacc. split; reflexivity.
  - injection Hres as <-. simpl. rewrite Hacc. split; reflexivity.
  - destruct (d !! "expires_at") as [[| | |iso| |]|]; try discriminate.
    + destruct (fromisoformat e iso) as [x|] eqn:Hiso; [|discriminate].
      injection Hres as <-. simpl. rewrite Hacc.
      split; [reflexivity|]. split; [eexists; reflexivity|reflexivity].
    + injection Hres as <-. simpl. rewrite Hacc. split; reflexivity.
Qed.
End ExpiryPrecedence.

Section StoreLifecycle.
Import AuthManager.

(** The wake-up of a task that is not asleep any more (cancelled,
    finished, failed, or never created) does nothing. *)
Lemma wakeup_idle (h : nat) (am : t) (e : Env) :
  (forall task, tasks e !! h = Some task -> task_state task <> Sleeping) ->
  _auto_refresh_wakeup h (am, e) = (Ok tt, (am, e)).
Proof.
  intros Hno. unfold _auto_refresh_wakeup, bind, gets, ret. simpl.
  destruct (tasks e !! h) as [task|] eqn:Hlook; [|reflexivity].
  specialize (Hno task eq_refl). destruct (task_state task); try reflexivity.
  congruence.
Qed.

(** [clear_tokens] forgets the credential: no access token and no header
    are handed out any more, the store is unauthenticated at all times,
    the pending refresh is cancelled, [ensure_valid_token] raises
    [AuthenticationError]; nothing is sent and no callback is called. *)
Theorem clear_tokens_forgets (am : t) (e : Env) (Hinv : one_pending am e) :
  exists am' e',
    clear_tokens (am, e) = (Ok tt, (am', e'))
    /\ get_access_token am' = None /\ get_auth_header am' = None
    /\ (forall now, is_authenticated am' now = Ok false)
    /\ _refresh_task am' = None
    /\ (forall i t, tasks e' !! i = Some t -> task_state t <> Sleeping)
    /\ sent e' = sent e /\ notified e' = notified e
    /\ exists err, ensure_valid_token (am', e') = (Raise (SDK err), (am', e'))
                   /\ err_class err = AuthenticationError.
Proof.
  pose proof (cancel_clears am e Hinv) as Hclear.
  destruct am as [cfg c1 c2 ti [h|]]; simpl in Hclear;
    unfold clear_tokens, bind, gets, on_fst, on_snd, modify, cancel, ret; simpl;
    do 2 eexists; (split; [reflexivity|]);
    repeat (split; [first [reflexivity | intros; reflexivity | exact Hclear]|]);
    eexists; split; reflexivity.
Qed.

(** An API key in the configuration wins over everything else in it: the
    constructor returns a store that holds the key as a credential that
    never expires, sends it as it is, has scheduled nothing, hands the
    key out at any time, and cannot refresh, whatever [bearer_token],
    [refresh_token] and [auto_refresh] say. *)
Theorem init_api_key_precedence (config : AuthConfig.t) (cb1 cb2 : bool) (e : Env)
    (key : string)
    (Hkey : AuthConfig.api_key config = Some key) (Hne : key <> "") :
  exists am,
    init config cb1 cb2 e = (Ok am, e)
    /\ get_access_token am = Some key /\ get_auth_header am = Some key
    /\ _refresh_task am = None
    /\ (forall now, is_authenticated am now = Ok true)
    /\ (forall e2, ensure_valid_token (am, e2) = (Ok key, (am, e2)))
    /\ forall e2, exists err,
         refresh_token (am, e2) = (Raise (SDK err), (am, e2))
         /\ err_class err = AuthenticationError.
Proof.
  unfold init. rewrite Hkey. simpl.
  apply String.eqb_neq in Hne. rewrite Hne. simpl.
  destruct (AuthConfig.auto_refresh config); simpl;
  (eexists; split; [reflexivity|]);
  (split; [reflexivity|]); (split; [reflexivity|]); (split; [reflexivity|]);
  (split; [reflexivity|]); (split; [reflexivity|]);
  intros e2; apply refresh_token_unavailable; intros prev [= <-]; reflexivity.
Qed.

(** After [close] no refresh will happen any more: the pending task is
    cancelled, so that every later wake-up does nothing; the credential
    and the task handle stay.  [close] returns, unless the task the
    store holds had ended by an exception, which [close] then raises. *)
Theorem close_stops_refresh (am : t) (e : Env) (Hinv : one_pending am e) :
  exists r e',
    close (am, e) = (r, (am, e'))
    /\ (forall i t, tasks e' !! i = Some t -> task_state t <> Sleeping)
    /\ (forall h, _auto_refresh_wakeup h (am, e') = (Ok tt, (am, e')))
    /\ sent e' = sent e /\ notified e' = notified e /\ clock e' = clock e
    /\ match r with
       | Ok _ =>
           forall h t x, _refresh_task am = Some h -> tasks e !! h = Some t ->
                         task_state t <> Failed x
       | Raise x =>
           exists h t, _refresh_task am = Some h /\ tasks e !! h = Some t
                       /\ task_state t = Failed x
       end.
Proof.
  pose proof (cancel_clears am e Hinv) as Hclear.
  destruct am as [cfg c1 c2 ti [h|]]; simpl in Hclear;
    unfold close, bind, gets, on_snd, modify, cancel, ret, raise; simpl.
  - rewrite list_lookup_alter_eq.
    destruct (tasks e !! h) as [t|] eqn:Hlook; simpl.
    + destruct (task_state t) eqn:Hs; unfold cancel_task; rewrite Hs; simpl;
        rewrite ?Hs; simpl;
        do 2 eexists; (split; [reflexivity|]);
        (split; [exact Hclear|]); (split; [intros h'; apply wakeup_idle; apply Hclear|]);
        (split; [reflexivity|]); (split; [reflexivity|]); (split; [reflexivity|]);
        try (intros h' t' x' [= <-] Ht'; rewrite Hlook in Ht'; injection Ht' as <-;
             rewrite Hs; discriminate).
      exists h, t. repeat split; assumption.
    + do 2 eexists. split; [reflexivity|].
      split; [exact Hclear|]. split; [intros h'; apply wakeup_idle; apply Hclear|].
      repeat split. intros h' t' x' [= <-] Ht'. rewrite Hlook in Ht'. discriminate.
  - do 2 eexists. split; [reflexivity|].
    split; [exact Hclear|]. split; [intros h'; apply wakeup_idle; apply Hclear|].
    repeat split. intros h' t' x' Hh. discriminate.
Qed.
End StoreLifecycle.

Lemma refresh_expiry_precedence_witness :
  exists ti s,
    AuthManager.refresh_token (bearer_store true None, idp 200 1000) = (Ok ti, s)
    /\ TokenInfo.expires_at ti = Some (Naive (1000 + 3600)).
Proof.
  destruct (AuthManager.refresh_token (bearer_store true None, idp 200 1000))
    as [[ti|x] s] eqn:Hrun.
  - exists ti, s. split; [reflexivity|].
    destruct (refresh_expiry_precedence _ _ _ _ Hrun)
      as (resp & d & rt & Hnet & Hbody & _ & Hexp).
    vm_compute in Hnet. injection Hnet as <-.
    vm_compute in Hbody. injection Hbody as <-.
    exact Hexp.
  - vm_compute in Hrun. discriminate Hrun.
Defined.

Lemma clear_tokens_forgets_witness :
  exists am' e',
    AuthManager.clear_tokens (watched_store, pending_env 200) = (Ok tt, (am', e'))
    /\ AuthManager.get_auth_header am' = None
    /\ forall i t, tasks e' !! i = Some t -> task_state t <> Sleeping.
Proof.
  destruct (clear_tokens_forgets watched_store (pending_env 200) (one_pending_watched 200))
    as (am' & e' & Hrun & _ & Hh & _ & _ & Hidle & _).
  exists am', e'. split; [exact Hrun|]. split; [exact Hh|exact Hidle].
Defined.

Lemma init_api_key_precedence_witness :
  exists am,
    AuthManager.init
      (AuthConfig.mk "https://idp.example/" (Some "key0") (Some "tok0") (Some "r0") true)
      false false (idp 200 1000)
    = (Ok am, idp 200 1000)
    /\ AuthManager.get_auth_header am = Some "key0"
    /\ AuthManager._refresh_task am = None.
Proof.
  assert (Hne : "key0" <> "") by discriminate.
  destruct (init_api_key_precedence
              (AuthConfig.mk "https://idp.example/" (Some "key0") (Some "tok0")
                 (Some "r0") true)
              false false (idp 200 1000) "key0" eq_refl Hne)
    as (am & Hinit & _ & Hh & Htask & _).
  exists am. split; [exact Hinit|]. split; [exact Hh|exact Htask].
Defined.

Lemma close_stops_refresh_witness :
  exists e',
    AuthManager.close (watched_store, pending_env 200) = (Ok tt, (watched_store, e'))
    /\ AuthManager._auto_refresh_wakeup 0 (watched_store, e')
       = (Ok tt, (watched_store, e')).
Proof.
  destruct (close_stops_refresh watched_store (pending_env 200) (one_pending_watched 200))
    as (r & e' & Hrun & _ & Hidle & _ & _ & _ & Hr).
  destruct r as [[]|x].
  - exists e'. split; [exact Hrun|exact (Hidle 0%nat)].
  - destruct Hr as (h & t & Hh & Ht & Hs).
    injection Hh as <-. vm_compute in Ht. injection Ht as <-. discriminate Hs.
Defined.

Section RefreshTaskProps.
Import AuthManager.

(** A refresh that raises leaves the callbacks and the application as
    they were. *)
Lemma refresh_token_raise_frame (am am1 : t) (e e1 : Env) (x : Exn) :
  refresh_token (am, e) = (Raise x, (am1, e1)) ->
  on_auth_error am1 = on_auth_error am /\ application e1 = application e.
Proof.
  intros Hrun.
  destruct (_token_info am) as [prev|] eqn:Htok;
    [destruct (truthy_str (TokenInfo.refresh_token prev)) eqn:Htr|].
  - destruct (TokenInfo.refresh_token prev) as [rt|] eqn:Hrt; [|discriminate].
    apply truthy_str_Some in Htr.
    rewrite (refresh_token_run am e prev rt Htok Hrt Htr) in Hrun.
    destruct (refresh_exchange prev rt (am, e)) as [[ti|y] [am2 e2]] eqn:Hex;
      [discriminate|].
    destruct (refresh_exchange_frame _ _ _ _ _ _ _ Hex)
      as (_ & _ & Hoae & _ & _ & _ & _ & Happ & _).
    destruct (refresh_handler_frame y am2 am1 e2 e1 _ Hrun)
      as (-> & _ & _ & _ & _ & _ & Happ1 & _).
    split; congruence.
  - destruct (refresh_token_unavailable am e) as (err & Hh & _).
    { intros p Hp. congruence. }
    rewrite Hh in Hrun. injection Hrun as _ <- <-. split; reflexivity.
  - destruct (refresh_token_unavailable am e) as (err & Hh & _).
    { intros p Hp. congruence. }
    rewrite Hh in Hrun. injection Hrun as _ <- <-. split; reflexivity.
Qed.

(** A refresh whose exchange fails (the transport fails, or the answer
    is not a 200), the callback returning. *)
Lemma refresh_token_failure_run (am : t) (e : Env) (prev : TokenInfo.t) (rt : string) :
  _token_info am = Some prev -> TokenInfo.refresh_token prev = Some rt -> rt <> "" ->
  match network e (length (sent e))
          (refresh_request (AuthConfig.base_url (config am)) rt) with
  | Fail _ => True
  | Respond resp => status_code resp <> 200
  end ->
  (forall note, application e (length (notified e)) note = None) ->
  let e0 := set_sent (sent e ++ [refresh_request (AuthConfig.base_url (config am)) rt]) e in
  exists err,
    refresh_token (am, e)
    = (Raise (SDK err),
       (am, if on_auth_error am
            then set_notified (notified e0 ++ [AuthError (SDK err)]) e0 else e0))
    /\ err_class err = AuthenticationError.
Proof.
  intros Htok Hrt Hne Hfail Hquiet e0.
  rewrite (refresh_token_run am e prev rt Htok Hrt Hne), refresh_exchange_run.
  cbv zeta. fold e0.
  assert (Hhandled : forall y, exists err,
            refresh_handler (A := TokenInfo.t) y (am, e0)
            = (Raise (SDK err),
               (am, if on_auth_error am
                    then set_notified (notified e0 ++ [AuthError (SDK err)]) e0 else e0))
            /\ err_class err = AuthenticationError).
  { intros y. destruct (refresh_handler_run (A := TokenInfo.t) y am e0)
      as (err & Hcls & Hh).
    exists err. split; [|exact Hcls]. rewrite Hh.
    destruct (on_auth_error am); [|reflexivity].
    change (application e0) with (application e).
    change (notified e0) with (notified e). rewrite Hquiet. reflexivity. }
  destruct (network e (length (sent e))
              (refresh_request (AuthConfig.base_url (config am)) rt)) as [resp|y].
  - apply Z.eqb_neq in Hfail. rewrite Hfail. simpl. apply Hhandled.
  - apply Hhandled.
Qed.
End RefreshTaskProps.

Section RefreshTask.
Import AuthManager.

(** How the refresh task ends.  Woken when it is not asleep any more it
    does nothing.  Otherwise it swallows every failure of the refresh:
    without [on_auth_error] it always ends normally, and the only
    exception it can end by is one that [on_auth_error] raised. *)
Theorem auto_refresh_outcome (h : nat) (am am' : t) (e e' : Env) (r : Res unit)
    (Hrun : _auto_refresh_wakeup h (am, e) = (r, (am', e'))) :
  ((forall task, tasks e !! h = Some task -> task_state task <> Sleeping) ->
   r = Ok tt /\ am' = am /\ e' = e)
  /\ (on_auth_error am = false -> r = Ok tt)
  /\ (forall x, r = Raise x ->
        on_auth_error am = true
        /\ exists n y, application e n (AuthError y) = Some x).
Proof.
  split.
  { intros Hidle. rewrite (wakeup_idle h am e Hidle) in Hrun.
    injection Hrun as <- <- <-. repeat split. }
  revert Hrun.
  unfold _auto_refresh_wakeup, bind, gets, on_snd, modify, try_except, ret. simpl.
  destruct (tasks e !! h) as [task|] eqn:Hlook;
    [|intros [= <- _ _]; split; [reflexivity|discriminate]].
  destruct (task_state task) eqn:Hs;
    try (intros [= <- _ _]; split; [reflexivity|discriminate]).
  simpl. set (e0 := set_tasks _ (set_clock _ e)).
  destruct (refresh_token (am, e0)) as [[ti|y] [am1 e1]] eqn:Href; simpl.
  - intros [= <- _ _]. split; [reflexivity|discriminate].
  - destruct (refresh_token_raise_frame _ _ _ _ _ Href) as (Hoae & Happ).
    unfold notify_auth_error, bind, gets, on_snd, notify, ret. cbn [fst snd].
    rewrite Hoae. destruct (on_auth_error am).
    + cbn [fst snd]. rewrite Happ. change (application e0) with (application e).
      destruct (application e (length (notified e1)) (AuthError y)) as [z|] eqn:Hz;
        intros [= <- _ _].
      * split; [discriminate|]. intros x [= <-]. split; [reflexivity|]. eauto.
      * split; [discriminate|]. discriminate.
    + intros [= <- _ _]. split; [reflexivity|discriminate].
Qed.

(** A scheduled refresh that fails in the exchange (the transport fails,
    or the answer is not a 200) reports the failure to [on_auth_error]
    twice, the callback returning: once from [refresh_token]'s handler
    and once more from [_auto_refresh]'s, with the same error.  The task
    ends normally, the store is left as it was, and the refresh request
    has been sent. *)
Theorem auto_refresh_reports_failure_twice (h : nat) (am : t) (e : Env) (task : Task)
    (prev : TokenInfo.t) (rt : string)
    (Htask : tasks e !! h = Some task) (Hsleep : task_state task = Sleeping)
    (Htok : _token_info am = Some prev)
    (Hrt : TokenInfo.refresh_token prev = Some rt) (Hne : rt <> "")
    (Hfail : match network e (length (sent e))
                     (refresh_request (AuthConfig.base_url (config am)) rt) with
             | Fail _ => True
             | Respond resp => status_code resp <> 200
             end)
    (Hquiet : forall n note, application e n note = None) :
  exists err e',
    _auto_refresh_wakeup h (am, e) = (Ok tt, (am, e'))
    /\ err_class err = AuthenticationError
    /\ notified e' = (if on_auth_error am
                      then notified e ++ [AuthError (SDK err); AuthError (SDK err)]
                      else notified e)%list
    /\ sent e' = (sent e ++ [refresh_request (AuthConfig.base_url (config am)) rt])%list
    /\ exists t', tasks e' !! h = Some t' /\ task_state t' = Finished.
Proof.
  unfold _auto_refresh_wakeup, bind, gets, on_snd, modify, try_except, ret. simpl.
  rewrite Htask, Hsleep. simpl.
  set (e0 := set_tasks _ (set_clock _ e)).
  destruct (refresh_token_failure_run am e0 prev rt Htok Hrt Hne Hfail) as (err & Hrun & Hcls).
  { intros note. apply Hquiet. }
  rewrite Hrun. simpl.
  unfold notify_auth_error, bind, gets, on_snd, notify, modify, ret. simpl.
  assert (Hfin : forall l : list Task,
             l = alter (fun t => mkTask (delay t) (created_at t) Running) h (tasks e) ->
             exists t', alter (finish_task (Ok tt)) h l !! h = Some t'
                        /\ task_state t' = Finished).
  { intros l ->. rewrite !list_lookup_alter_eq, Htask. simpl.
    eexists. split; reflexivity. }
  exists err.
  destruct (on_auth_error am); simpl; rewrite ?Hquiet; simpl;
    eexists; (split; [reflexivity|]); simpl;
    (split; [exact Hcls|]); (split; [|split; [reflexivity|apply Hfin; reflexivity]]).
  - rewrite <- app_assoc. reflexivity.
  - reflexivity.
Qed.
End RefreshTask.

Lemma auto_refresh_outcome_witness :
  exists e',
    AuthManager._auto_refresh_wakeup 0 (bearer_store true (Some 4600%Q), pending_env 500)
    = (Ok tt, (bearer_store true (Some 4600%Q), e'))
    /\ sent e' = [AuthManager.refresh_request "https://idp.example/" "r0"].
Proof.
  destruct (AuthManager._auto_refresh_wakeup 0
              (bearer_store true (Some 4600%Q), pending_env 500))
    as [r [am' e']] eqn:Hrun.
  destruct (auto_refresh_outcome _ _ _ _ _ _ Hrun) as (_ & Hquiet & _).
  specialize (Hquiet eq_refl). subst r.
  vm_compute in Hrun. injection Hrun as <- <-.
  eexists. split; reflexivity.
Defined.

Lemma auto_refresh_reports_failure_twice_witness :
  exists err e',
    AuthManager._auto_refresh_wakeup 0 (watched_store, pending_env 500)
    = (Ok tt, (watched_store, e'))
    /\ notified e' = [AuthError (SDK err); AuthError (SDK err)].
Proof.
  assert (Hne : "r0" <> "") by discriminate.
  assert (Hfail : match network (pending_env 500) (length (sent (pending_env 500)))
                          (AuthManager.refresh_request
                             (AuthConfig.base_url (AuthManager.config watched_store)) "r0")
                  with
                  | Fail _ => True
                  | Respond resp => status_code resp <> 200
                  end) by (vm_compute; discriminate).
  destruct (auto_refresh_reports_failure_twice 0 watched_store (pending_env 500)
              (mkTask 3300 1000 Sleeping)
              (TokenInfo.mk "tok0" (Some "r0") (Some (Naive 4600)) "bearer") "r0"
              eq_refl eq_refl eq_refl eq_refl Hne Hfail (fun _ _ => eq_refl))
    as (err & e' & Hrun & _ & Hn & _).
  exists err, e'. split; [exact Hrun|exact Hn].
Defined.

(** ** Properties of [BackstageClient] and [AuthAPI] *)

Section ClientStore.


(** [AuthAPI.set_api_key] on a client with a token store: the store
    holds the key as its credential from then on, sent as it is and
    valid at all times; the scheduled refresh is cancelled and none is
    armed; nothing is sent.  Without [on_token_refresh] the call returns
    and no callback is called.  On a client without a token store the
    call does nothing. *)
Theorem set_api_key_stops_refresh (key : string) (c : HttpClient.t) (e : Env) :
  (HttpClient.auth_manager c = None ->
   AuthAPI.set_api_key key (c, e) = (Ok tt, (c, e)))
  /\ (forall am,
        HttpClient.auth_manager c = Some am -> one_pending am e ->
        exists r am' e',
          AuthAPI.set_api_key key (c, e)
          = (r, (HttpClient.set_auth_manager (Some am') c, e'))
          /\ AuthManager.get_access_token am' = Some key
          /\ AuthManager.get_auth_header am' = Some key
          /\ (forall now, AuthManager.is_authenticated am' now = Ok true)
          /\ AuthManager._refresh_task am' = None
          /\ (forall i t, tasks e' !! i = Some t -> task_state t <> Sleeping)
          /\ sent e' = sent e
          /\ (AuthManager.on_token_refresh am = false ->
              r = Ok tt /\ notified e' = notified e)).
Proof.
  split.
  - intros Hno. unfold AuthAPI.set_api_key, AuthAPI.if_auth, bind, gets, ret. simpl.
    rewrite Hno. reflexivity.
  - intros am Ham Hinv.
    pose proof (cancel_clears am e Hinv) as Hclear.
    unfold AuthAPI.set_api_key, AuthAPI.if_auth, HttpClient.on_auth_manager,
      bind, gets, ret. cbn [fst snd]. rewrite Ham. cbn [fst snd]. rewrite Ham.
    rewrite set_tokens_run. cbv zeta.
    assert (Hsched : to_schedule am (TokenInfo.mk key None None "api_key") = None).
    { unfold to_schedule. simpl. rewrite andb_false_r. reflexivity. }
    rewrite Hsched. unfold callback, notify. cbn [fst snd].
    destruct am as [cfg otr oae tok task]. simpl in *.
    destruct otr; simpl.
    + match goal with
      | |- context [application ?e0 ?n ?note] => destruct (application e0 n note)
      end; simpl;
        do 3 eexists; (split; [reflexivity|]); simpl;
        (split; [reflexivity|]); (split; [reflexivity|]); (split; [reflexivity|]);
        (split; [reflexivity|]);
        (split; [destruct task; exact Hclear|]);
        (split; [destruct task; reflexivity|]); discriminate.
    + do 3 eexists. split; [reflexivity|]. simpl.
      split; [reflexivity|]. split; [reflexivity|]. split; [reflexivity|].
      split; [reflexivity|].
      split; [destruct task; exact Hclear|].
      split; [destruct task; reflexivity|].
      intros _. split; [reflexivity|destruct task; reflexivity].
Qed.
End ClientStore.


Lemma set_api_key_stops_refresh_witness :
  exists am' e',
    AuthAPI.set_api_key "key1"
      (HttpClient.init sdk_config (Some (bearer_store true (Some 4600%Q))) 4242 1000,
       quiet_env 1000 (fun _ _ => Respond ok_response))
    = (Ok tt,
       (HttpClient.set_auth_manager (Some am')
          (HttpClient.init sdk_config (Some (bearer_store true (Some 4600%Q))) 4242 1000),
        e'))
    /\ AuthManager.get_auth_header am' = Some "key1"
    /\ AuthManager._refresh_task am' = None.
Proof.
  destruct (set_api_key_stops_refresh "key1"
              (HttpClient.init sdk_config (Some (bearer_store true (Some 4600%Q))) 4242 1000)
              (quiet_env 1000 (fun _ _ => Respond ok_response))) as (_ & Hstore).
  destruct (Hstore (bearer_store true (Some 4600%Q)) eq_refl)
    as (r & am' & e' & Hrun & _ & Hh & _ & Htask & _ & _ & Hret).
  - exact (one_pending_quiet _ _ _).
  - destruct (Hret eq_refl) as (-> & _).
    exists am', e'. split; [exact Hrun|]. split; [exact Hh|exact Htask].
Defined.
